(** * KarokiMate: offline-first recording lifecycle and sync reconciliation

    A shallow embedding of the services behind the recording lifecycle:
    [DatabaseService] (services/database), [SyncService]
    (services/syncService.ts), [AudioService] (services/audioService.ts) and
    [SongService] (services/songService.ts).

    Conventions.
    - Every [async] method is a function from the service state and an
      environment record to the new state and a [result].  The environment
      record carries what the outside world decides during the call: whether
      a storage write or an SQL statement succeeds, what [Date.now()] is,
      whether an upload goes through.
    - A promise that rejects (a [throw]) is [Throw msg]; one that resolves is
      [Ok v].
    - [AsyncStorage.getItem] and [localStorage.getItem] are taken to succeed;
      their value is a [slot]: no value, a string that [JSON.parse] rejects,
      or the [JSON.stringify] of an array.  Every write the code makes under
      these keys is the [JSON.stringify] of an array, so a stored string
      that parses is taken to be one; a value that parses to something
      else is outside the model. *)

From Stdlib Require Import String List Bool Arith ZArith Lia.
Import ListNotations.
Open Scope string_scope.

(** ** Results of fallible calls *)

Inductive result (A : Type) : Type :=
| Ok (a : A)
| Throw (msg : string).
Arguments Ok {A} a.
Arguments Throw {A} msg.

Definition is_ok {A} (r : result A) : bool :=
  match r with Ok _ => true | Throw _ => false end.

(** [x || d] on an optional string: the empty string is falsy too. *)
Definition or_default (x : option string) (d : string) : string :=
  match x with
  | Some s => if String.eqb s "" then d else s
  | None => d
  end.

(** [x || false] on an optional boolean. *)
Definition or_false (x : option bool) : bool :=
  match x with Some b => b | None => false end.

(** [x || d] on an optional array: an array is truthy even when empty. *)
Definition or_tags (x : option (list string)) (d : list string) : list string :=
  match x with Some l => l | None => d end.

(** [x || d] on an optional number: [0] is falsy. *)
Definition or_number (x : option Z) (d : Z) : Z :=
  match x with
  | Some n => if Z.eqb n 0 then d else n
  | None => d
  end.

(** ** Data model (services/database) *)

Module Song.
Record t := mk {
  id : string;
  title : string;
  artist : string;
  duration : Z;
  audioUrl : string;
  lyrics : string;
  timing : string;
  isDownloaded : bool;
  createdAt : string;
  updatedAt : string
}.

Definition with_download (url : string) (b : bool) (s : t) : t :=
  mk (id s) (title s) (artist s) (duration s) url (lyrics s) (timing s) b
     (createdAt s) (updatedAt s).

Definition stamped (now : string) (s : t) : t :=
  mk (id s) (title s) (artist s) (duration s) (audioUrl s) (lyrics s)
     (timing s) (isDownloaded s) now now.
End Song.

Module Recording.
Record t := mk {
  id : string;
  songId : option string;
  audioPath : string;
  duration : Z;
  createdAt : string;
  isSynced : bool;
  rating : option Z;
  title : option string;
  artist : option string;
  isPublic : option bool;
  tags : option (list string);
  playCount : option Z
}.

(** [{ ...recording, createdAt: now }] *)
Definition with_createdAt (now : string) (r : t) : t :=
  mk (id r) (songId r) (audioPath r) (duration r) now (isSynced r)
     (rating r) (title r) (artist r) (isPublic r) (tags r) (playCount r).

(** [{ ...recording, isSynced }] *)
Definition with_isSynced (b : bool) (r : t) : t :=
  mk (id r) (songId r) (audioPath r) (duration r) (createdAt r) b
     (rating r) (title r) (artist r) (isPublic r) (tags r) (playCount r).
End Recording.

(** The value stored under one key of AsyncStorage or localStorage. *)
Inductive slot (A : Type) : Type :=
| Absent                 (* [getItem] returns null (or the empty string) *)
| Garbage                (* a string [JSON.parse] rejects *)
| Json (v : list A).     (* [JSON.stringify] of an array *)
Arguments Absent {A}.
Arguments Garbage {A}.
Arguments Json {A} v.

(** ** DatabaseService *)

Module Database.

(** The two tables of [karaokemate.db]. *)
Record SQLiteDatabase := mkDb {
  songs : list Song.t;
  recordings : list Recording.t
}.

(** The service object together with the device storage it reads and
    writes: [db], [isWeb], and the keys ['karaoke_recordings'] of
    AsyncStorage and ['karaokemate_recordings'] of localStorage. *)
Record t := mk {
  db : option SQLiteDatabase;
  isWeb : bool;
  isInitialized : bool;
  asyncStorage : slot Recording.t;
  localStorage : slot Recording.t
}.

(** What the device decides during one call. *)
Record Env := mkEnv {
  setItem_ok : bool;      (* the storage write does not throw *)
  getAllAsync_ok : bool;  (* [db.getAllAsync] / [db.getFirstAsync] does not throw *)
  runAsync_ok : bool;     (* [db.runAsync] does not throw *)
  now : string            (* [new Date().toISOString()] *)
}.

Definition set_db (d : option SQLiteDatabase) (s : t) : t :=
  mk d (isWeb s) (isInitialized s) (asyncStorage s) (localStorage s).
Definition set_asyncStorage (v : slot Recording.t) (s : t) : t :=
  mk (db s) (isWeb s) (isInitialized s) v (localStorage s).
Definition set_localStorage (v : slot Recording.t) (s : t) : t :=
  mk (db s) (isWeb s) (isInitialized s) (asyncStorage s) v.

(** The object as constructed: [db = null], [isInitialized = false]. *)
Definition create (web : bool) (async local : slot Recording.t) : t :=
  mk None web false async local.

(** [init()].  [opened] is what [openDatabaseAsync] and [createTables] give:
    the tables of the database file ([CREATE TABLE IF NOT EXISTS] keeps
    them), or [None] when either step throws. *)
Definition init (s : t) (opened : option SQLiteDatabase) : t :=
  if isInitialized s then s
  else if isWeb s
       then mk (db s) (isWeb s) true (asyncStorage s) (localStorage s)
       else mk opened (isWeb s) true (asyncStorage s) (localStorage s).

Definition has_id (i : string) (r : Recording.t) : bool :=
  String.eqb (Recording.id r) i.

(** *** Web storage fallback methods *)

Definition getWebRecordings (s : t) : list Recording.t :=
  match localStorage s with
  | Absent => []
  | Garbage => []          (* [JSON.parse] throws, caught, [[]] returned *)
  | Json l => l
  end.

Definition getWebRecording (s : t) (i : string) : option Recording.t :=
  find (has_id i) (getWebRecordings s).

Definition updateWebRecordingSyncStatus
    (s : t) (e : Env) (i : string) (isSynced : bool) : t * result unit :=
  let recordings := getWebRecordings s in
  let updatedRecordings :=
    map (fun r => if has_id i r then Recording.with_isSynced isSynced r else r)
        recordings in
  if setItem_ok e
  then (set_localStorage (Json updatedRecordings) s, Ok tt)
  else (s, Throw "localStorage.setItem").

Definition deleteWebRecording (s : t) (e : Env) (i : string) : t * result unit :=
  let recordings := getWebRecordings s in
  let updatedRecordings := filter (fun r => negb (has_id i r)) recordings in
  if setItem_ok e
  then (set_localStorage (Json updatedRecordings) s, Ok tt)
  else (s, Throw "localStorage.setItem").

Definition saveWebRecording (s : t) (e : Env) (recording : Recording.t)
  : t * result unit :=
  let fullRecording := Recording.with_createdAt (now e) recording in
  let existingRecordings := getWebRecordings s in
  let updatedRecordings := fullRecording :: existingRecordings in
  if setItem_ok e
  then (set_localStorage (Json updatedRecordings) s, Ok tt)
  else (s, Throw "localStorage.setItem").

(** *** Recording operations *)

Definition getRecordings (s : t) : list Recording.t :=
  if isWeb s then getWebRecordings s
  else match asyncStorage s with
       | Absent => []
       | Garbage => []     (* caught: [[]] *)
       | Json l => l
       end.

Definition getRecording (s : t) (i : string) : option Recording.t :=
  if isWeb s then getWebRecording s i
  else match asyncStorage s with
       | Absent => None
       | Garbage => None   (* caught: [null] *)
       | Json l => find (has_id i) l
       end.

Definition saveRecording (s : t) (e : Env) (recording : Recording.t)
  : t * result unit :=
  if isWeb s then saveWebRecording s e recording
  else match asyncStorage s with
       | Garbage => (s, Throw "JSON.parse")
       | stored =>
           let recordings := match stored with Json l => l | _ => [] end in
           let newRecording := Recording.with_createdAt (now e) recording in
           (* recordings.unshift(newRecording) *)
           if setItem_ok e
           then (set_asyncStorage (Json (newRecording :: recordings)) s, Ok tt)
           else (s, Throw "AsyncStorage.setItem")
       end.

Definition updateRecordingSyncStatus
    (s : t) (e : Env) (i : string) (isSynced : bool) : t * result unit :=
  if isWeb s then updateWebRecordingSyncStatus s e i isSynced
  else match db s with
       | None => (s, Ok tt)
       | Some d =>
           if getAllAsync_ok e            (* SELECT 1 *)
           then if runAsync_ok e          (* UPDATE recordings SET isSynced *)
                then (set_db (Some (mkDb (songs d)
                         (map (fun r => if has_id i r
                                        then Recording.with_isSynced isSynced r
                                        else r) (recordings d)))) s, Ok tt)
                else (set_db None s, Ok tt)
           else (set_db None s, Ok tt)
       end.

Definition deleteRecording (s : t) (e : Env) (i : string) : t * result unit :=
  if isWeb s then deleteWebRecording s e i
  else match asyncStorage s with
       | Absent => (s, Ok tt)
       | Garbage => (s, Throw "JSON.parse")
       | Json recordings =>
           let filteredRecordings :=
             filter (fun r => negb (has_id i r)) recordings in
           if Nat.eqb (length filteredRecordings) (length recordings)
           then (s, Ok tt)
           else if setItem_ok e
                then (set_asyncStorage (Json filteredRecordings) s, Ok tt)
                else (s, Throw "AsyncStorage.setItem")
       end.

(** *** Offline sync operations *)

Definition getUnsyncedRecordings (s : t) (e : Env) : result (list Recording.t) :=
  match db s with
  | None => Ok []
  | Some d =>
      if getAllAsync_ok e    (* SELECT * FROM recordings WHERE isSynced = 0 *)
      then Ok (filter (fun r => negb (Recording.isSynced r)) (recordings d))
      else Throw "db.getAllAsync"
  end.

(** *** Song operations *)

Definition song_has_id (i : string) (x : Song.t) : bool :=
  String.eqb (Song.id x) i.

Definition getSong (s : t) (e : Env) (i : string) : result (option Song.t) :=
  match db s with
  | None => Ok None
  | Some d =>
      if getAllAsync_ok e
      then Ok (find (song_has_id i) (songs d))
      else Throw "db.getFirstAsync"
  end.

(** [INSERT OR REPLACE INTO songs]: the row with the same primary key goes,
    the new row comes. *)
Definition saveSong (s : t) (e : Env) (song : Song.t) : t * result unit :=
  match db s with
  | None => (s, Ok tt)
  | Some d =>
      if runAsync_ok e
      then (set_db (Some (mkDb
              (filter (fun x => negb (song_has_id (Song.id song) x)) (songs d)
                 ++ [Song.stamped (now e) song])
              (recordings d))) s, Ok tt)
      else (s, Throw "db.runAsync")
  end.

End Database.


(** ** The remote store (services/firebaseService.ts), as the sync code sees it *)

Module Firebase.

(** A document of the recordings collection, without the server's fields. *)
Record FirebaseRecording := mkRecording {
  userId : string;
  songId : option string;
  songTitle : string;
  songArtist : string;
  audioUrl : string;
  duration : Z;
  isPublic : bool;
  tags : list string;
  playCount : Z
}.

(** Blob storage (by path) and the recordings collection. *)
Record t := mk {
  files : list string;
  recordings : list FirebaseRecording
}.

(** [uploadRecordingFile(fileUri, path)]: [url = None] when the transfer
    throws, otherwise the blob is stored and its download URL returned. *)
Definition uploadRecordingFile (fb : t) (url : option string) (path : string)
  : t * result string :=
  match url with
  | Some u => (mk (path :: files fb) (recordings fb), Ok u)
  | None => (fb, Throw "uploadBytes")
  end.

(** [addRecording(data)]: one new document per successful call. *)
Definition addRecording (fb : t) (ok : bool) (data : FirebaseRecording)
  : t * result unit :=
  if ok then (mk (files fb) (recordings fb ++ [data]), Ok tt)
  else (fb, Throw "setDoc").

End Firebase.

(** ** SyncService (services/syncService.ts) *)

Module Sync.

Record t := mk {
  isOnline : bool;
  isSyncing : bool;
  currentUserId : option string
}.

Definition set_isSyncing (b : bool) (s : t) : t :=
  mk (isOnline s) b (currentUserId s).
Definition set_isOnline (b : bool) (s : t) : t :=
  mk b (isSyncing s) (currentUserId s).

(** The sync service with the two stores it works on. *)
Record World := mkWorld {
  sync : t;
  store : Database.t;
  remote : Firebase.t
}.

(** What the outside world decides during one pass. *)
Record Env := mkEnv {
  queryEnv : Database.Env;                  (* during getUnsyncedRecordings *)
  uploadUrl : Recording.t -> option string; (* uploadRecordingFile of its audio *)
  addDoc_ok : Recording.t -> bool;          (* addRecording of its document *)
  markEnv : Recording.t -> Database.Env;    (* during its updateRecordingSyncStatus *)
  songsEnv : Database.Env;                  (* during downloadNewSongs *)
  dateNow : string                          (* Date.now(), printed *)
}.

(** [this.currentUserId] where it is truthy: the empty string counts as none. *)
Definition user (s : t) : option string :=
  match currentUserId s with
  | Some u => if String.eqb u "" then None else Some u
  | None => None
  end.

Definition has_user (s : t) : bool :=
  match user s with Some _ => true | None => false end.

Definition uploadRecording (s : t) (e : Env) (fb : Firebase.t) (recording : Recording.t)
  : Firebase.t * result unit :=
  match user s with
  | None => (fb, Throw "No user ID available for upload")
  | Some uid =>
      let fileName := "recording_" ++ uid ++ "_" ++ dateNow e ++ ".m4a" in
      let storagePath := "user-recordings/" ++ uid ++ "/" ++ fileName in
      match Firebase.uploadRecordingFile fb (uploadUrl e recording) storagePath with
      | (fb1, Throw m) => (fb1, Throw m)
      | (fb1, Ok audioUrl) =>
          let recordingData :=
            Firebase.mkRecording uid
              (Recording.songId recording)
              (or_default (Recording.title recording) "Unknown Song")
              (or_default (Recording.artist recording) "Unknown Artist")
              audioUrl
              (Recording.duration recording)
              (or_false (Recording.isPublic recording))
              (or_tags (Recording.tags recording) ["karaoke"; "synced"])
              0%Z in
          Firebase.addRecording fb1 (addDoc_ok e recording) recordingData
      end
  end.

(** The [for] loop of [uploadUnsyncedRecordings].  The third component lists
    the iterations in order: the recording and whether its upload went
    through (the [catch] of the loop body logs the ones that did not). *)
Fixpoint uploadLoop (s : t) (e : Env) (queue : list Recording.t)
    (st : Database.t) (fb : Firebase.t)
  : Database.t * Firebase.t * list (Recording.t * bool) :=
  match queue with
  | [] => (st, fb, [])
  | recording :: rest =>
      match uploadRecording s e fb recording with
      | (fb1, Ok _) =>
          (* a throw of updateRecordingSyncStatus lands in the same catch *)
          let st1 := fst (Database.updateRecordingSyncStatus
                            st (markEnv e recording) (Recording.id recording) true) in
          let '(st2, fb2, log) := uploadLoop s e rest st1 fb1 in
          (st2, fb2, (recording, true) :: log)
      | (fb1, Throw _) =>
          let '(st2, fb2, log) := uploadLoop s e rest st fb1 in
          (st2, fb2, (recording, false) :: log)
      end
  end.

Definition uploadUnsyncedRecordings (e : Env) (w : World)
  : World * list (Recording.t * bool) * result unit :=
  match Database.getUnsyncedRecordings (store w) (queryEnv e) with
  | Throw m => (w, [], Throw m)
  | Ok unsyncedRecordings =>
      let '(st, fb, log) :=
        uploadLoop (sync w) e unsyncedRecordings (store w) (remote w) in
      (mkWorld (sync w) st fb, log, Ok tt)
  end.

(** [JSON.stringify] of the two lyric lines of the simulated backend song
    (quotation marks left out). *)
Definition sampleLyrics : string :=
  "[{text:This is a new song,startTime:0,endTime:3000},"
  ++ "{text:Downloaded from backend,startTime:3000,endTime:6000}]".

(** The one song [fetchNewSongsFromBackend] resolves to. *)
Definition fetchNewSongsFromBackend (e : Env) : list Song.t :=
  [ Song.mk ("new_song_" ++ dateNow e) "New Song" "New Artist" 180000
      "https://example.com/new-song.m4a" sampleLyrics sampleLyrics false "" "" ].

Fixpoint saveSongs (e : Env) (l : list Song.t) (st : Database.t) : Database.t :=
  match l with
  | [] => st
  | song :: rest =>
      match Database.saveSong st (songsEnv e) song with
      | (st1, Ok _) => saveSongs e rest st1
      | (st1, Throw _) => st1          (* caught by downloadNewSongs *)
      end
  end.

Definition downloadNewSongs (e : Env) (w : World) : World :=
  mkWorld (sync w) (saveSongs e (fetchNewSongsFromBackend e) (store w)) (remote w).

(** [notifyStatusChange] hands a status to the registered callback and
    changes nothing in the service or the stores; it is left out.

    [performSync] in three parts.  [performSync_enter] is the code before the
    first [await]: the guard and the raising of the flag, which run without
    interruption.  [performSync_exit] is the [finally] block. *)
Definition performSync_enter (s : t) : option t :=
  if negb (isOnline s) || isSyncing s then None
  else Some (set_isSyncing true s).

Definition performSync_body (e : Env) (w : World)
  : World * list (Recording.t * bool) :=
  match uploadUnsyncedRecordings e w with
  | (w1, log, Ok _) => (downloadNewSongs e w1, log)
  | (w1, log, Throw _) => (w1, log)     (* caught: 'Sync failed' *)
  end.

Definition performSync_exit (s : t) : t := set_isSyncing false s.

Definition performSync (e : Env) (w : World)
  : World * list (Recording.t * bool) * result unit :=
  match performSync_enter (sync w) with
  | None => (w, [], Ok tt)
  | Some s1 =>
      let '(w2, log) := performSync_body e (mkWorld s1 (store w) (remote w)) in
      (mkWorld (performSync_exit (sync w2)) (store w2) (remote w2), log, Ok tt)
  end.

Definition forceSync (e : Env) (w : World)
  : World * list (Recording.t * bool) * result unit :=
  if isOnline (sync w) then performSync e w
  else (w, [], Throw "No internet connection").

(** *** Passes in flight

    Calls of [performSync] come from the NetInfo listener, the timer, and
    [forceSync]; each runs to its first [await] and the rest of the pass
    completes later.  [inflight] counts the passes that are past the guard
    and have not reached their [finally] block. *)

Inductive event : Type :=
| NetInfoChange (isConnected : option bool)
| TimerTick
| ForceSync
| PerformSync
| SetUserId (userId : option string)
| PassCompletes.

Record Flags := mkFlags {
  svc : t;
  inflight : nat
}.

Definition call_performSync (f : Flags) : Flags :=
  match performSync_enter (svc f) with
  | None => f
  | Some s1 => mkFlags s1 (S (inflight f))
  end.

Definition step (f : Flags) (ev : event) : Flags :=
  match ev with
  | NetInfoChange isConnected =>
      let wasOffline := negb (isOnline (svc f)) in
      let s1 := set_isOnline (or_false isConnected) (svc f) in
      let f1 := mkFlags s1 (inflight f) in
      if wasOffline && isOnline s1 && negb (isSyncing s1) && has_user s1
      then call_performSync f1 else f1
  | TimerTick =>
      if isOnline (svc f) && negb (isSyncing (svc f)) && has_user (svc f)
      then call_performSync f else f
  | ForceSync =>
      if isOnline (svc f) then call_performSync f else f
  | PerformSync => call_performSync f
  | SetUserId u =>
      mkFlags (mk (isOnline (svc f)) (isSyncing (svc f)) u) (inflight f)
  | PassCompletes =>
      match inflight f with
      | O => f
      | S n => mkFlags (performSync_exit (svc f)) n
      end
  end.

Definition run (f : Flags) (evs : list event) : Flags := fold_left step evs f.

End Sync.


(** ** AudioService, recording methods (services/audioService.ts) *)

Module Audio.

Inductive RecordingState : Type :=
| state_idle
| state_recording
| state_stopping
| state_stopped.

Definition RecordingState_eqb (a b : RecordingState) : bool :=
  match a, b with
  | state_idle, state_idle => true
  | state_recording, state_recording => true
  | state_stopping, state_stopping => true
  | state_stopped, state_stopped => true
  | _, _ => false
  end.

(** The fields the recording methods use; [recording] holds the handle of
    the [Audio.Recording] object. *)
Record t := mk {
  recording : option nat;
  isInitialized : bool;
  _isRecording : bool;
  _recordingState : RecordingState
}.

(** The captures the service has opened: how many [Audio.Recording] objects
    it has made, and on which of them [startAsync] has resolved and
    [stopAndUnloadAsync] has not been called yet.  Once the service has
    called [stopAndUnloadAsync] on a recording it never touches that object
    again, whether the call resolved or threw. *)
Record Device := mkDevice {
  created : nat;
  capturing : list nat
}.

Record Env := mkEnv {
  initialize_ok : bool;       (* setAudioModeAsync, localRecordingService.initialize *)
  permission_granted : bool;  (* requestPermissionsAsync gives 'granted' *)
  prepare_ok : bool;          (* prepareToRecordAsync *)
  start_ok : bool;            (* startAsync *)
  stopAndUnload_ok : bool;    (* stopAndUnloadAsync *)
  uri : option string;        (* recording.getURI() *)
  permanentUri : string;      (* documentDirectory + recording_<now>.m4a *)
  move_ok : bool;             (* FileSystem.moveAsync *)
  copy_ok : bool;             (* FileSystem.copyAsync *)
  add1_ok : bool;             (* localRecordingService.addRecording after the move *)
  add2_ok : bool;             (* ... after the copy *)
  add3_ok : bool              (* ... of the original uri *)
}.

Definition set_state (st : RecordingState) (a : t) : t :=
  mk (recording a) (isInitialized a) (_isRecording a) st.

(** [recording = null; _isRecording = false; _recordingState = 'idle'] *)
Definition cleared (a : t) : t :=
  mk None (isInitialized a) false state_idle.

Definition initialize (a : t) (e : Env) : t * result unit :=
  if isInitialized a then (a, Ok tt)
  else if initialize_ok e
       then (mk (recording a) true (_isRecording a) (_recordingState a), Ok tt)
       else (a, Throw "Failed to initialize audio service").

Definition release (h : nat) (d : Device) : Device :=
  mkDevice (created d) (filter (fun x => negb (Nat.eqb x h)) (capturing d)).

Definition cleanupRecording (a : t) (d : Device) (e : Env) : t * Device :=
  match recording a with
  | None => (a, d)
  | Some h =>
      if RecordingState_eqb (_recordingState a) state_idle then (a, d)
      else (cleared a, release h d)   (* a throw is swallowed *)
  end.

(** The steps of [startRecording] after the clean-up: the permission, the
    new [Audio.Recording], [prepareToRecordAsync] and [startAsync].  A throw
    of any of them lands in the [catch], which sets the state to ['idle']. *)
Definition beginCapture (a : t) (d : Device) (e : Env)
  : t * Device * result unit :=
  if negb (permission_granted e)
  then (set_state state_idle a, d, Throw "Recording permission not granted")
  else
    let h := created d in                      (* new Audio.Recording() *)
    let d1 := mkDevice (S h) (capturing d) in
    if negb (prepare_ok e)
    then (set_state state_idle a, d1, Throw "prepareToRecordAsync")
    else if negb (start_ok e)
    then (set_state state_idle a, d1, Throw "startAsync")
    else (mk (Some h) (isInitialized a) true state_recording,
          mkDevice (S h) (h :: capturing d), Ok tt).

Definition startRecording (a : t) (d : Device) (e : Env)
  : t * Device * result unit :=
  match initialize a e with
  | (a0, Throw m) => (set_state state_idle a0, d, Throw m)
  | (a0, Ok _) =>
      (* Check if already recording *)
      if RecordingState_eqb (_recordingState a0) state_recording
      then (a0, d, Ok tt)
      else
        (* Clean up any existing recording *)
        let cleaned :=
          match recording a0 with
          | Some _ =>
              if negb (RecordingState_eqb (_recordingState a0) state_idle)
              then cleanupRecording a0 d e else (a0, d)
          | None => (a0, d)
          end in
        beginCapture (fst cleaned) (snd cleaned) e
  end.

Definition stopRecording (a : t) (d : Device) (e : Env)
  : t * Device * result string :=
  match recording a with
  | None => (a, d, Throw "No active recording")
  | Some h =>
      if negb (RecordingState_eqb (_recordingState a) state_recording)
      then (a, d, Throw "No active recording")
      else
        (* _recordingState = 'stopping'; stopAndUnloadAsync is called *)
        let d1 := release h d in
        if negb (stopAndUnload_ok e)
        then (cleared a, d1, Throw "stopAndUnloadAsync")
        else
          match uri e with
          | None => (cleared a, d1, Throw "Failed to get recording URI")
          | Some u =>
              if String.eqb u ""
              then (cleared a, d1, Throw "Failed to get recording URI")
              else if move_ok e && add1_ok e
              then (cleared a, d1, Ok (permanentUri e))
              else if copy_ok e && add2_ok e
              then (cleared a, d1, Ok (permanentUri e))
              else if add3_ok e
              then (cleared a, d1, Ok u)
              else (cleared a, d1, Throw "localRecordingService.addRecording")
          end
  end.

(** *** Auto-upload: always saves locally first *)

Record Metadata := mkMetadata {
  songId : option string;
  songTitle : option string;
  songArtist : option string;
  duration : option Z;
  isPublic : option bool;
  tags : option (list string)
}.

(** The call of [uploadToFirebaseInBackground] that is started and not
    awaited. *)
Record BackgroundUpload := mkUpload {
  recordingUri : string;
  userId : string;
  metadata : Metadata;
  localRecordingId : string
}.

Record CommitEnv := mkCommitEnv {
  audioEnv : Env;
  newId : string;                       (* local_<Date.now()>_<random> *)
  saveEnv : Database.Env;               (* during saveRecording *)
  netInfo : result (option bool)        (* NetInfo.fetch(): isConnected *)
}.

Definition with_netInfo (n : result (option bool)) (e : CommitEnv) : CommitEnv :=
  mkCommitEnv (audioEnv e) (newId e) (saveEnv e) n.

Definition localRecordingOf (uri : string) (i : string) (m : Metadata) : Recording.t :=
  Recording.mk i
    (match songId m with
     | Some s => if String.eqb s "" then None else Some s
     | None => None
     end)
    uri
    (or_number (duration m) 120)
    ""                                   (* createdAt: set by saveRecording *)
    false
    None
    (Some (or_default (songTitle m) "Local Recording"))
    (Some (or_default (songArtist m) "Karaoke User"))
    (Some (or_false (isPublic m)))
    (Some (or_tags (tags m) ["karaoke"; "local"]))
    (Some 0%Z).

Definition stopRecordingAndUpload
    (a : t) (d : Device) (st : Database.t) (e : CommitEnv)
    (uid : string) (m : Metadata)
  : t * Device * Database.t * option BackgroundUpload * result string :=
  match stopRecording a d (audioEnv e) with
  | (a1, d1, Throw msg) => (a1, d1, st, None, Throw msg)
  | (a1, d1, Ok recordingUri) =>
      let localRecording := localRecordingOf recordingUri (newId e) m in
      match Database.saveRecording st (saveEnv e) localRecording with
      | (st1, Throw msg) => (a1, d1, st1, None, Throw msg)
      | (st1, Ok _) =>
          match netInfo e with
          | Throw msg => (a1, d1, st1, None, Throw msg)
          | Ok isConnected =>
              if or_false isConnected
              then (a1, d1, st1,
                    Some (mkUpload recordingUri uid m (Recording.id localRecording)),
                    Ok (Recording.id localRecording))
              else (a1, d1, st1, None, Ok (Recording.id localRecording))
          end
      end
  end.

End Audio.


(** ** SongService, downloads (services/songService.ts) *)

Module Songs.

(** Local files by path with their size in bytes, and the directories. *)
Record FileSystem := mkFs {
  dirs : list string;
  files : list (string * Z)
}.

Definition path_eqb (p : string) (f : string * Z) : bool := String.eqb (fst f) p.

(** [FileSystem.getInfoAsync(path)]: [exists] and [size]. *)
Definition getInfo (fs : FileSystem) (p : string) : option Z :=
  match find (path_eqb p) (files fs) with
  | Some f => Some (snd f)
  | None => None
  end.

Definition dirExists (fs : FileSystem) (p : string) : bool :=
  existsb (String.eqb p) (dirs fs).

(** What a transfer leaves at the target path: nothing, or a file of the
    given size replacing what was there. *)
Definition writeFile (fs : FileSystem) (p : string) (written : option Z) : FileSystem :=
  match written with
  | None => fs
  | Some n => mkFs (dirs fs) ((p, n) :: filter (fun f => negb (path_eqb p f)) (files fs))
  end.

Record Env := mkEnv {
  documentDirectory : string;
  dbEnv : Database.Env;
  makeDirectory_ok : bool;
  (* FileSystem.downloadAsync: [None] when it throws, otherwise the HTTP
     status and what was written to the local path *)
  download : option (Z * option Z)
}.

Definition downloadSong
    (st : Database.t) (fs : FileSystem) (e : Env) (songId : string)
  : Database.t * FileSystem * bool :=
  match Database.getSong st (dbEnv e) songId with
  | Throw _ => (st, fs, false)
  | Ok None => (st, fs, false)
  | Ok (Some song) =>
      let songsDir := documentDirectory e ++ "songs/" in
      if negb (dirExists fs songsDir) && negb (makeDirectory_ok e)
      then (st, fs, false)
      else
        let fs1 := if dirExists fs songsDir then fs
                   else mkFs (songsDir :: dirs fs) (files fs) in
        let localPath := songsDir ++ songId ++ ".m4a" in
        match download e with
        | None => (st, fs1, false)
        | Some (status, written) =>
            let fs2 := writeFile fs1 localPath written in
            if Z.eqb status 200
            then
              let updatedSong := Song.with_download localPath true song in
              match Database.saveSong st (dbEnv e) updatedSong with
              | (st1, Ok _) => (st1, fs2, true)
              | (st1, Throw _) => (st1, fs2, false)
              end
            else (st, fs2, false)
        end
  end.

(** *** Downloads from the remote catalog *)

Record LyricLine := mkLine {
  text : string;
  startTime : Z;
  endTime : Z
}.

Record FirebaseSong := mkFirebaseSong {
  fs_title : string;
  fs_artist : string;
  fs_duration : Z;
  fs_audioUrl : string;
  fs_lyrics : list LyricLine;
  fs_genre : option string;
  fs_difficulty : option string;
  fs_downloadCount : option Z;
  fs_rating : option Z;
  fs_tags : option (list string)
}.

(** An entry of the AsyncStorage key ['karaoke_downloaded_songs']. *)
Record DownloadedSong := mkDownloaded {
  id : string;
  title : string;
  artist : string;
  duration : Z;
  audioUrl : string;
  lyrics : list LyricLine;
  timing : list LyricLine;
  genre : string;
  difficulty : string;
  downloadCount : Z;
  rating : Z;
  tags : list string;
  createdAt : string;
  updatedAt : string;
  isDownloaded : bool
}.

Record FirebaseEnv := mkFirebaseEnv {
  fenv : Env;
  remoteSong : result (option FirebaseSong);   (* firebaseService.getSong *)
  (* fetch(url, HEAD): [None] when it throws, else status and content-length *)
  head : string -> option (Z * option Z);
  storageWrite_ok : bool;                       (* AsyncStorage.setItem *)
  timestamp : string
}.

Definition fallbackUrls : list string :=
  [ "https://www.learningcontainer.com/wp-content/uploads/2020/02/Kalimba.mp3";
    "https://www.soundjay.com/misc/sounds/bell-ringing-05.wav" ].

(** The test of the audio URL: it passes with status 200 and a content
    length that is absent or not zero. *)
Definition urlTestPasses (r : option (Z * option Z)) : bool :=
  match r with
  | Some (status, len) =>
      Z.eqb status 200 &&
      match len with Some n => negb (Z.eqb n 0) | None => true end
  | None => false
  end.

Definition workingUrl (e : FirebaseEnv) : option string :=
  find (fun u => match head e u with
                 | Some (status, _) => Z.eqb status 200
                 | None => false
                 end) fallbackUrls.

Definition dl_has_id (i : string) (s : DownloadedSong) : bool := String.eqb (id s) i.

(** [songs[existingIndex] = song] at the first entry with that id. *)
Fixpoint replaceFirst (song : DownloadedSong) (l : list DownloadedSong)
  : list DownloadedSong :=
  match l with
  | [] => []
  | x :: rest => if dl_has_id (id song) x then song :: rest
                 else x :: replaceFirst song rest
  end.

Definition saveDownloadedSong
    (stored : slot DownloadedSong) (ok : bool) (song : DownloadedSong)
  : slot DownloadedSong * result unit :=
  match stored with
  | Garbage => (stored, Throw "JSON.parse")
  | _ =>
      let songs := match stored with Json l => l | _ => [] end in
      let songs1 := if existsb (dl_has_id (id song)) songs
                    then replaceFirst song songs
                    else song :: songs in
      if ok then (Json songs1, Ok tt) else (stored, Throw "AsyncStorage.setItem")
  end.

Definition downloadFirebaseSong
    (stored : slot DownloadedSong) (fs : FileSystem) (e : FirebaseEnv)
    (firebaseSongId : string)
  : slot DownloadedSong * FileSystem * bool :=
  match remoteSong e with
  | Throw _ => (stored, fs, false)
  | Ok None => (stored, fs, false)
  | Ok (Some firebaseSong) =>
      let songsDir := documentDirectory (fenv e) ++ "songs/" in
      if negb (dirExists fs songsDir) && negb (makeDirectory_ok (fenv e))
      then (stored, fs, false)
      else
        let fs1 := if dirExists fs songsDir then fs
                   else mkFs (songsDir :: dirs fs) (files fs) in
        let url :=
          if urlTestPasses (head e (fs_audioUrl firebaseSong))
          then Some (fs_audioUrl firebaseSong)
          else workingUrl e in
        match url with
        | None => (stored, fs1, false)       (* 'Audio URL not accessible' *)
        | Some _ =>
            let localPath := songsDir ++ firebaseSongId ++ ".m4a" in
            match download (fenv e) with
            | None => (stored, fs1, false)
            | Some (status, written) =>
                let fs2 := writeFile fs1 localPath written in
                if Z.eqb status 200
                then
                  (* Verify file exists *)
                  match getInfo fs2 localPath with
                  | None => (stored, fs2, false)
                  | Some size =>
                      if Z.eqb size 0 then (stored, fs2, false)
                      else
                        let downloadedSong :=
                          mkDownloaded firebaseSongId
                            (fs_title firebaseSong) (fs_artist firebaseSong)
                            (fs_duration firebaseSong) localPath
                            (fs_lyrics firebaseSong) (fs_lyrics firebaseSong)
                            (or_default (fs_genre firebaseSong) "Unknown")
                            (or_default (fs_difficulty firebaseSong) "Medium")
                            (or_number (fs_downloadCount firebaseSong) 0)
                            (or_number (fs_rating firebaseSong) 0)
                            (or_tags (fs_tags firebaseSong) [])
                            (timestamp e) (timestamp e) true in
                        match saveDownloadedSong stored (storageWrite_ok e) downloadedSong with
                        | (stored1, Ok _) => (stored1, fs2, true)
                        | (stored1, Throw _) => (stored1, fs2, false)
                        end
                  end
                else (stored, fs2, false)
            end
        end
  end.

End Songs.


(** ** Vocabulary of the statements *)

Definition slot_entries {A} (v : slot A) : list A :=
  match v with Json l => l | _ => [] end.

Definition unsynced (r : Recording.t) : bool := negb (Recording.isSynced r).

(** The rows of the [recordings] table, while the handle is open. *)
Definition table_rows (s : Database.t) : list Recording.t :=
  match Database.db s with
  | Some d => Database.recordings d
  | None => []
  end.

(** The rows [SELECT * FROM recordings WHERE isSynced = 0] would give. *)
Definition unsynced_rows (s : Database.t) : list Recording.t :=
  filter unsynced (table_rows s).

(** Every recording entry the store holds, wherever it is kept. *)
Definition entries (s : Database.t) : list Recording.t :=
  slot_entries (Database.asyncStorage s)
    ++ slot_entries (Database.localStorage s)
    ++ table_rows s.

(** What a caller can read back: the list and the sync table. *)
Definition view (s : Database.t) : list Recording.t * list Recording.t :=
  (Database.getRecordings s, table_rows s).

(** The web build never opens the SQLite database ([init] returns before
    [openDatabaseAsync]). *)
Definition web_has_no_db (s : Database.t) : Prop :=
  Database.isWeb s = true -> Database.db s = None.

(** The row-wise effect of [UPDATE recordings SET isSynced = b WHERE id = i]
    and of the [map] of the web build. *)
Definition set_flag (i : string) (b : bool) (r : Recording.t) : Recording.t :=
  if Database.has_id i r then Recording.with_isSynced b r else r.

(** No SQL statement of the call throws. *)
Definition sql_ok (e : Database.Env) : bool :=
  Database.getAllAsync_ok e && Database.runAsync_ok e.

(** [markSynced(id)] is [updateRecordingSyncStatus(id, true)]. *)
Definition markSynced (s : Database.t) (e : Database.Env) (i : string)
  : Database.t * result unit :=
  Database.updateRecordingSyncStatus s e i true.

(** Store operations that callers of the recording lifecycle use. *)
Inductive store_op : Type :=
| OpSave (r : Recording.t)
| OpDelete (i : string)
| OpMarkSynced (i : string).

Definition apply_op (s : Database.t) (x : Database.Env * store_op) : Database.t :=
  match snd x with
  | OpSave r => fst (Database.saveRecording s (fst x) r)
  | OpDelete i => fst (Database.deleteRecording s (fst x) i)
  | OpMarkSynced i => fst (markSynced s (fst x) i)
  end.

Definition apply_ops (s : Database.t) (ops : list (Database.Env * store_op))
  : Database.t :=
  fold_left apply_op ops s.

(** Whether the upload of [r] goes through in a pass with environment [e]. *)
Definition upload_succeeds (s : Sync.t) (e : Sync.Env) (r : Recording.t) : bool :=
  match Sync.user s with
  | None => false
  | Some _ =>
      match Sync.uploadUrl e r with
      | None => false
      | Some _ => Sync.addDoc_ok e r
      end
  end.

(** The store after the loop of a pass over [queue]: each recording whose
    upload went through has been marked. *)
Fixpoint mark_uploaded (s : Sync.t) (e : Sync.Env) (queue : list Recording.t)
    (st : Database.t) : Database.t :=
  match queue with
  | [] => st
  | r :: rest =>
      mark_uploaded s e rest
        (if upload_succeeds s e r
         then fst (markSynced st (Sync.markEnv e r) (Recording.id r))
         else st)
  end.

(** The iterations of the loop over [queue], as [uploadLoop] lists them. *)
Definition loop_log (s : Sync.t) (e : Sync.Env) (queue : list Recording.t)
  : list (Recording.t * bool) :=
  map (fun r => (r, upload_succeeds s e r)) queue.

(** The invariant of the in-flight count. *)
Definition flag_counts (f : Sync.Flags) : Prop :=
  Sync.inflight f = if Sync.isSyncing (Sync.svc f) then 1 else 0.

(** ** Concrete stores and environments *)

Definition env_ok : Database.Env :=
  Database.mkEnv true true true "2024-01-01T00:00:00.000Z".

Definition env_update_fails : Database.Env :=
  Database.mkEnv true true false "2024-01-01T00:00:00.000Z".

Definition rec1 : Recording.t :=
  Recording.mk "r1" None "file:///documents/recording_1.m4a" 5000 "" false
    None None None None None None.

Definition rec2 : Recording.t :=
  Recording.mk "r2" None "file:///documents/recording_2.m4a" 7000 "" false
    None None None None None None.

(** A phone after [init()] with an empty database file, and a browser. *)
Definition mobile0 : Database.t :=
  Database.init (Database.create false Absent Absent) (Some (Database.mkDb [] [])).

Definition web0 : Database.t :=
  Database.init (Database.create true Absent Absent) None.

Definition mobile_saved_once : Database.t :=
  fst (Database.saveRecording mobile0 env_ok rec1).

Definition mobile_saved_twice : Database.t :=
  fst (Database.saveRecording mobile_saved_once env_ok rec1).

Definition web_saved : Database.t :=
  fst (Database.saveRecording web0 env_ok rec1).

Definition web_synced : Database.t :=
  fst (markSynced web_saved env_ok "r1").

Definition web_reset : Database.t :=
  fst (Database.updateRecordingSyncStatus web_synced env_ok "r1" false).

Definition web_resaved : Database.t :=
  fst (Database.saveRecording web_synced env_ok rec1).

(** A phone whose sync table holds two unsynced rows. *)
Definition mobile_two_rows : Database.t :=
  Database.init (Database.create false Absent Absent)
    (Some (Database.mkDb [] [rec1; rec2])).

Definition sync_online : Sync.t := Sync.mk true false (Some "user1").

Definition sync_offline : Sync.t := Sync.mk false false (Some "user1").

(** A pass in which the device behaves and the uploads are as [up] says. *)
Definition pass_env (up : Recording.t -> option string) : Sync.Env :=
  Sync.mkEnv env_ok up (fun _ => true) (fun _ => env_ok) env_ok "1700000000000".


Definition pass_uploads : Sync.Env :=
  pass_env (fun _ => Some "https://storage.example/recording.m4a").

(** The upload of ["r1"] fails, every other one goes through. *)
Definition pass_r1_fails : Sync.Env :=
  pass_env (fun r => if Database.has_id "r1" r then None
                     else Some "https://storage.example/recording.m4a").

Definition world_two_rows : Sync.World :=
  Sync.mkWorld sync_online mobile_two_rows (Firebase.mk [] []).

Definition flags0 : Sync.Flags := Sync.mkFlags sync_offline 0.

(** A capture in progress on handle [0], and a device on which every step
    of stopping it works. *)
Definition audio_idle : Audio.t := Audio.mk None false false Audio.state_idle.

Definition audio_recording : Audio.t :=
  Audio.mk (Some 0) true true Audio.state_recording.

Definition device0 : Audio.Device := Audio.mkDevice 0 [].

Definition device_capturing : Audio.Device := Audio.mkDevice 1 [0].

Definition audio_env_ok : Audio.Env :=
  Audio.mkEnv true true true true true
    (Some "file:///cache/recording-0.m4a")
    "file:///documents/recording_1700000000000.m4a"
    true true true true true.

Definition metadata_5000 : Audio.Metadata :=
  Audio.mkMetadata None None None (Some 5000%Z) None None.

Definition commit_offline : Audio.CommitEnv :=
  Audio.mkCommitEnv audio_env_ok "local_1700000000000_k3j9x2a1b" env_ok
    (Ok (Some false)).

(** The catalog entry ["s1"], not downloaded, on a phone. *)
Definition song1 : Song.t :=
  Song.mk "s1" "Test Song" "Demo Artist" 30000
    "https://cdn.example/s1.mp3" "[]" "[]" false
    "2024-01-01T00:00:00.000Z" "2024-01-01T00:00:00.000Z".

Definition catalog_s1 : Database.t :=
  Database.init (Database.create false Absent Absent)
    (Some (Database.mkDb [song1] [])).

Definition fs0 : Songs.FileSystem := Songs.mkFs [] [].

(** The transfer answers 200 and leaves a file of zero bytes. *)
Definition env_zero_bytes : Songs.Env :=
  Songs.mkEnv "file:///documents/" env_ok true (Some (200%Z, Some 0%Z)).

(** The transfer answers 200 and leaves no file. *)
Definition env_no_file : Songs.Env :=
  Songs.mkEnv "file:///documents/" env_ok true (Some (200%Z, None)).

Definition remote_song1 : Songs.FirebaseSong :=
  Songs.mkFirebaseSong "Test Song" "Demo Artist" 30000
    "https://cdn.example/s1.mp3" [] None None None None None.

Definition firebase_env_zero_bytes : Songs.FirebaseEnv :=
  Songs.mkFirebaseEnv env_zero_bytes (Ok (Some remote_song1))
    (fun _ => Some (200%Z, None)) true "2024-01-01T00:00:00.000Z".

(** A signed-out service that is online, over the two unsynced rows. *)
Definition sync_signed_out : Sync.t := Sync.mk true false None.

Definition world_signed_out : Sync.World :=
  Sync.mkWorld sync_signed_out mobile_two_rows (Firebase.mk [] []).

Definition flags_online : Sync.Flags := Sync.mkFlags sync_online 0.

(** ** More of DatabaseService: songs, status, calls in sequence *)

Module DatabaseMore.

(** The row after [UPDATE songs SET isDownloaded = b, updatedAt = now]. *)
Definition set_downloaded (b : bool) (now : string) (x : Song.t) : Song.t :=
  Song.mk (Song.id x) (Song.title x) (Song.artist x) (Song.duration x)
    (Song.audioUrl x) (Song.lyrics x) (Song.timing x) b (Song.createdAt x) now.

Definition updateSongDownloadStatus
    (s : Database.t) (e : Database.Env) (i : string) (isDownloaded : bool)
  : Database.t * result unit :=
  match Database.db s with
  | None => (s, Ok tt)
  | Some d =>
      if Database.runAsync_ok e
      then (Database.set_db (Some (Database.mkDb
              (map (fun x => if Database.song_has_id i x
                             then set_downloaded isDownloaded (Database.now e) x
                             else x) (Database.songs d))
              (Database.recordings d))) s, Ok tt)
      else (s, Throw "db.runAsync")
  end.

(** [SELECT * FROM songs WHERE isDownloaded = 1] *)
Definition getOfflineSongs (s : Database.t) (e : Database.Env) : result (list Song.t) :=
  match Database.db s with
  | None => Ok []
  | Some d =>
      if Database.getAllAsync_ok e
      then Ok (filter Song.isDownloaded (Database.songs d))
      else Throw "db.getAllAsync"
  end.

Record DatabaseStatus := mkStatus {
  status_isInitialized : bool;
  hasDatabase : bool;
  status_isWeb : bool
}.

Definition getDatabaseStatus (s : Database.t) : DatabaseStatus :=
  mkStatus (Database.isInitialized s)
    (match Database.db s with Some _ => true | None => false end)
    (Database.isWeb s).

(** A call of one of the methods that write, with what the device decides
    during it. *)
Inductive db_call : Type :=
| CallInit (opened : option Database.SQLiteDatabase)
| CallSaveRecording (e : Database.Env) (r : Recording.t)
| CallDeleteRecording (e : Database.Env) (i : string)
| CallUpdateRecordingSyncStatus (e : Database.Env) (i : string) (b : bool)
| CallSaveSong (e : Database.Env) (song : Song.t)
| CallUpdateSongDownloadStatus (e : Database.Env) (i : string) (b : bool).

Definition call (s : Database.t) (c : db_call) : Database.t :=
  match c with
  | CallInit opened => Database.init s opened
  | CallSaveRecording e r => fst (Database.saveRecording s e r)
  | CallDeleteRecording e i => fst (Database.deleteRecording s e i)
  | CallUpdateRecordingSyncStatus e i b =>
      fst (Database.updateRecordingSyncStatus s e i b)
  | CallSaveSong e song => fst (Database.saveSong s e song)
  | CallUpdateSongDownloadStatus e i b => fst (updateSongDownloadStatus s e i b)
  end.

Definition calls (s : Database.t) (l : list db_call) : Database.t :=
  fold_left call l s.

End DatabaseMore.

(** ** More of SyncService: the status *)

Module SyncMore.

Record SyncStatus := mkStatus {
  isOnline : bool;
  isSyncing : bool;
  lastSyncTime : option string;
  pendingUploads : nat;
  pendingDownloads : nat
}.

(** [e1] is the device during [getUnsyncedRecordings], [e2] during
    [getOfflineSongs]. *)
Definition getSyncStatus (w : Sync.World) (e1 e2 : Database.Env) : result SyncStatus :=
  match Database.getUnsyncedRecordings (Sync.store w) e1 with
  | Throw m => Throw m
  | Ok unsyncedRecordings =>
      match DatabaseMore.getOfflineSongs (Sync.store w) e2 with
      | Throw m => Throw m
      | Ok _ =>
          Ok (mkStatus (Sync.isOnline (Sync.sync w)) (Sync.isSyncing (Sync.sync w))
                None (length unsyncedRecordings) 0)
      end
  end.

End SyncMore.

(** ** More of AudioService: cancelling, uploads after the commit *)

Module AudioMore.

Definition cancelRecording (a : Audio.t) (d : Audio.Device) (e : Audio.Env)
  : Audio.t * Audio.Device * result unit :=
  match Audio.recording a with
  | None => (a, d, Ok tt)
  | Some h =>
      if Audio.RecordingState_eqb (Audio._recordingState a) Audio.state_idle
      then (a, d, Ok tt)
      else
        (* _recordingState = 'stopping'; stopAndUnloadAsync is called *)
        if Audio.stopAndUnload_ok e
        then (Audio.cleared a, Audio.release h d, Ok tt)
        else (Audio.cleared a, Audio.release h d, Throw "stopAndUnloadAsync")
  end.

(** The recording methods, called one after the other. *)
Inductive audio_call : Type :=
| CallStart (e : Audio.Env)
| CallStop (e : Audio.Env)
| CallCancel (e : Audio.Env).

Definition call (p : Audio.t * Audio.Device) (c : audio_call) : Audio.t * Audio.Device :=
  match c with
  | CallStart e => fst (Audio.startRecording (fst p) (snd p) e)
  | CallStop e => fst (Audio.stopRecording (fst p) (snd p) e)
  | CallCancel e => fst (cancelRecording (fst p) (snd p) e)
  end.

Definition calls (p : Audio.t * Audio.Device) (l : list audio_call)
  : Audio.t * Audio.Device :=
  fold_left call l p.

(** The service as constructed. *)
Definition create : Audio.t := Audio.mk None false false Audio.state_idle.

(** The metadata [uploadRecordingToFirebase] takes: [duration] is required. *)
Record UploadMetadata := mkUploadMetadata {
  songId : option string;
  songTitle : option string;
  songArtist : option string;
  duration : Z;
  isPublic : option bool;
  tags : option (list string)
}.

Record UploadEnv := mkUploadEnv {
  fileUrl : option string;   (* uploadRecordingFile: the download URL, or a throw *)
  addDoc_ok : bool;          (* addRecording *)
  docId : string;            (* the id of the new document *)
  dateNow : string;          (* Date.now(), printed *)
  markEnv : Database.Env     (* during updateRecordingSyncStatus *)
}.

Definition uploadRecordingToFirebase
    (fb : Firebase.t) (e : UploadEnv) (recordingUri userId : string)
    (m : UploadMetadata)
  : Firebase.t * result string :=
  let fileName := "recording_" ++ dateNow e ++ ".m4a" in
  let storagePath := "user-recordings/" ++ userId ++ "/" ++ fileName in
  match Firebase.uploadRecordingFile fb (fileUrl e) storagePath with
  | (fb1, Throw msg) => (fb1, Throw msg)
  | (fb1, Ok audioUrl) =>
      let recordingData :=
        Firebase.mkRecording userId
          (match songId m with
           | Some s => if String.eqb s "" then None else Some s
           | None => None
           end)
          (or_default (songTitle m) "Unknown Song")
          (or_default (songArtist m) "Unknown Artist")
          audioUrl
          (duration m)
          (or_false (isPublic m))
          (or_tags (tags m) [])
          0%Z in
      match Firebase.addRecording fb1 (addDoc_ok e) recordingData with
      | (fb2, Throw msg) => (fb2, Throw msg)
      | (fb2, Ok _) => (fb2, Ok (docId e))
      end
  end.

(** The metadata [uploadToFirebaseInBackground] passes on. *)
Definition backgroundMetadata (m : Audio.Metadata) : UploadMetadata :=
  mkUploadMetadata (Audio.songId m)
    (Some (or_default (Audio.songTitle m) "Auto-Uploaded Recording"))
    (Some (or_default (Audio.songArtist m) "Karaoke User"))
    (or_number (Audio.duration m) 120)
    (Some (or_false (Audio.isPublic m)))
    (Some (or_tags (Audio.tags m) ["karaoke"; "auto-upload"])).

(** [uploadToFirebaseInBackground]: every throw, that of
    [updateRecordingSyncStatus] too, is caught and logged. *)
Definition uploadToFirebaseInBackground
    (st : Database.t) (fb : Firebase.t) (e : UploadEnv) (task : Audio.BackgroundUpload)
  : Database.t * Firebase.t :=
  match uploadRecordingToFirebase fb e (Audio.recordingUri task) (Audio.userId task)
          (backgroundMetadata (Audio.metadata task)) with
  | (fb1, Throw _) => (st, fb1)
  | (fb1, Ok _) =>
      (fst (Database.updateRecordingSyncStatus
              st (markEnv e) (Audio.localRecordingId task) true), fb1)
  end.

End AudioMore.

(** ** More of SongService: the downloaded-song list, the sample songs *)

Module SongsMore.

Definition getDownloadedSongs (stored : slot Songs.DownloadedSong)
  : list Songs.DownloadedSong :=
  match stored with
  | Json l => l
  | Absent => []
  | Garbage => []       (* caught: [[]] *)
  end.

Definition getDownloadedSong (stored : slot Songs.DownloadedSong) (songId : string)
  : option Songs.DownloadedSong :=
  find (Songs.dl_has_id songId) (getDownloadedSongs stored).

(** The [deleteDownloadedSong] in force: the class defines the method twice
    and the later definition, on AsyncStorage, replaces the earlier one. *)
Definition deleteDownloadedSong
    (stored : slot Songs.DownloadedSong) (ok : bool) (songId : string)
  : slot Songs.DownloadedSong * bool :=
  match stored with
  | Absent => (stored, false)
  | Garbage => (stored, false)      (* [JSON.parse] throws, caught *)
  | Json songs =>
      let filteredSongs := filter (fun s => negb (Songs.dl_has_id songId s)) songs in
      if Nat.eqb (length filteredSongs) (length songs)
      then (stored, false)
      else if ok then (Json filteredSongs, true) else (stored, false)
  end.

Record SongMetadata := mkSongMetadata {
  id : string;
  title : string;
  artist : string;
  duration : Z;
  audioUrl : string;
  lyrics : list Songs.LyricLine
}.

(** The row [loadSampleSongs] builds; [stringify] is [JSON.stringify]. *)
Definition sampleRow (stringify : list Songs.LyricLine -> string) (m : SongMetadata)
  : Song.t :=
  Song.mk (id m) (title m) (artist m) (duration m) (audioUrl m)
    (stringify (lyrics m)) (stringify (lyrics m)) false "" "".

(** [loadSampleSongs] over the list [sampleSongs]; [env] gives the device
    during the iteration for the song of that id.  A throw ends the loop and
    is caught. *)
Fixpoint loadSampleSongs
    (stringify : list Songs.LyricLine -> string) (env : string -> Database.Env)
    (sampleSongs : list SongMetadata) (st : Database.t) : Database.t :=
  match sampleSongs with
  | [] => st
  | m :: rest =>
      match Database.getSong st (env (id m)) (id m) with
      | Throw _ => st
      | Ok (Some _) => loadSampleSongs stringify env rest st
      | Ok None =>
          match Database.saveSong st (env (id m)) (sampleRow stringify m) with
          | (st1, Ok _) => loadSampleSongs stringify env rest st1
          | (st1, Throw _) => st1
          end
      end
  end.

End SongsMore.

(** ** Vocabulary of the further statements *)

(** The state of the recording methods between calls. *)
Definition settled (a : Audio.t) : Prop :=
  (Audio._recordingState a = Audio.state_idle
   /\ Audio.recording a = None /\ Audio._isRecording a = false)
  \/ (Audio._recordingState a = Audio.state_recording
      /\ (exists h, Audio.recording a = Some h)
      /\ Audio._isRecording a = true /\ Audio.isInitialized a = true).

(** The rows of the [songs] table, while the handle is open. *)
Definition song_rows (s : Database.t) : list Song.t :=
  match Database.db s with
  | Some d => Database.songs d
  | None => []
  end.

(** The remote document a pass writes for [r]. *)
Definition document_of (uid : string) (r : Recording.t) (d : Firebase.FirebaseRecording)
  : Prop :=
  Firebase.userId d = uid
  /\ Firebase.songId d = Recording.songId r
  /\ Firebase.duration d = Recording.duration r
  /\ Firebase.playCount d = 0%Z.

(** The upload started by a commit made online, and a network on which it
    goes through. *)
Definition commit_online : Audio.CommitEnv :=
  Audio.with_netInfo (Ok (Some true)) commit_offline.

Definition upload_env_ok : AudioMore.UploadEnv :=
  AudioMore.mkUploadEnv (Some "https://storage.example/recording.m4a") true
    "doc-1" "1700000000000" env_ok.

Definition task1 : Audio.BackgroundUpload :=
  Audio.mkUpload "file:///documents/recording_1700000000000.m4a" "user1"
    metadata_5000 "local_1700000000000_k3j9x2a1b".

(** A device on which the file can be neither moved nor copied. *)
Definition audio_env_no_move : Audio.Env :=
  Audio.mkEnv true true true true true
    (Some "file:///cache/recording-0.m4a")
    "file:///documents/recording_1700000000000.m4a"
    false false true true true.

(** A downloaded-song entry, and a transfer that leaves 4096 bytes. *)
Definition downloaded_s1 : Songs.DownloadedSong :=
  Songs.mkDownloaded "s1" "Test Song" "Demo Artist" 30000
    "file:///documents/songs/s1.m4a" [] [] "Unknown" "Medium" 0 0 []
    "2024-01-01T00:00:00.000Z" "2024-01-01T00:00:00.000Z" true.

Definition env_full_file : Songs.Env :=
  Songs.mkEnv "file:///documents/" env_ok true (Some (200%Z, Some 4096%Z)).

Definition firebase_env_full_file : Songs.FirebaseEnv :=
  Songs.mkFirebaseEnv env_full_file (Ok (Some remote_song1))
    (fun _ => Some (200%Z, None)) true "2024-01-01T00:00:00.000Z".


Definition sample_a : SongsMore.SongMetadata :=
  SongsMore.mkSongMetadata "1" "Test Song" "Demo Artist" 30000
    "https://www.learningcontainer.com/wp-content/uploads/2020/02/Kalimba.mp3"
    [Songs.mkLine "This is line one" 0 3000].

Definition sample_b : SongsMore.SongMetadata :=
  SongsMore.mkSongMetadata "s1" "Test Song" "Demo Artist" 30000
    "https://cdn.example/s1.mp3" [].

(** ** Vocabulary and data of the statements on two passes and on captures *)

(** The world after a call of [performSync], the iterations of its loop,
    and the documents of the remote recordings collection. *)
Definition after_pass (e : Sync.Env) (w : Sync.World) : Sync.World :=
  fst (fst (Sync.performSync e w)).

Definition attempts (e : Sync.Env) (w : Sync.World) : list (Recording.t * bool) :=
  snd (fst (Sync.performSync e w)).

Definition remote_records (w : Sync.World) : list Firebase.FirebaseRecording :=
  Firebase.recordings (Sync.remote w).



(** Two rows of the [recordings] table as its schema has them, for the song
    ["s1"], in a database file that already holds them when [init] opens
    it. *)
Definition row1 : Recording.t :=
  Recording.mk "r1" (Some "s1") "file:///documents/recording_1.m4a" 5000
    "2023-12-31T10:00:00.000Z" false None None None None None None.

Definition row2 : Recording.t :=
  Recording.mk "r2" (Some "s1") "file:///documents/recording_2.m4a" 7000
    "2023-12-31T11:00:00.000Z" false None None None None None None.


Definition phone_two_rows : Database.t :=
  Database.init (Database.create false Absent Absent)
    (Some (Database.mkDb [song1] [row1; row2])).


Definition world_rows : Sync.World :=
  Sync.mkWorld sync_online phone_two_rows (Firebase.mk [] []).

(** The upload of ["r1"] fails; the other uploads go through, and the
    [UPDATE] that marks them throws. *)
Definition pass_r1_fails_mark_throws : Sync.Env :=
  Sync.mkEnv env_ok
    (fun r => if Database.has_id "r1" r then None
              else Some "https://storage.example/recording.m4a")
    (fun _ => true) (fun _ => env_update_fails) env_ok "1700000000000".

(** * Properties of the local store *)

Lemma getWebRecordings_entries (s : Database.t) :
  Database.getWebRecordings s = slot_entries (Database.localStorage s).
Proof. unfold Database.getWebRecordings. now destruct (Database.localStorage s). Qed.

Lemma has_id_refl (r : Recording.t) : Database.has_id (Recording.id r) r = true.
Proof. unfold Database.has_id. apply String.eqb_refl. Qed.

Lemma has_id_true (i : string) (r : Recording.t) :
  Database.has_id i r = true -> Recording.id r = i.
Proof. unfold Database.has_id. apply String.eqb_eq. Qed.

Lemma set_flag_idem (i : string) (b : bool) (r : Recording.t) :
  set_flag i b (set_flag i b r) = set_flag i b r.
Proof.
  unfold set_flag. destruct (Database.has_id i r) eqn:E; [|now rewrite E].
  assert (Database.has_id i (Recording.with_isSynced b r) = true) as -> by exact E.
  reflexivity.
Qed.

Lemma map_set_flag_idem (i : string) (b : bool) (l : list Recording.t) :
  map (set_flag i b) (map (set_flag i b) l) = map (set_flag i b) l.
Proof.
  rewrite map_map. apply map_ext. intro r. apply set_flag_idem.
Qed.

Lemma map_set_flag_unknown (i : string) (b : bool) (l : list Recording.t) :
  (forall r, In r l -> Recording.id r <> i) -> map (set_flag i b) l = l.
Proof.
  induction l as [|x l IH]; intro H; [reflexivity|]. simpl. f_equal.
  - unfold set_flag. destruct (Database.has_id i x) eqn:E; [|reflexivity].
    apply has_id_true in E. exfalso. apply (H x); [now left|exact E].
  - apply IH. intros r Hr. apply H. now right.
Qed.

(** An unsynced row of a table after marking was there, as it is, before. *)
Lemma In_marked_unsynced (i : string) (l : list Recording.t) (r : Recording.t) :
  In r (map (set_flag i true) l) -> Recording.isSynced r = false -> In r l.
Proof.
  intros Hin Hf. apply in_map_iff in Hin as (x & Hx & Hxl).
  unfold set_flag in Hx. destruct (Database.has_id i x).
  - subst r. discriminate Hf.
  - now subst r.
Qed.

(** After marking [i], no unsynced row carries the id [i]. *)
Lemma marked_rows_synced (i : string) (l : list Recording.t) (r : Recording.t) :
  In r (map (set_flag i true) l) -> Recording.isSynced r = false ->
  Recording.id r <> i.
Proof.
  intros Hin Hf. apply in_map_iff in Hin as (x & Hx & _).
  unfold set_flag in Hx. destruct (Database.has_id i x) eqn:E.
  - subst r. discriminate Hf.
  - subst r. intro Hid. unfold Database.has_id in E. rewrite Hid in E.
    now rewrite String.eqb_refl in E.
Qed.

Lemma set_db_same (s : Database.t) (d : Database.SQLiteDatabase) :
  Database.db s = Some d ->
  Database.set_db (Some (Database.mkDb (Database.songs d) (Database.recordings d))) s = s.
Proof. destruct s as [db w ini a l], d; simpl. now intros ->. Qed.

Lemma set_db_none_same (s : Database.t) :
  Database.db s = None -> Database.set_db None s = s.
Proof. destruct s as [db w ini a l]; simpl. now intros ->. Qed.

Lemma saveRecording_keeps_db (s : Database.t) (e : Database.Env) (r : Recording.t) :
  Database.db (fst (Database.saveRecording s e r)) = Database.db s.
Proof.
  unfold Database.saveRecording, Database.saveWebRecording.
  destruct (Database.isWeb s), (Database.asyncStorage s), (Database.setItem_ok e);
    reflexivity.
Qed.

(** C1. [saveRecording] writes the AsyncStorage (or localStorage) list, and
    [getUnsyncedRecordings] reads the SQLite table, which no save touches:
    the queue after a save is the queue before it.  On a phone with a
    freshly created database, saving [rec1] succeeds, [getRecording] finds
    it unsynced, and the reconciler's queue is still empty. *)
Theorem C1_saved_recording_missing_from_queue :
  (forall (s : Database.t) (e e' : Database.Env) (r : Recording.t),
      Database.getUnsyncedRecordings (fst (Database.saveRecording s e r)) e'
      = Database.getUnsyncedRecordings s e')
  /\ snd (Database.saveRecording mobile0 env_ok rec1) = Ok tt
  /\ option_map Recording.isSynced (Database.getRecording mobile_saved_once "r1")
     = Some false
  /\ Database.getUnsyncedRecordings mobile_saved_once env_ok = Ok []
  /\ Database.getUnsyncedRecordings web_saved env_ok = Ok [].
Proof.
  split; [|repeat split; reflexivity].
  intros s e e' r. unfold Database.getUnsyncedRecordings.
  now rewrite saveRecording_keeps_db.
Qed.

(** C4, as stated, fails: on a phone, saving [rec1] twice leaves two entries
    with the id ["r1"] where saving it once leaves one. *)
Lemma C4_save_twice_adds_second_entry :
  length (Database.getRecordings mobile_saved_once) = 1
  /\ length (Database.getRecordings mobile_saved_twice) = 2
  /\ Database.getRecordings mobile_saved_twice
     <> Database.getRecordings mobile_saved_once.
Proof. repeat split; try reflexivity. vm_compute. discriminate. Qed.

Lemma saveRecording_prepends (s s' : Database.t) (e : Database.Env) (r : Recording.t) :
  Database.saveRecording s e r = (s', Ok tt) ->
  Database.getRecordings s'
  = Recording.with_createdAt (Database.now e) r :: Database.getRecordings s
  /\ Database.isWeb s' = Database.isWeb s.
Proof.
  unfold Database.saveRecording, Database.saveWebRecording, Database.getRecordings,
    Database.getWebRecordings.
  destruct (Database.isWeb s) eqn:W.
  - destruct (Database.setItem_ok e); [|discriminate].
    intro H; injection H as <-. simpl. rewrite W.
    now destruct (Database.localStorage s).
  - destruct (Database.asyncStorage s) eqn:A; try discriminate;
      (destruct (Database.setItem_ok e); [|discriminate]);
      intro H; injection H as <-; simpl; now rewrite W.
Qed.

Lemma getRecording_find (s : Database.t) (i : string) :
  Database.getRecording s i = find (Database.has_id i) (Database.getRecordings s).
Proof.
  unfold Database.getRecording, Database.getRecordings, Database.getWebRecording.
  destruct (Database.isWeb s); [reflexivity|].
  now destruct (Database.asyncStorage s).
Qed.

(** A save that returns: the list afterwards, and what [getRecording] finds. *)
Lemma saved_entry_found (s s1 : Database.t) (e : Database.Env) (r : Recording.t) :
  Database.saveRecording s e r = (s1, Ok tt) ->
  Database.getRecordings s1
  = Recording.with_createdAt (Database.now e) r :: Database.getRecordings s
  /\ Database.getRecording s1 (Recording.id r)
     = Some (Recording.with_createdAt (Database.now e) r).
Proof.
  intro H. destruct (saveRecording_prepends _ _ _ _ H) as [L _]. split; [exact L|].
  rewrite getRecording_find, L. simpl.
  change (Database.has_id (Recording.id r) (Recording.with_createdAt (Database.now e) r))
    with (Database.has_id (Recording.id r) r).
  now rewrite has_id_refl.
Qed.

(** C4, amended.  A save that returns puts the recording, stamped with the
    time of the save, in front of the stored list, whatever ids the list
    holds; [getRecording] then finds that newest entry.  A second save of the
    same recording adds a second entry in front of the first. *)
Theorem C4_save_prepends_newest_entry :
  forall (s s1 : Database.t) (e1 : Database.Env) (r : Recording.t),
    Database.saveRecording s e1 r = (s1, Ok tt) ->
    Database.getRecordings s1
    = Recording.with_createdAt (Database.now e1) r :: Database.getRecordings s
    /\ Database.getRecording s1 (Recording.id r)
       = Some (Recording.with_createdAt (Database.now e1) r)
    /\ forall (s2 : Database.t) (e2 : Database.Env),
         Database.saveRecording s1 e2 r = (s2, Ok tt) ->
         Database.getRecordings s2
         = Recording.with_createdAt (Database.now e2) r
             :: Recording.with_createdAt (Database.now e1) r
             :: Database.getRecordings s
         /\ Database.getRecording s2 (Recording.id r)
            = Some (Recording.with_createdAt (Database.now e2) r).
Proof.
  intros s s1 e1 r H1. destruct (saveRecording_prepends _ _ _ _ H1) as [L1 _].
  assert (forall now l, find (Database.has_id (Recording.id r))
                          (Recording.with_createdAt now r :: l)
                        = Some (Recording.with_createdAt now r)) as F.
  { intros now l. simpl.
    change (Database.has_id (Recording.id r) (Recording.with_createdAt now r))
      with (Database.has_id (Recording.id r) r).
    now rewrite has_id_refl. }
  split; [exact L1|]. split.
  - rewrite getRecording_find, L1. apply F.
  - intros s2 e2 H2. destruct (saveRecording_prepends _ _ _ _ H2) as [L2 _]. split.
    + now rewrite L2, L1.
    + rewrite getRecording_find, L2. apply F.
Qed.

Lemma C4_save_prepends_newest_entry_witness :
  Database.getRecordings mobile_saved_once
  = Recording.with_createdAt (Database.now env_ok) rec1 :: Database.getRecordings mobile0.
Proof.
  exact (proj1 (C4_save_prepends_newest_entry
                  mobile0 mobile_saved_once env_ok rec1 eq_refl)).
Defined.

(** C5, as stated, fails: in the browser store, the entry ["r1"] is synced
    after [markSynced] and unsynced again after
    [updateRecordingSyncStatus("r1", false)], and likewise after the recording
    is saved once more. *)
Lemma C5_isSynced_goes_back_to_false :
  option_map Recording.isSynced (Database.getRecording web_synced "r1") = Some true
  /\ option_map Recording.isSynced (Database.getRecording web_reset "r1") = Some false
  /\ option_map Recording.isSynced (Database.getRecording web_resaved "r1") = Some false.
Proof. repeat split; reflexivity. Qed.

Lemma markSynced_mobile (s : Database.t) (e : Database.Env) (i : string) (b : bool) :
  Database.isWeb s = false ->
  Database.updateRecordingSyncStatus s e i b
  = match Database.db s with
    | None => (s, Ok tt)
    | Some d =>
        if sql_ok e
        then (Database.set_db (Some (Database.mkDb (Database.songs d)
                 (map (set_flag i b) (Database.recordings d)))) s, Ok tt)
        else (Database.set_db None s, Ok tt)
    end.
Proof.
  intro W. unfold Database.updateRecordingSyncStatus, sql_ok. rewrite W.
  destruct (Database.db s); [|reflexivity].
  now destruct (Database.getAllAsync_ok e), (Database.runAsync_ok e).
Qed.

Lemma markSynced_web (s : Database.t) (e : Database.Env) (i : string) (b : bool) :
  Database.isWeb s = true ->
  Database.updateRecordingSyncStatus s e i b
  = if Database.setItem_ok e
    then (Database.set_localStorage
            (Json (map (set_flag i b) (slot_entries (Database.localStorage s)))) s,
          Ok tt)
    else (s, Throw "localStorage.setItem").
Proof.
  intro W. unfold Database.updateRecordingSyncStatus,
    Database.updateWebRecordingSyncStatus. rewrite W, getWebRecordings_entries.
  reflexivity.
Qed.

Lemma In_entries (s : Database.t) (r : Recording.t) :
  In r (entries s) <->
  In r (slot_entries (Database.asyncStorage s))
  \/ In r (slot_entries (Database.localStorage s))
  \/ In r (table_rows s).
Proof. unfold entries. now rewrite !in_app_iff. Qed.

(** One store operation makes no entry unsynced: an unsynced entry after it
    was there before, or is the recording a save just wrote. *)
Lemma apply_op_unsynced (s : Database.t) (x : Database.Env * store_op) (r : Recording.t) :
  In r (entries (apply_op s x)) -> Recording.isSynced r = false ->
  In r (entries s)
  \/ exists r0, snd x = OpSave r0 /\ r = Recording.with_createdAt (Database.now (fst x)) r0.
Proof.
  destruct x as [e [r0 | i | i]]; unfold apply_op; simpl; intros Hin Hf.
  - (* save *)
    unfold Database.saveRecording, Database.saveWebRecording in Hin.
    rewrite getWebRecordings_entries in Hin.
    destruct (Database.isWeb s).
    + destruct (Database.setItem_ok e); [|now left].
      apply In_entries in Hin. simpl in Hin.
      destruct Hin as [H | [[H | H] | H]].
      * left. apply In_entries. now left.
      * right. now exists r0.
      * left. apply In_entries. right. now left.
      * left. apply In_entries. right. now right.
    + destruct (Database.asyncStorage s) eqn:A; [| now left |];
        (destruct (Database.setItem_ok e); [|now left]);
        apply In_entries in Hin; simpl in Hin;
        destruct Hin as [[H | H] | [H | H]];
        try (right; now exists r0);
        left; apply In_entries; rewrite A; simpl; tauto.
  - (* delete *)
    left. unfold Database.deleteRecording, Database.deleteWebRecording in Hin.
    rewrite getWebRecordings_entries in Hin.
    destruct (Database.isWeb s).
    + destruct (Database.setItem_ok e); [|exact Hin].
      apply In_entries in Hin. simpl in Hin. apply In_entries.
      destruct Hin as [H | [H | H]]; [tauto | | tauto].
      apply filter_In in H. tauto.
    + destruct (Database.asyncStorage s) eqn:A; try exact Hin.
      destruct (length (filter _ v) =? length v)%nat; [exact Hin|].
      destruct (Database.setItem_ok e); [|exact Hin].
      apply In_entries in Hin. simpl in Hin. apply In_entries. rewrite A. simpl.
      destruct Hin as [H | [H | H]]; [| tauto | tauto].
      apply filter_In in H. tauto.
  - (* markSynced *)
    left. unfold markSynced in Hin.
    destruct (Database.isWeb s) eqn:W.
    + rewrite (markSynced_web _ _ _ _ W) in Hin.
      destruct (Database.setItem_ok e); [|exact Hin].
      apply In_entries in Hin. simpl in Hin. apply In_entries.
      destruct Hin as [H | [H | H]]; [tauto | | tauto].
      right; left. eapply In_marked_unsynced; eauto.
    + rewrite (markSynced_mobile _ _ _ _ W) in Hin.
      destruct (Database.db s) as [d|] eqn:D; [|exact Hin].
      destruct (sql_ok e).
      * apply In_entries in Hin. unfold table_rows in *. simpl in Hin.
        apply In_entries. unfold table_rows. rewrite D.
        destruct Hin as [H | [H | H]]; [tauto | tauto |].
        right; right. eapply In_marked_unsynced; eauto.
      * apply In_entries in Hin. unfold table_rows in *. simpl in Hin.
        apply In_entries. unfold table_rows. rewrite D.
        destruct Hin as [H | [H | H]]; [tauto | tauto | contradiction].
Qed.

Lemma apply_ops_unsynced (ops : list (Database.Env * store_op)) :
  forall (s : Database.t) (r : Recording.t),
    In r (entries (apply_ops s ops)) -> Recording.isSynced r = false ->
    In r (entries s)
    \/ exists e r0, In (e, OpSave r0) ops
                    /\ r = Recording.with_createdAt (Database.now e) r0.
Proof.
  induction ops as [|x ops IH]; intros s r Hin Hf; [now left|].
  simpl in Hin. destruct (IH _ _ Hin Hf) as [H | (e & r0 & H & ->)].
  - destruct (apply_op_unsynced _ _ _ H Hf) as [H' | (r0 & Hx & ->)]; [now left|].
    right. exists (fst x), r0. split; [|reflexivity].
    left. destruct x as [e o]. simpl in *. now subst o.
  - right. exists e, r0. split; [now right|reflexivity].
Qed.

Lemma markSynced_idempotent (s : Database.t) (e : Database.Env) (i : string) :
  fst (markSynced (fst (markSynced s e i)) e i) = fst (markSynced s e i).
Proof.
  unfold markSynced. destruct (Database.isWeb s) eqn:W.
  - rewrite (markSynced_web s e i true W).
    destruct (Database.setItem_ok e) eqn:E; simpl.
    + rewrite markSynced_web by exact W. rewrite E. simpl.
      unfold Database.set_localStorage. simpl. now rewrite map_set_flag_idem.
    + rewrite markSynced_web by exact W. now rewrite E.
  - rewrite (markSynced_mobile s e i true W).
    destruct (Database.db s) as [d|] eqn:D; simpl.
    + destruct (sql_ok e) eqn:E; simpl.
      * rewrite markSynced_mobile by exact W. simpl. rewrite E. simpl.
        unfold Database.set_db. simpl. now rewrite map_set_flag_idem.
      * rewrite markSynced_mobile by exact W. reflexivity.
    + rewrite markSynced_mobile by exact W. now rewrite D.
Qed.

Lemma markSynced_unknown_id (s : Database.t) (e : Database.Env) (i : string) :
  (forall r, In r (entries s) -> Recording.id r <> i) ->
  Database.isWeb s = true \/ sql_ok e = true ->
  view (fst (markSynced s e i)) = view s.
Proof.
  intros Hun Henv. unfold markSynced. destruct (Database.isWeb s) eqn:W.
  - rewrite (markSynced_web s e i true W).
    destruct (Database.setItem_ok e); [|reflexivity]. simpl.
    unfold view, Database.getRecordings, table_rows. simpl. rewrite W.
    rewrite !getWebRecordings_entries. simpl.
    rewrite map_set_flag_unknown; [reflexivity|].
    intros r Hr. apply Hun, In_entries. right. now left.
  - destruct Henv as [H | Hsql]; [discriminate|].
    rewrite (markSynced_mobile s e i true W).
    destruct (Database.db s) as [d|] eqn:D; [|reflexivity].
    rewrite Hsql. simpl. rewrite map_set_flag_unknown.
    + now rewrite set_db_same.
    + intros r Hr. apply Hun, In_entries. right; right.
      unfold table_rows. now rewrite D.
Qed.

(** C5, amended.  Saves, deletes and [markSynced] make no stored entry
    unsynced: after any sequence of them, an entry with [isSynced = false]
    is one the store held before, as it is, or one a save of the sequence
    wrote.  [markSynced] is idempotent, and on an id that no entry carries
    it leaves what the store returns unchanged (on the phone, when its SQL
    statements run). *)
Theorem C5_markSynced_monotone_idempotent :
  (forall (ops : list (Database.Env * store_op)) (s : Database.t) (r : Recording.t),
      In r (entries (apply_ops s ops)) -> Recording.isSynced r = false ->
      In r (entries s)
      \/ exists e r0, In (e, OpSave r0) ops
                      /\ r = Recording.with_createdAt (Database.now e) r0)
  /\ (forall (s : Database.t) (e : Database.Env) (i : string),
         fst (markSynced (fst (markSynced s e i)) e i) = fst (markSynced s e i))
  /\ (forall (s : Database.t) (e : Database.Env) (i : string),
         (forall r, In r (entries s) -> Recording.id r <> i) ->
         Database.isWeb s = true \/ sql_ok e = true ->
         view (fst (markSynced s e i)) = view s).
Proof.
  split; [exact apply_ops_unsynced|].
  split; [exact markSynced_idempotent | exact markSynced_unknown_id].
Qed.

Lemma C5_markSynced_monotone_idempotent_witness :
  view (fst (markSynced web_saved env_ok "r9")) = view web_saved.
Proof.
  apply (proj2 (proj2 C5_markSynced_monotone_idempotent)).
  - intros r Hr. vm_compute in Hr. destruct Hr as [<- | []]. discriminate.
  - left. reflexivity.
Defined.

(** C10.  On the phone [updateRecordingSyncStatus] resolves for every id,
    flag, store and environment.  With no database handle it changes
    nothing; when a statement throws, the handle is dropped and nothing
    else changes; and what it returns is the same whether the update was
    written or not. *)
Theorem C10_markSynced_never_throws_on_mobile :
  forall (s : Database.t) (e : Database.Env) (i : string) (b : bool),
    Database.isWeb s = false ->
    snd (Database.updateRecordingSyncStatus s e i b) = Ok tt
    /\ (Database.db s = None ->
        fst (Database.updateRecordingSyncStatus s e i b) = s)
    /\ (sql_ok e = false ->
        fst (Database.updateRecordingSyncStatus s e i b) = Database.set_db None s)
    /\ (forall (s' : Database.t) (e' : Database.Env),
           Database.isWeb s' = false ->
           snd (Database.updateRecordingSyncStatus s' e' i b)
           = snd (Database.updateRecordingSyncStatus s e i b)).
Proof.
  intros s e i b W.
  assert (forall s0 e0, Database.isWeb s0 = false ->
            snd (Database.updateRecordingSyncStatus s0 e0 i b) = Ok tt) as R.
  { intros s0 e0 W0. rewrite (markSynced_mobile s0 e0 i b W0).
    destruct (Database.db s0); [|reflexivity]. now destruct (sql_ok e0). }
  split; [now apply R|]. rewrite (markSynced_mobile s e i b W). repeat split.
  - now intros ->.
  - intros ->. destruct (Database.db s) eqn:D; [reflexivity|].
    simpl. symmetry. now apply set_db_none_same.
  - intros s' e' W'. rewrite (R s' e' W').
    destruct (Database.db s); [|reflexivity]. now destruct (sql_ok e).
Qed.

Lemma C10_markSynced_never_throws_on_mobile_witness :
  snd (Database.updateRecordingSyncStatus mobile_two_rows env_update_fails "r1" true)
  = Ok tt
  /\ unsynced_rows
       (fst (Database.updateRecordingSyncStatus mobile_two_rows env_update_fails "r1" true))
     = [].
Proof.
  split.
  - exact (proj1 (C10_markSynced_never_throws_on_mobile
                    mobile_two_rows env_update_fails "r1" true eq_refl)).
  - reflexivity.
Defined.

(** * Properties of the sync reconciler *)

Lemma performSync_enter_spec (s s1 : Sync.t) :
  Sync.performSync_enter s = Some s1 ->
  Sync.isOnline s = true /\ Sync.isSyncing s = false
  /\ s1 = Sync.set_isSyncing true s.
Proof.
  unfold Sync.performSync_enter.
  destruct (Sync.isOnline s), (Sync.isSyncing s); simpl; try discriminate.
  intro H. now injection H as <-.
Qed.

Lemma performSync_enter_rejects (s : Sync.t) :
  Sync.isOnline s = false \/ Sync.isSyncing s = true ->
  Sync.performSync_enter s = None.
Proof.
  unfold Sync.performSync_enter. intros [-> | ->]; [reflexivity|].
  now destruct (Sync.isOnline s).
Qed.

Lemma call_performSync_counts (f : Sync.Flags) :
  flag_counts f -> flag_counts (Sync.call_performSync f).
Proof.
  unfold Sync.call_performSync. intro H.
  destruct (Sync.performSync_enter (Sync.svc f)) as [s1|] eqn:E; [|exact H].
  apply performSync_enter_spec in E as (_ & Hs & ->).
  unfold flag_counts in *. simpl. rewrite Hs in H. now rewrite H.
Qed.

Lemma step_counts (f : Sync.Flags) (ev : Sync.event) :
  flag_counts f -> flag_counts (Sync.step f ev).
Proof.
  intro H. destruct ev as [c | | | | u |]; simpl.
  - match goal with |- flag_counts (if ?c then _ else _) => destruct c end;
      [apply call_performSync_counts|]; exact H.
  - match goal with |- flag_counts (if ?c then _ else _) => destruct c end;
      [apply call_performSync_counts|]; exact H.
  - destruct (Sync.isOnline (Sync.svc f)); [apply call_performSync_counts|]; exact H.
  - now apply call_performSync_counts.
  - exact H.
  - unfold flag_counts in *. destruct (Sync.inflight f) as [|n] eqn:N; [congruence|].
    simpl. destruct (Sync.isSyncing (Sync.svc f)); [|discriminate].
    now injection H as ->.
Qed.

Lemma run_counts (evs : list Sync.event) :
  forall f, flag_counts f -> flag_counts (Sync.run f evs).
Proof.
  induction evs as [|ev evs IH]; intros f H; [exact H|].
  simpl. apply IH. now apply step_counts.
Qed.

Lemma performSync_resolves (e : Sync.Env) (w : Sync.World) :
  snd (Sync.performSync e w) = Ok tt.
Proof.
  unfold Sync.performSync. destruct (Sync.performSync_enter (Sync.sync w)); [|reflexivity].
  now destruct (Sync.performSync_body e _).
Qed.

Lemma uploadLoop_keeps_sync (s : Sync.t) (e : Sync.Env) (w : Sync.World) :
  Sync.sync (fst (fst (Sync.uploadUnsyncedRecordings e w))) = Sync.sync w.
Proof.
  unfold Sync.uploadUnsyncedRecordings.
  destruct (Database.getUnsyncedRecordings _ _); [|reflexivity].
  now destruct (Sync.uploadLoop _ _ _ _ _) as [[? ?] ?].
Qed.

Lemma performSync_body_keeps_sync (e : Sync.Env) (w : Sync.World) :
  Sync.sync (fst (Sync.performSync_body e w)) = Sync.sync w.
Proof.
  unfold Sync.performSync_body.
  pose proof (uploadLoop_keeps_sync (Sync.sync w) e w) as H.
  destruct (Sync.uploadUnsyncedRecordings e w) as [[w1 log] [u|m]]; simpl in *;
    exact H.
Qed.

(** C7.  [performSync] goes past its guard only when the service is online
    and no pass is in flight, and raises [isSyncing] in the same step.  A
    call that fails the guard resolves with the world as it was.  A pass
    that ran ends with the flag lowered, and over every sequence of network
    changes, timer ticks, [forceSync] and [performSync] calls and pass
    completions, at most one pass is in flight. *)
Theorem C7_performSync_guarded_single_pass :
  (forall (s s1 : Sync.t),
      Sync.performSync_enter s = Some s1 ->
      Sync.isOnline s = true /\ Sync.isSyncing s = false
      /\ Sync.isSyncing s1 = true)
  /\ (forall (e : Sync.Env) (w : Sync.World),
         Sync.isOnline (Sync.sync w) = false \/ Sync.isSyncing (Sync.sync w) = true ->
         Sync.performSync e w = (w, [], Ok tt))
  /\ (forall (e : Sync.Env) (w : Sync.World),
         snd (Sync.performSync e w) = Ok tt
         /\ (Sync.isSyncing (Sync.sync w) = false ->
             Sync.isSyncing (Sync.sync (fst (fst (Sync.performSync e w)))) = false))
  /\ (forall (evs : list Sync.event) (f : Sync.Flags),
         flag_counts f ->
         Sync.inflight (Sync.run f evs) <= 1 /\ flag_counts (Sync.run f evs)).
Proof.
  repeat split.
  - now apply performSync_enter_spec in H.
  - now apply performSync_enter_spec in H.
  - apply performSync_enter_spec in H as (_ & _ & ->). reflexivity.
  - intros e w H. unfold Sync.performSync.
    now rewrite (performSync_enter_rejects _ H).
  - apply performSync_resolves.
  - intro H. unfold Sync.performSync.
    destruct (Sync.performSync_enter (Sync.sync w)) as [s1|] eqn:E; [|exact H].
    pose proof (performSync_body_keeps_sync e
                  (Sync.mkWorld s1 (Sync.store w) (Sync.remote w))) as K.
    destruct (Sync.performSync_body e _) as [w2 log]. reflexivity.
  - pose proof (run_counts evs f H) as K. unfold flag_counts in K.
    rewrite K. destruct (Sync.isSyncing _); lia.
  - now apply run_counts.
Qed.

Lemma C7_performSync_guarded_single_pass_witness :
  Sync.inflight
    (Sync.run flags0
       [Sync.NetInfoChange (Some true); Sync.TimerTick; Sync.ForceSync;
        Sync.PerformSync; Sync.PassCompletes; Sync.PerformSync]) <= 1.
Proof.
  apply (proj2 (proj2 (proj2 C7_performSync_guarded_single_pass))).
  reflexivity.
Defined.

(** ** The upload loop *)

Lemma uploadRecording_ok (s : Sync.t) (e : Sync.Env) (fb : Firebase.t) (r : Recording.t) :
  is_ok (snd (Sync.uploadRecording s e fb r)) = upload_succeeds s e r.
Proof.
  unfold Sync.uploadRecording, upload_succeeds.
  destruct (Sync.user s); [|reflexivity].
  unfold Firebase.uploadRecordingFile, Firebase.addRecording.
  destruct (Sync.uploadUrl e r); [|reflexivity].
  now destruct (Sync.addDoc_ok e r).
Qed.

Lemma uploadLoop_spec (s : Sync.t) (e : Sync.Env) (queue : list Recording.t) :
  forall (st : Database.t) (fb : Firebase.t),
    fst (fst (Sync.uploadLoop s e queue st fb)) = mark_uploaded s e queue st
    /\ snd (Sync.uploadLoop s e queue st fb) = loop_log s e queue.
Proof.
  induction queue as [|r rest IH]; intros st fb; [now split|].
  simpl. pose proof (uploadRecording_ok s e fb r) as U.
  destruct (Sync.uploadRecording s e fb r) as [fb1 [u|m]]; simpl in U; rewrite <- U.
  - match goal with |- context [Sync.uploadLoop s e rest ?a ?b] =>
      destruct (IH a b) as [I1 I2];
      destruct (Sync.uploadLoop s e rest a b) as [[st2 fb2] log] end.
    simpl in *. split; [exact I1|now rewrite I2].
  - destruct (IH st fb1) as [I1 I2].
    destruct (Sync.uploadLoop s e rest st fb1) as [[st2 fb2] log].
    simpl in *. split; [exact I1|now rewrite I2].
Qed.

(** One remote document per upload that goes through, none otherwise. *)
Lemma uploadRecording_documents (s : Sync.t) (e : Sync.Env) (fb : Firebase.t) (r : Recording.t) :
  length (Firebase.recordings (fst (Sync.uploadRecording s e fb r)))
  = length (Firebase.recordings fb) + (if upload_succeeds s e r then 1 else 0).
Proof.
  unfold Sync.uploadRecording, upload_succeeds.
  destruct (Sync.user s); [|simpl; lia].
  unfold Firebase.uploadRecordingFile, Firebase.addRecording.
  destruct (Sync.uploadUrl e r); [|simpl; lia].
  destruct (Sync.addDoc_ok e r); simpl; [|lia].
  now rewrite length_app.
Qed.

Lemma uploadLoop_documents (s : Sync.t) (e : Sync.Env) (queue : list Recording.t) :
  forall (st : Database.t) (fb : Firebase.t),
    length (Firebase.recordings (snd (fst (Sync.uploadLoop s e queue st fb))))
    = length (Firebase.recordings fb) + length (filter (upload_succeeds s e) queue).
Proof.
  induction queue as [|r rest IH]; intros st fb; [simpl; lia|].
  simpl. pose proof (uploadRecording_ok s e fb r) as U.
  pose proof (uploadRecording_documents s e fb r) as D.
  destruct (Sync.uploadRecording s e fb r) as [fb1 [u|m]]; simpl in U, D;
    rewrite <- U in *.
  - match goal with |- context [Sync.uploadLoop s e rest ?a ?b] =>
      pose proof (IH a b) as I;
      destruct (Sync.uploadLoop s e rest a b) as [[st2 fb2] log] end.
    simpl in *. lia.
  - pose proof (IH st fb1) as I.
    destruct (Sync.uploadLoop s e rest st fb1) as [[st2 fb2] log].
    simpl in *. lia.
Qed.

Lemma getUnsynced_rows (st : Database.t) (e : Database.Env) (q : list Recording.t) :
  Database.getUnsyncedRecordings st e = Ok q -> q = unsynced_rows st.
Proof.
  unfold Database.getUnsyncedRecordings, unsynced_rows, table_rows.
  destruct (Database.db st).
  - destruct (Database.getAllAsync_ok e); [|discriminate]. intro H. now injection H.
  - intro H. now injection H.
Qed.

Lemma getUnsynced_when_ok (st : Database.t) (e : Database.Env) :
  Database.getAllAsync_ok e = true ->
  Database.getUnsyncedRecordings st e = Ok (unsynced_rows st).
Proof.
  unfold Database.getUnsyncedRecordings, unsynced_rows, table_rows. intros ->.
  now destruct (Database.db st).
Qed.


Lemma saveSongs_rows (e : Sync.Env) (l : list Song.t) :
  forall st, option_map Database.recordings (Database.db (Sync.saveSongs e l st))
             = option_map Database.recordings (Database.db st).
Proof.
  induction l as [|x l IH]; intro st; [reflexivity|]. simpl.
  unfold Database.saveSong. destruct (Database.db st) as [d|] eqn:D.
  - destruct (Database.runAsync_ok (Sync.songsEnv e)).
    + rewrite IH. simpl. reflexivity.
    + now rewrite D.
  - rewrite IH. now rewrite D.
Qed.

Lemma table_rows_same (st st' : Database.t) :
  option_map Database.recordings (Database.db st')
  = option_map Database.recordings (Database.db st) ->
  table_rows st' = table_rows st.
Proof.
  unfold table_rows. destruct (Database.db st'), (Database.db st); simpl;
    intro H; try discriminate; [now injection H|reflexivity].
Qed.

(** *** Marking and the unsynced rows *)

Lemma markSynced_isWeb (st : Database.t) (e : Database.Env) (i : string) :
  Database.isWeb (fst (markSynced st e i)) = Database.isWeb st.
Proof.
  unfold markSynced. destruct (Database.isWeb st) eqn:W.
  - rewrite markSynced_web by exact W. now destruct (Database.setItem_ok e).
  - rewrite markSynced_mobile by exact W.
    destruct (Database.db st); [|exact W]. now destruct (sql_ok e).
Qed.

Lemma markSynced_web_db (st : Database.t) (e : Database.Env) (i : string) :
  Database.isWeb st = true ->
  Database.db (fst (markSynced st e i)) = Database.db st.
Proof.
  intro W. unfold markSynced. rewrite markSynced_web by exact W.
  now destruct (Database.setItem_ok e).
Qed.

Lemma markSynced_shrinks (st : Database.t) (e : Database.Env) (i : string) (r : Recording.t) :
  In r (unsynced_rows (fst (markSynced st e i))) -> In r (unsynced_rows st).
Proof.
  unfold unsynced_rows, table_rows. destruct (Database.isWeb st) eqn:W.
  - now rewrite markSynced_web_db.
  - unfold markSynced. rewrite markSynced_mobile by exact W.
    destruct (Database.db st) as [d|] eqn:D; simpl; [|now rewrite D].
    destruct (sql_ok e); simpl; [|contradiction].
    rewrite !filter_In. intros [H1 H2]. split; [|exact H2].
    apply In_marked_unsynced with (i := i); [exact H1|].
    unfold unsynced in H2. now destruct (Recording.isSynced r).
Qed.

Lemma markSynced_clears (st : Database.t) (e : Database.Env) (i : string) (r : Recording.t) :
  Database.isWeb st = false ->
  In r (unsynced_rows (fst (markSynced st e i))) -> Recording.id r <> i.
Proof.
  intro W. unfold unsynced_rows, table_rows, markSynced.
  rewrite markSynced_mobile by exact W.
  destruct (Database.db st) as [d|] eqn:D; simpl; [|now rewrite D].
  destruct (sql_ok e); simpl; [|contradiction].
  rewrite filter_In. intros [H1 H2].
  apply marked_rows_synced with (l := Database.recordings d); [exact H1|].
  unfold unsynced in H2. now destruct (Recording.isSynced r).
Qed.

Lemma markSynced_keeps_other (st : Database.t) (e : Database.Env) (i : string) (r : Recording.t) :
  In r (unsynced_rows st) -> Recording.id r <> i ->
  Database.isWeb st = true \/ sql_ok e = true ->
  In r (unsynced_rows (fst (markSynced st e i))).
Proof.
  intros Hin Hid Henv. unfold unsynced_rows, table_rows in *.
  destruct (Database.isWeb st) eqn:W.
  - now rewrite markSynced_web_db.
  - destruct Henv as [H|Hsql]; [discriminate|].
    unfold markSynced. rewrite markSynced_mobile by exact W.
    destruct (Database.db st) as [d|] eqn:D; [|contradiction].
    rewrite Hsql. simpl. apply filter_In in Hin as [H1 H2].
    apply filter_In. split; [|exact H2].
    apply in_map_iff. exists r. split; [|exact H1].
    unfold set_flag. destruct (Database.has_id i r) eqn:E; [|reflexivity].
    apply has_id_true in E. contradiction.
Qed.

Lemma mark_uploaded_isWeb (s : Sync.t) (e : Sync.Env) (q : list Recording.t) :
  forall st, Database.isWeb (mark_uploaded s e q st) = Database.isWeb st.
Proof.
  induction q as [|x q IH]; intro st; [reflexivity|]. simpl. rewrite IH.
  destruct (upload_succeeds s e x); [apply markSynced_isWeb|reflexivity].
Qed.

Lemma mark_uploaded_shrinks (s : Sync.t) (e : Sync.Env) (q : list Recording.t) :
  forall st r, In r (unsynced_rows (mark_uploaded s e q st)) -> In r (unsynced_rows st).
Proof.
  induction q as [|x q IH]; intros st r H; [exact H|]. simpl in H.
  apply IH in H. destruct (upload_succeeds s e x); [|exact H].
  now apply markSynced_shrinks in H.
Qed.

Lemma mark_uploaded_clears (s : Sync.t) (e : Sync.Env) (q : list Recording.t) :
  forall st x r,
    Database.isWeb st = false ->
    In x q -> upload_succeeds s e x = true ->
    In r (unsynced_rows (mark_uploaded s e q st)) ->
    Recording.id r <> Recording.id x.
Proof.
  induction q as [|y q IH]; intros st x r W Hx Hup Hr; [contradiction|].
  simpl in Hr. destruct Hx as [<- | Hx].
  - rewrite Hup in Hr. apply mark_uploaded_shrinks in Hr.
    now apply markSynced_clears in Hr.
  - apply (IH _ x r) in Hr; [exact Hr | | exact Hx | exact Hup].
    destruct (upload_succeeds s e y); [|exact W].
    now rewrite markSynced_isWeb.
Qed.

Lemma mark_uploaded_keeps (s : Sync.t) (e : Sync.Env) (q : list Recording.t) :
  forall st r,
    (forall x, In x q -> upload_succeeds s e x = true ->
               Recording.id r <> Recording.id x /\ sql_ok (Sync.markEnv e x) = true) ->
    In r (unsynced_rows st) ->
    In r (unsynced_rows (mark_uploaded s e q st)).
Proof.
  induction q as [|y q IH]; intros st r Hq Hr; [exact Hr|]. simpl.
  apply IH; [intros x Hx; apply Hq; now right|].
  destruct (upload_succeeds s e y) eqn:U; [|exact Hr].
  destruct (Hq y (or_introl eq_refl) U) as [Hid Hsql].
  apply markSynced_keeps_other; [exact Hr | exact Hid | now right].
Qed.

(** *** One pass *)

Lemma set_isSyncing_back (s : Sync.t) :
  Sync.isSyncing s = false ->
  Sync.performSync_exit (Sync.set_isSyncing true s) = s.
Proof. destruct s as [o y u]; simpl. now intros ->. Qed.

Lemma mark_uploaded_flag (s : Sync.t) (b : bool) (e : Sync.Env) (q : list Recording.t) :
  forall st, mark_uploaded (Sync.set_isSyncing b s) e q st = mark_uploaded s e q st.
Proof.
  induction q as [|x q IH]; intro st; [reflexivity|]. simpl. now rewrite IH.
Qed.

Lemma unsynced_rows_same (st st' : Database.t) :
  option_map Database.recordings (Database.db st')
  = option_map Database.recordings (Database.db st) ->
  unsynced_rows st' = unsynced_rows st.
Proof. intro H. unfold unsynced_rows. now rewrite (table_rows_same _ _ H). Qed.

(** A pass that is let in and reads its queue: the log, the service and
    the sync table afterwards. *)
Lemma performSync_ran (e : Sync.Env) (w : Sync.World) :
  Sync.isOnline (Sync.sync w) = true ->
  Sync.isSyncing (Sync.sync w) = false ->
  Database.getAllAsync_ok (Sync.queryEnv e) = true ->
  snd (fst (Sync.performSync e w))
  = loop_log (Sync.sync w) e (unsynced_rows (Sync.store w))
  /\ Sync.sync (fst (fst (Sync.performSync e w))) = Sync.sync w
  /\ unsynced_rows (Sync.store (fst (fst (Sync.performSync e w))))
     = unsynced_rows
         (mark_uploaded (Sync.sync w) e (unsynced_rows (Sync.store w)) (Sync.store w))
  /\ length (Firebase.recordings (Sync.remote (fst (fst (Sync.performSync e w)))))
     = length (Firebase.recordings (Sync.remote w))
       + length (filter (upload_succeeds (Sync.sync w) e) (unsynced_rows (Sync.store w))).
Proof.
  intros On Sy Q. unfold Sync.performSync, Sync.performSync_enter.
  rewrite On, Sy. simpl.
  unfold Sync.performSync_body, Sync.uploadUnsyncedRecordings. simpl.
  rewrite (getUnsynced_when_ok _ _ Q).
  destruct (uploadLoop_spec (Sync.set_isSyncing true (Sync.sync w)) e
              (unsynced_rows (Sync.store w)) (Sync.store w) (Sync.remote w))
    as [L1 L2].
  pose proof (uploadLoop_documents (Sync.set_isSyncing true (Sync.sync w)) e
                (unsynced_rows (Sync.store w)) (Sync.store w) (Sync.remote w)) as L3.
  destruct (Sync.uploadLoop _ e _ _ _) as [[st fb] log]. simpl in *.
  rewrite mark_uploaded_flag in L1. subst st log. repeat split.
  - now apply set_isSyncing_back.
  - apply unsynced_rows_same.
    exact (saveSongs_rows e (Sync.fetchNewSongsFromBackend e) _).
  - exact L3.
Qed.


(** A pass over a store with no unsynced row attempts nothing, writes
    nothing to the remote store and leaves the sync table as it is. *)
Lemma performSync_empty_queue (e : Sync.Env) (w : Sync.World) :
  unsynced_rows (Sync.store w) = [] ->
  snd (fst (Sync.performSync e w)) = []
  /\ Sync.remote (fst (fst (Sync.performSync e w))) = Sync.remote w
  /\ option_map Database.recordings
       (Database.db (Sync.store (fst (fst (Sync.performSync e w)))))
     = option_map Database.recordings (Database.db (Sync.store w)).
Proof.
  intro E. unfold Sync.performSync.
  destruct (Sync.performSync_enter (Sync.sync w)) as [s1|]; [|now repeat split].
  unfold Sync.performSync_body, Sync.uploadUnsyncedRecordings. simpl.
  destruct (Database.getUnsyncedRecordings (Sync.store w) (Sync.queryEnv e))
    as [q|m] eqn:Q; [|now repeat split].
  apply getUnsynced_rows in Q. rewrite E in Q. subst q. simpl.
  repeat split. exact (saveSongs_rows e (Sync.fetchNewSongsFromBackend e) _).
Qed.

Lemma In_loop_log (s : Sync.t) (e : Sync.Env) (q : list Recording.t)
    (r : Recording.t) (b : bool) :
  In (r, b) (loop_log s e q) <-> In r q /\ upload_succeeds s e r = b.
Proof.
  unfold loop_log. rewrite in_map_iff. split.
  - intros (x & H & Hx). injection H as -> <-. now split.
  - intros [H <-]. now exists r.
Qed.

Lemma map_fst_loop_log (s : Sync.t) (e : Sync.Env) (q : list Recording.t) :
  map fst (loop_log s e q) = q.
Proof.
  unfold loop_log. rewrite map_map. simpl. apply map_id.
Qed.


Lemma no_members_nil {A} (l : list A) : (forall x, ~ In x l) -> l = [].
Proof.
  destruct l as [|a l]; [reflexivity|]. intro H. exfalso. apply (H a). now left.
Qed.

(** * Properties of the capture state machine and of the commit *)

Lemma RecordingState_eqb_eq (a b : Audio.RecordingState) :
  Audio.RecordingState_eqb a b = true <-> a = b.
Proof. destruct a, b; simpl; split; intro H; try reflexivity; discriminate. Qed.



Lemma beginCapture_ok (a a1 : Audio.t) (d d1 : Audio.Device) (e : Audio.Env) :
  Audio.beginCapture a d e = (a1, d1, Ok tt) ->
  a1 = Audio.mk (Some (Audio.created d)) (Audio.isInitialized a) true
         Audio.state_recording
  /\ d1 = Audio.mkDevice (S (Audio.created d)) (Audio.created d :: Audio.capturing d).
Proof.
  unfold Audio.beginCapture.
  destruct (Audio.permission_granted e), (Audio.prepare_ok e), (Audio.start_ok e);
    simpl; try discriminate.
  intro H. injection H as <- <-. now split.
Qed.


Lemma initialize_ok_initialized (a a0 : Audio.t) (e : Audio.Env) (u : unit) :
  Audio.initialize a e = (a0, Ok u) ->
  Audio.isInitialized a0 = true
  /\ Audio.recording a0 = Audio.recording a
  /\ Audio._recordingState a0 = Audio._recordingState a.
Proof.
  unfold Audio.initialize. destruct (Audio.isInitialized a) eqn:I.
  - intro H. injection H as <- _. now repeat split.
  - destruct (Audio.initialize_ok e); [|discriminate].
    intro H. injection H as <- _. now repeat split.
Qed.


Lemma startRecording_again (a : Audio.t) (d : Audio.Device) (e : Audio.Env) :
  Audio.isInitialized a = true ->
  Audio._recordingState a = Audio.state_recording ->
  Audio.startRecording a d e = (a, d, Ok tt).
Proof.
  intros I R. unfold Audio.startRecording, Audio.initialize. rewrite I, R.
  reflexivity.
Qed.

(** From ['idle'] with no capture running, a start that resolves leaves one
    capture running, the one [recording] holds. *)
Lemma startRecording_from_idle (a a1 : Audio.t) (d d1 : Audio.Device) (e : Audio.Env) :
  Audio._recordingState a = Audio.state_idle ->
  Audio.capturing d = [] ->
  Audio.startRecording a d e = (a1, d1, Ok tt) ->
  Audio.recording a1 = Some (Audio.created d)
  /\ Audio.capturing d1 = [Audio.created d].
Proof.
  intros Idle Free. unfold Audio.startRecording.
  destruct (Audio.initialize a e) as [a0 [u|m]] eqn:I; [|discriminate].
  apply initialize_ok_initialized in I as (_ & _ & St). rewrite St, Idle. simpl.
  destruct (Audio.recording a0); simpl; intro H;
    apply beginCapture_ok in H as [-> ->]; simpl; now rewrite Free.
Qed.

Lemma localRecordingOf_unsynced (uri i : string) (m : Audio.Metadata) :
  Recording.id (Audio.localRecordingOf uri i m) = i
  /\ Recording.isSynced (Audio.localRecordingOf uri i m) = false.
Proof. now split. Qed.

(** What a commit that returns did on the way. *)
Lemma stopRecordingAndUpload_returned
    (a a1 : Audio.t) (d d1 : Audio.Device) (st st1 : Database.t)
    (e : Audio.CommitEnv) (uid : string) (m : Audio.Metadata)
    (bg : option Audio.BackgroundUpload) (rid : string) :
  Audio.stopRecordingAndUpload a d st e uid m = (a1, d1, st1, bg, Ok rid) ->
  rid = Audio.newId e
  /\ exists uri c,
       Audio.stopRecording a d (Audio.audioEnv e) = (a1, d1, Ok uri)
       /\ Database.saveRecording st (Audio.saveEnv e)
            (Audio.localRecordingOf uri rid m) = (st1, Ok tt)
       /\ Audio.netInfo e = Ok c
       /\ bg = if or_false c then Some (Audio.mkUpload uri uid m rid) else None.
Proof.
  unfold Audio.stopRecordingAndUpload.
  destruct (Audio.stopRecording a d (Audio.audioEnv e)) as [[a2 d2] [uri|msg]];
    [|discriminate].
  destruct (Database.saveRecording st (Audio.saveEnv e) _) as [st2 [[]|msg]] eqn:S;
    [|discriminate].
  destruct (Audio.netInfo e) as [c|msg]; [|discriminate].
  simpl. destruct (or_false c) eqn:C; intro H; injection H as <- <- <- <- <-;
    (split; [reflexivity|]); exists uri, c; rewrite C; now repeat split.
Qed.

(** C2.  When [stopRecordingAndUpload] returns an id, the store it leaves is
    the one [saveRecording] wrote before the network was looked at;
    [getRecording] of that id finds the recording just saved, with
    [isSynced = false].  The id and the store are the same for every
    answer of the network check, offline included; offline no upload is
    started. *)
Theorem C2_commit_is_durable :
  forall (a a1 : Audio.t) (d d1 : Audio.Device) (st st1 : Database.t)
         (e : Audio.CommitEnv) (uid : string) (m : Audio.Metadata)
         (bg : option Audio.BackgroundUpload) (rid : string),
    Audio.stopRecordingAndUpload a d st e uid m = (a1, d1, st1, bg, Ok rid) ->
    (exists r,
        Database.getRecording st1 rid = Some r
        /\ Recording.id r = rid
        /\ Recording.isSynced r = false
        /\ In r (Database.getRecordings st1))
    /\ (forall c : option bool,
           snd (Audio.stopRecordingAndUpload a d st (Audio.with_netInfo (Ok c) e) uid m)
           = Ok rid
           /\ snd (fst (fst (Audio.stopRecordingAndUpload
                               a d st (Audio.with_netInfo (Ok c) e) uid m)))
              = st1
           /\ (or_false c = false ->
               snd (fst (Audio.stopRecordingAndUpload
                           a d st (Audio.with_netInfo (Ok c) e) uid m))
               = None)).
Proof.
  intros a a1 d d1 st st1 e uid m bg rid H.
  apply stopRecordingAndUpload_returned in H as (-> & uri & c0 & Hstop & Hsave & _ & _).
  destruct (saved_entry_found _ _ _ _ Hsave) as [Hlist Hget].
  destruct (localRecordingOf_unsynced uri (Audio.newId e) m) as [Hid Hsy].
  rewrite Hid in Hget. split.
  - eexists. split; [exact Hget|]. split; [exact Hid|]. split; [exact Hsy|].
    rewrite Hlist. now left.
  - intro c. unfold Audio.stopRecordingAndUpload. simpl.
    rewrite Hstop, Hsave. simpl. destruct (or_false c); now repeat split.
Qed.

Lemma C2_commit_is_durable_witness :
  exists r,
    Database.getRecording
      (snd (fst (fst (Audio.stopRecordingAndUpload
                        audio_recording device_capturing mobile0 commit_offline
                        "user1" metadata_5000))))
      "local_1700000000000_k3j9x2a1b" = Some r
    /\ Recording.id r = "local_1700000000000_k3j9x2a1b"
    /\ Recording.isSynced r = false
    /\ In r (Database.getRecordings
               (snd (fst (fst (Audio.stopRecordingAndUpload
                                 audio_recording device_capturing mobile0
                                 commit_offline "user1" metadata_5000))))).
Proof.
  exact (proj1 (C2_commit_is_durable
                  audio_recording _ device_capturing _ mobile0 _ commit_offline
                  "user1" metadata_5000 _ _ eq_refl)).
Defined.

(** * Properties of the song downloads *)

Lemma writeFile_getInfo (fs : Songs.FileSystem) (p : string) (written : option Z) :
  Songs.getInfo (Songs.writeFile fs p written)
    p = match written with Some n => Some n | None => Songs.getInfo fs p end.
Proof.
  destruct written as [n|]; [|reflexivity].
  unfold Songs.getInfo, Songs.writeFile. simpl.
  unfold Songs.path_eqb at 1. simpl. now rewrite String.eqb_refl.
Qed.

(** The download from the remote catalog checks the file: when it returns
    [true], the local file exists and is not empty. *)
Lemma downloadFirebaseSong_verifies
    (stored : slot Songs.DownloadedSong) (fs : Songs.FileSystem)
    (e : Songs.FirebaseEnv) (i : string) :
  snd (Songs.downloadFirebaseSong stored fs e i) = true ->
  exists size,
    Songs.getInfo (snd (fst (Songs.downloadFirebaseSong stored fs e i)))
      ((Songs.documentDirectory (Songs.fenv e) ++ "songs/") ++ i ++ ".m4a") = Some size
    /\ size <> 0%Z.
Proof.
  unfold Songs.downloadFirebaseSong.
  destruct (Songs.remoteSong e) as [[song|]|m]; try discriminate.
  destruct (negb _ && negb _); [discriminate|].
  match goal with |- context [match ?u with Some _ => _ | None => _ end] =>
    destruct u as [url|] end; [|discriminate].
  destruct (Songs.download (Songs.fenv e)) as [[status written]|]; [|discriminate].
  destruct (Z.eqb status 200); [|discriminate].
  simpl.
  destruct (Songs.getInfo _ _) as [size|] eqn:G; [|discriminate].
  destruct (Z.eqb size 0) eqn:Zs; [discriminate|].
  destruct (Songs.saveDownloadedSong _ _ _) as [stored1 [u|m]]; [|discriminate].
  intros _. simpl. exists size. split; [exact G|]. now apply Z.eqb_neq.
Qed.

(** C6.  [downloadSong] does not look at the file it downloaded.  Against an
    asset of zero bytes served with status 200, it returns [true], the
    catalog entry ["s1"] is marked downloaded, and the local file has size
    zero; it returns [true] as well when the transfer leaves no file.  The
    download from the remote catalog, given the same transfer, returns
    [false] and stores nothing. *)
Theorem C6_downloadSong_accepts_empty_file :
  snd (Songs.downloadSong catalog_s1 fs0 env_zero_bytes "s1") = true
  /\ Database.getSong
       (fst (fst (Songs.downloadSong catalog_s1 fs0 env_zero_bytes "s1"))) env_ok "s1"
     = Ok (Some (Song.stamped "2024-01-01T00:00:00.000Z"
                   (Song.with_download "file:///documents/songs/s1.m4a" true song1)))
  /\ Songs.getInfo
       (snd (fst (Songs.downloadSong catalog_s1 fs0 env_zero_bytes "s1")))
       "file:///documents/songs/s1.m4a" = Some 0%Z
  /\ snd (Songs.downloadSong catalog_s1 fs0 env_no_file "s1") = true
  /\ Songs.getInfo
       (snd (fst (Songs.downloadSong catalog_s1 fs0 env_no_file "s1")))
       "file:///documents/songs/s1.m4a" = None
  /\ Songs.downloadFirebaseSong Absent fs0 firebase_env_zero_bytes "s1"
     = (Absent,
        snd (fst (Songs.downloadSong catalog_s1 fs0 env_zero_bytes "s1")),
        false).
Proof. repeat split; reflexivity. Qed.

(** * Further properties of the local store *)

Lemma filter_same_length {A} (f : A -> bool) (l : list A) :
  length (filter f l) = length l -> filter f l = l.
Proof.
  induction l as [|a l IH]; [reflexivity|]. simpl.
  destruct (f a); simpl; intro H.
  - f_equal. apply IH. now injection H.
  - pose proof (filter_length_le f l). lia.
Qed.

Lemma find_after_removal (i : string) (l : list Recording.t) :
  find (Database.has_id i) (filter (fun r => negb (Database.has_id i r)) l) = None.
Proof.
  induction l as [|a l IH]; [reflexivity|]. simpl.
  destruct (Database.has_id i a) eqn:E; simpl; [exact IH|]. now rewrite E.
Qed.

Lemma has_id_other (i j : string) (r : Recording.t) :
  j <> i -> Database.has_id j r = true -> Database.has_id i r = false.
Proof.
  unfold Database.has_id. intros N H. apply String.eqb_eq in H.
  apply String.eqb_neq. congruence.
Qed.

Lemma find_other_after_removal (i j : string) (l : list Recording.t) :
  j <> i ->
  find (Database.has_id j) (filter (fun r => negb (Database.has_id i r)) l)
  = find (Database.has_id j) l.
Proof.
  intro N. induction l as [|a l IH]; [reflexivity|]. simpl.
  destruct (Database.has_id i a) eqn:E; simpl.
  - destruct (Database.has_id j a) eqn:F; [|exact IH].
    now rewrite (has_id_other i j a N F) in E.
  - now rewrite IH.
Qed.

Lemma deleteRecording_list (s s' : Database.t) (e : Database.Env) (i : string) :
  Database.deleteRecording s e i = (s', Ok tt) ->
  Database.getRecordings s'
  = filter (fun r => negb (Database.has_id i r)) (Database.getRecordings s).
Proof.
  unfold Database.deleteRecording, Database.deleteWebRecording, Database.getRecordings.
  destruct (Database.isWeb s) eqn:W.
  - destruct (Database.setItem_ok e); [|discriminate].
    intro H. injection H as <-. simpl. now rewrite W.
  - destruct (Database.asyncStorage s) as [| |l] eqn:A; try discriminate.
    + intro H. injection H as <-. now rewrite W, A.
    + destruct (length (filter _ l) =? length l)%nat eqn:L.
      * intro H. injection H as <-. rewrite W, A. symmetry.
        apply filter_same_length. now apply Nat.eqb_eq.
      * destruct (Database.setItem_ok e); [|discriminate].
        intro H. injection H as <-. simpl. now rewrite W.
Qed.

Lemma deleteRecording_throw (s s' : Database.t) (e : Database.Env) (i m : string) :
  Database.deleteRecording s e i = (s', Throw m) -> s' = s.
Proof.
  unfold Database.deleteRecording, Database.deleteWebRecording.
  destruct (Database.isWeb s).
  - destruct (Database.setItem_ok e); [discriminate|]. intro H. now injection H.
  - destruct (Database.asyncStorage s) as [| |l]; try discriminate.
    + intro H. now injection H.
    + destruct (length (filter _ l) =? length l)%nat; [discriminate|].
      destruct (Database.setItem_ok e); [discriminate|]. intro H. now injection H.
Qed.

(** X1.  A [deleteRecording] that resolves leaves the stored list without
    the entries of that id, all of them, and with the others in their order;
    [getRecording] of the id then finds nothing and of any other id finds
    what it found before.  A [deleteRecording] that throws leaves the store
    as it was, and on the phone deleting an id that no entry carries
    resolves without writing. *)
Theorem X1_deleteRecording_removes_every_entry :
  (forall (s s' : Database.t) (e : Database.Env) (i : string),
      Database.deleteRecording s e i = (s', Ok tt) ->
      Database.getRecordings s'
      = filter (fun r => negb (Database.has_id i r)) (Database.getRecordings s)
      /\ Database.getRecording s' i = None
      /\ forall j, j <> i -> Database.getRecording s' j = Database.getRecording s j)
  /\ (forall (s s' : Database.t) (e : Database.Env) (i m : string),
         Database.deleteRecording s e i = (s', Throw m) -> s' = s)
  /\ (forall (s : Database.t) (e : Database.Env) (i : string) (l : list Recording.t),
         Database.isWeb s = false ->
         Database.asyncStorage s = Json l ->
         (forall r, In r l -> Recording.id r <> i) ->
         Database.deleteRecording s e i = (s, Ok tt)).
Proof.
  split; [|split].
  - intros s s' e i H. pose proof (deleteRecording_list _ _ _ _ H) as L.
    split; [exact L|]. split.
    + rewrite getRecording_find, L. apply find_after_removal.
    + intros j N. rewrite !getRecording_find, L. now apply find_other_after_removal.
  - exact deleteRecording_throw.
  - intros s e i l W A Hun. unfold Database.deleteRecording. rewrite W, A.
    assert (filter (fun r => negb (Database.has_id i r)) l = l) as ->.
    { clear A. induction l as [|a l IH]; [reflexivity|]. simpl.
      destruct (Database.has_id i a) eqn:E.
      - apply has_id_true in E. exfalso. apply (Hun a); [now left|exact E].
      - simpl. f_equal. apply IH. intros r Hr. apply Hun. now right. }
    now rewrite Nat.eqb_refl.
Qed.

Lemma X1_deleteRecording_removes_every_entry_witness :
  Database.getRecording
    (fst (Database.deleteRecording mobile_saved_twice env_ok "r1")) "r1" = None.
Proof.
  exact (proj1 (proj2 (proj1 X1_deleteRecording_removes_every_entry
                         mobile_saved_twice _ env_ok "r1" eq_refl))).
Defined.

(** ** The songs table *)

Lemma song_has_id_true (i : string) (x : Song.t) :
  Database.song_has_id i x = true -> Song.id x = i.
Proof. unfold Database.song_has_id. apply String.eqb_eq. Qed.

Lemma song_has_id_other (i j : string) (x : Song.t) :
  j <> i -> Database.song_has_id j x = true -> Database.song_has_id i x = false.
Proof.
  unfold Database.song_has_id. intros N H. apply String.eqb_eq in H.
  apply String.eqb_neq. congruence.
Qed.

Lemma find_upserted (i : string) (x : Song.t) (l : list Song.t) :
  Database.song_has_id i x = true ->
  find (Database.song_has_id i)
    (filter (fun y => negb (Database.song_has_id i y)) l ++ [x]) = Some x.
Proof.
  intro H. induction l as [|a l IH]; simpl; [now rewrite H|].
  destruct (Database.song_has_id i a) eqn:E; simpl; [exact IH|]. now rewrite E.
Qed.

Lemma find_other_upserted (i j : string) (x : Song.t) (l : list Song.t) :
  j <> i -> Database.song_has_id i x = true ->
  find (Database.song_has_id j)
    (filter (fun y => negb (Database.song_has_id i y)) l ++ [x])
  = find (Database.song_has_id j) l.
Proof.
  intros N H. induction l as [|a l IH]; simpl.
  - destruct (Database.song_has_id j x) eqn:F; [|reflexivity].
    now rewrite (song_has_id_other i j x N F) in H.
  - destruct (Database.song_has_id i a) eqn:E; simpl.
    + destruct (Database.song_has_id j a) eqn:F; [|exact IH].
      now rewrite (song_has_id_other i j a N F) in E.
    + now rewrite IH.
Qed.

Lemma one_row_upserted (i : string) (x : Song.t) (l : list Song.t) :
  Database.song_has_id i x = true ->
  filter (Database.song_has_id i)
    (filter (fun y => negb (Database.song_has_id i y)) l ++ [x]) = [x].
Proof.
  intro H. induction l as [|a l IH]; simpl; [now rewrite H|].
  destruct (Database.song_has_id i a) eqn:E; simpl; [exact IH|]. now rewrite E.
Qed.

Lemma upsert_again (i : string) (x : Song.t) (l : list Song.t) :
  Database.song_has_id i x = true ->
  filter (fun y => negb (Database.song_has_id i y))
    (filter (fun y => negb (Database.song_has_id i y)) l ++ [x])
  = filter (fun y => negb (Database.song_has_id i y)) l.
Proof.
  intro H. induction l as [|a l IH]; simpl; [now rewrite H|].
  destruct (Database.song_has_id i a) eqn:E; simpl; [exact IH|].
  rewrite E. simpl. now rewrite IH.
Qed.

Lemma saveSong_written (s : Database.t) (d : Database.SQLiteDatabase)
    (e : Database.Env) (song : Song.t) :
  Database.db s = Some d -> Database.runAsync_ok e = true ->
  Database.saveSong s e song
  = (Database.set_db (Some (Database.mkDb
        (filter (fun y => negb (Database.song_has_id (Song.id song) y)) (Database.songs d)
           ++ [Song.stamped (Database.now e) song])
        (Database.recordings d))) s, Ok tt).
Proof. intros D R. unfold Database.saveSong. now rewrite D, R. Qed.

Lemma stamped_has_id (now : string) (song : Song.t) :
  Database.song_has_id (Song.id song) (Song.stamped now song) = true.
Proof. unfold Database.song_has_id. simpl. apply String.eqb_refl. Qed.

(** X2.  With the database open and the statement running, [saveSong] is an
    upsert by id: afterwards [getSong] of the id returns the song just
    saved, stamped with the time of the save, the table holds exactly one
    row of that id, the songs of other ids and the recordings table are
    untouched, and saving the same song again in the same instant changes
    nothing. *)
Theorem X2_saveSong_upserts_by_id :
  forall (s : Database.t) (d : Database.SQLiteDatabase) (e : Database.Env) (song : Song.t),
    Database.db s = Some d ->
    Database.runAsync_ok e = true ->
    snd (Database.saveSong s e song) = Ok tt
    /\ (forall e', Database.getAllAsync_ok e' = true ->
          Database.getSong (fst (Database.saveSong s e song)) e' (Song.id song)
          = Ok (Some (Song.stamped (Database.now e) song)))
    /\ (forall e' j, j <> Song.id song ->
          Database.getSong (fst (Database.saveSong s e song)) e' j
          = Database.getSong s e' j)
    /\ filter (Database.song_has_id (Song.id song))
         (song_rows (fst (Database.saveSong s e song)))
       = [Song.stamped (Database.now e) song]
    /\ fst (Database.saveSong (fst (Database.saveSong s e song)) e song)
       = fst (Database.saveSong s e song)
    /\ table_rows (fst (Database.saveSong s e song)) = table_rows s.
Proof.
  intros s d e song D R. rewrite (saveSong_written s d e song D R). simpl.
  pose proof (stamped_has_id (Database.now e) song) as Hid.
  split; [reflexivity|]. split; [|split; [|split; [|split]]].
  - intros e' Q. unfold Database.getSong. simpl. rewrite Q.
    now rewrite find_upserted.
  - intros e' j N. unfold Database.getSong. simpl. rewrite D.
    destruct (Database.getAllAsync_ok e'); [|reflexivity].
    now rewrite find_other_upserted.
  - unfold song_rows. simpl. now apply one_row_upserted.
  - erewrite saveSong_written; [|reflexivity|exact R]. simpl.
    unfold Database.set_db. simpl. now rewrite upsert_again.
  - unfold table_rows. simpl. now rewrite D.
Qed.

Lemma X2_saveSong_upserts_by_id_witness :
  Database.getSong (fst (Database.saveSong catalog_s1 env_ok song1)) env_ok "s1"
  = Ok (Some (Song.stamped (Database.now env_ok) song1)).
Proof.
  exact (proj1 (proj2 (X2_saveSong_upserts_by_id
                         catalog_s1 (Database.mkDb [song1] []) env_ok song1
                         eq_refl eq_refl)) env_ok eq_refl).
Defined.

Lemma updateSongDownloadStatus_written (s : Database.t) (d : Database.SQLiteDatabase)
    (e : Database.Env) (i : string) (b : bool) :
  Database.db s = Some d -> Database.runAsync_ok e = true ->
  DatabaseMore.updateSongDownloadStatus s e i b
  = (Database.set_db (Some (Database.mkDb
        (map (fun x => if Database.song_has_id i x
                       then DatabaseMore.set_downloaded b (Database.now e) x
                       else x) (Database.songs d))
        (Database.recordings d))) s, Ok tt).
Proof. intros D R. unfold DatabaseMore.updateSongDownloadStatus. now rewrite D, R. Qed.

Lemma find_other_updated (i j : string) (g : Song.t -> Song.t) (l : list Song.t) :
  j <> i -> (forall x, Song.id (g x) = Song.id x) ->
  find (Database.song_has_id j)
    (map (fun x => if Database.song_has_id i x then g x else x) l)
  = find (Database.song_has_id j) l.
Proof.
  intros N G. induction l as [|a l IH]; [reflexivity|]. simpl.
  destruct (Database.song_has_id i a) eqn:E.
  - assert (Database.song_has_id j (g a) = Database.song_has_id j a) as ->
        by (unfold Database.song_has_id; now rewrite G).
    destruct (Database.song_has_id j a) eqn:F; [|exact IH].
    now rewrite (song_has_id_other i j a N F) in E.
  - now rewrite IH.
Qed.

(** X3.  With the database open and the statement running,
    [updateSongDownloadStatus(id, b)] sets the flag of the rows of that id
    and of no other: afterwards [getOfflineSongs] lists a song of that id
    only if [b] is true, and then lists every one of them; songs of other
    ids read back as before; on an id that no row carries the store is
    left as it was. *)
Theorem X3_updateSongDownloadStatus_sets_flag :
  forall (s : Database.t) (d : Database.SQLiteDatabase) (e : Database.Env)
         (i : string) (b : bool),
    Database.db s = Some d ->
    Database.runAsync_ok e = true ->
    (forall e' l x,
        DatabaseMore.getOfflineSongs
          (fst (DatabaseMore.updateSongDownloadStatus s e i b)) e' = Ok l ->
        In x l -> Song.id x = i -> b = true)
    /\ (forall e' y,
           b = true -> Database.getAllAsync_ok e' = true ->
           In y (Database.songs d) -> Song.id y = i ->
           exists l,
             DatabaseMore.getOfflineSongs
               (fst (DatabaseMore.updateSongDownloadStatus s e i b)) e' = Ok l
             /\ In (DatabaseMore.set_downloaded true (Database.now e) y) l)
    /\ (forall e' j, j <> i ->
           Database.getSong (fst (DatabaseMore.updateSongDownloadStatus s e i b)) e' j
           = Database.getSong s e' j)
    /\ ((forall y, In y (Database.songs d) -> Song.id y <> i) ->
        fst (DatabaseMore.updateSongDownloadStatus s e i b) = s).
Proof.
  intros s d e i b D R. rewrite (updateSongDownloadStatus_written s d e i b D R).
  simpl. split; [|split; [|split]].
  - intros e' l x H Hx Hid. unfold DatabaseMore.getOfflineSongs in H. simpl in H.
    destruct (Database.getAllAsync_ok e'); [|discriminate]. injection H as <-.
    apply filter_In in Hx as [Hx Hd]. apply in_map_iff in Hx as (y & Hy & _).
    destruct (Database.song_has_id i y) eqn:E.
    + subst x. exact Hd.
    + subst x. unfold Database.song_has_id in E. rewrite Hid in E.
      now rewrite String.eqb_refl in E.
  - intros e' y -> Q Hy Hid. unfold DatabaseMore.getOfflineSongs. simpl. rewrite Q.
    eexists. split; [reflexivity|]. apply filter_In. split; [|reflexivity].
    apply in_map_iff. exists y. split; [|exact Hy].
    unfold Database.song_has_id. now rewrite Hid, String.eqb_refl.
  - intros e' j N. unfold Database.getSong. simpl. rewrite D.
    destruct (Database.getAllAsync_ok e'); [|reflexivity].
    now rewrite find_other_updated.
  - intro Hun.
    assert (map (fun x => if Database.song_has_id i x
                          then DatabaseMore.set_downloaded b (Database.now e) x
                          else x) (Database.songs d) = Database.songs d) as ->.
    { revert Hun. generalize (Database.songs d). intros l Hun.
      induction l as [|a l IH]; [reflexivity|]. simpl.
      destruct (Database.song_has_id i a) eqn:E.
      - apply song_has_id_true in E. exfalso. apply (Hun a); [now left|exact E].
      - f_equal. apply IH. intros y Hy. apply Hun. now right. }
    now apply set_db_same.
Qed.

Lemma X3_updateSongDownloadStatus_sets_flag_witness :
  exists l,
    DatabaseMore.getOfflineSongs
      (fst (DatabaseMore.updateSongDownloadStatus catalog_s1 env_ok "s1" true)) env_ok
    = Ok l
    /\ In (DatabaseMore.set_downloaded true (Database.now env_ok) song1) l.
Proof.
  apply (proj1 (proj2 (X3_updateSongDownloadStatus_sets_flag
                         catalog_s1 (Database.mkDb [song1] []) env_ok "s1" true
                         eq_refl eq_refl)) env_ok song1);
    try reflexivity.
  now left.
Defined.

(** ** The web build *)

Lemma call_keeps_web (s : Database.t) (c : DatabaseMore.db_call) :
  Database.isWeb s = true -> Database.db s = None ->
  Database.isWeb (DatabaseMore.call s c) = true
  /\ Database.db (DatabaseMore.call s c) = None.
Proof.
  intros W D. destruct c as [o | e r | e i | e i b | e song | e i b]; simpl.
  - unfold Database.init. destruct (Database.isInitialized s); [now split|].
    rewrite W. simpl. now split.
  - unfold Database.saveRecording, Database.saveWebRecording. rewrite W.
    destruct (Database.setItem_ok e); simpl; now split.
  - unfold Database.deleteRecording, Database.deleteWebRecording. rewrite W.
    destruct (Database.setItem_ok e); simpl; now split.
  - rewrite markSynced_web by exact W.
    destruct (Database.setItem_ok e); simpl; now split.
  - unfold Database.saveSong. rewrite D. now split.
  - unfold DatabaseMore.updateSongDownloadStatus. rewrite D. now split.
Qed.

Lemma calls_keep_web (l : list DatabaseMore.db_call) :
  forall s, Database.isWeb s = true -> Database.db s = None ->
            Database.isWeb (DatabaseMore.calls s l) = true
            /\ Database.db (DatabaseMore.calls s l) = None.
Proof.
  induction l as [|c l IH]; intros s W D; [now split|].
  simpl. destruct (call_keeps_web s c W D) as [W' D']. now apply IH.
Qed.

(** X4.  In the web build the SQLite database is never opened, whatever
    sequence of [init], recording and song calls the store receives: the
    sync queue and the offline-song list are always empty, [getSong] finds
    nothing, and [saveSong] resolves without storing anything.  On either
    platform a second [init] changes nothing. *)
Theorem X4_web_build_never_opens_database :
  (forall (a l : slot Recording.t) (cs : list DatabaseMore.db_call) (e : Database.Env),
      Database.db (DatabaseMore.calls (Database.create true a l) cs) = None
      /\ Database.getUnsyncedRecordings
           (DatabaseMore.calls (Database.create true a l) cs) e = Ok []
      /\ DatabaseMore.getOfflineSongs
           (DatabaseMore.calls (Database.create true a l) cs) e = Ok []
      /\ (forall i, Database.getSong
                      (DatabaseMore.calls (Database.create true a l) cs) e i = Ok None)
      /\ (forall song,
             Database.saveSong (DatabaseMore.calls (Database.create true a l) cs) e song
             = (DatabaseMore.calls (Database.create true a l) cs, Ok tt))
      /\ DatabaseMore.hasDatabase
           (DatabaseMore.getDatabaseStatus
              (DatabaseMore.calls (Database.create true a l) cs)) = false)
  /\ (forall (s : Database.t) (o1 o2 : option Database.SQLiteDatabase),
         Database.init (Database.init s o1) o2 = Database.init s o1).
Proof.
  split.
  - intros a l cs e.
    destruct (calls_keep_web cs (Database.create true a l) eq_refl eq_refl) as [_ D].
    unfold Database.getUnsyncedRecordings, DatabaseMore.getOfflineSongs,
      Database.getSong, Database.saveSong, DatabaseMore.getDatabaseStatus.
    rewrite D. now repeat split.
  - intros s o1 o2. unfold Database.init.
    destruct (Database.isInitialized s) eqn:I; [now rewrite I|].
    now destruct (Database.isWeb s).
Qed.

(** * Further properties of the sync reconciler *)

Lemma marked_unsynced_length (i : string) (l : list Recording.t) :
  length (filter unsynced (map (set_flag i true) l)) <= length (filter unsynced l).
Proof.
  induction l as [|a l IH]; [simpl; lia|]. cbn [map filter].
  destruct (unsynced (set_flag i true a)) eqn:U, (unsynced a) eqn:V;
    cbn [length]; try lia.
  exfalso. unfold set_flag, unsynced in U, V.
  destruct (Database.has_id i a); simpl in U; congruence.
Qed.

Lemma markSynced_queue_length (st : Database.t) (e : Database.Env) (i : string) :
  length (unsynced_rows (fst (markSynced st e i))) <= length (unsynced_rows st).
Proof.
  unfold unsynced_rows, table_rows. destruct (Database.isWeb st) eqn:W.
  - rewrite markSynced_web_db by exact W. lia.
  - unfold markSynced. rewrite markSynced_mobile by exact W.
    destruct (Database.db st) as [d|] eqn:D; simpl; [|rewrite D; simpl; lia].
    destruct (sql_ok e); simpl; [apply marked_unsynced_length|lia].
Qed.

Lemma mark_uploaded_queue_length (s : Sync.t) (e : Sync.Env) (q : list Recording.t) :
  forall st, length (unsynced_rows (mark_uploaded s e q st))
             <= length (unsynced_rows st).
Proof.
  induction q as [|x q IH]; intro st; [simpl; lia|]. simpl.
  etransitivity; [apply IH|].
  destruct (upload_succeeds s e x); [apply markSynced_queue_length|lia].
Qed.

(** The store after any call of [performSync]: the rows of the sync table
    are those of the store with some queue marked, and the service keeps
    its connectivity and, when no pass was in flight, its flag. *)
Lemma performSync_store (e : Sync.Env) (w : Sync.World) :
  exists q,
    unsynced_rows (Sync.store (fst (fst (Sync.performSync e w))))
    = unsynced_rows (mark_uploaded (Sync.sync w) e q (Sync.store w)).
Proof.
  unfold Sync.performSync.
  destruct (Sync.performSync_enter (Sync.sync w)) as [s1|] eqn:En;
    [|now exists []].
  apply performSync_enter_spec in En as (_ & _ & ->).
  unfold Sync.performSync_body, Sync.uploadUnsyncedRecordings. simpl.
  destruct (Database.getUnsyncedRecordings (Sync.store w) (Sync.queryEnv e)) as [q|m];
    [|now exists []].
  destruct (uploadLoop_spec (Sync.set_isSyncing true (Sync.sync w)) e q
              (Sync.store w) (Sync.remote w)) as [L1 _].
  destruct (Sync.uploadLoop _ e q _ _) as [[st fb] log]. simpl in *.
  rewrite mark_uploaded_flag in L1. subst st. exists q.
  apply unsynced_rows_same.
  exact (saveSongs_rows e (Sync.fetchNewSongsFromBackend e) _).
Qed.

Lemma performSync_flags (e : Sync.Env) (w : Sync.World) :
  Sync.isOnline (Sync.sync (fst (fst (Sync.performSync e w))))
  = Sync.isOnline (Sync.sync w)
  /\ (Sync.isSyncing (Sync.sync w) = false ->
      Sync.isSyncing (Sync.sync (fst (fst (Sync.performSync e w)))) = false).
Proof.
  unfold Sync.performSync.
  destruct (Sync.performSync_enter (Sync.sync w)) as [s1|] eqn:En; [|now split].
  apply performSync_enter_spec in En as (_ & _ & ->).
  pose proof (performSync_body_keeps_sync e
                (Sync.mkWorld (Sync.set_isSyncing true (Sync.sync w))
                   (Sync.store w) (Sync.remote w))) as K.
  destruct (Sync.performSync_body e _) as [w2 log]. simpl in *. rewrite K.
  now split.
Qed.

Lemma getSyncStatus_ok (w : Sync.World) (e1 e2 : Database.Env) (st : SyncMore.SyncStatus) :
  SyncMore.getSyncStatus w e1 e2 = Ok st ->
  SyncMore.pendingUploads st = length (unsynced_rows (Sync.store w))
  /\ SyncMore.isOnline st = Sync.isOnline (Sync.sync w)
  /\ SyncMore.isSyncing st = Sync.isSyncing (Sync.sync w).
Proof.
  unfold SyncMore.getSyncStatus.
  destruct (Database.getUnsyncedRecordings (Sync.store w) e1) as [q|m] eqn:Q;
    [|discriminate].
  apply getUnsynced_rows in Q. subst q.
  destruct (DatabaseMore.getOfflineSongs (Sync.store w) e2); [|discriminate].
  intro H. injection H as <-. now repeat split.
Qed.

(** X5.  A call of [performSync] never makes the status worse: when
    [getSyncStatus] resolves before and after it, [pendingUploads] after is
    at most [pendingUploads] before, [isOnline] is the same, and [isSyncing]
    is false after if it was false before. *)
Theorem X5_performSync_never_raises_pendingUploads :
  forall (e : Sync.Env) (w : Sync.World) (e1 e2 e3 e4 : Database.Env)
         (before after : SyncMore.SyncStatus),
    SyncMore.getSyncStatus w e1 e2 = Ok before ->
    SyncMore.getSyncStatus (fst (fst (Sync.performSync e w))) e3 e4 = Ok after ->
    SyncMore.pendingUploads after <= SyncMore.pendingUploads before
    /\ SyncMore.isOnline after = SyncMore.isOnline before
    /\ (SyncMore.isSyncing before = false -> SyncMore.isSyncing after = false).
Proof.
  intros e w e1 e2 e3 e4 before after Hb Ha.
  apply getSyncStatus_ok in Hb as (Pb & Ob & Sb).
  apply getSyncStatus_ok in Ha as (Pa & Oa & Sa).
  destruct (performSync_flags e w) as [On Sy].
  destruct (performSync_store e w) as [q Hq].
  rewrite Pa, Pb, Oa, Ob, Sa, Sb, Hq. split; [|split].
  - apply mark_uploaded_queue_length.
  - exact On.
  - exact Sy.
Qed.

Lemma X5_performSync_never_raises_pendingUploads_witness :
  exists before after,
    SyncMore.getSyncStatus world_two_rows env_ok env_ok = Ok before
    /\ SyncMore.getSyncStatus
         (fst (fst (Sync.performSync pass_r1_fails world_two_rows))) env_ok env_ok
       = Ok after
    /\ SyncMore.pendingUploads before = 2
    /\ SyncMore.pendingUploads after = 1
    /\ SyncMore.pendingUploads after <= SyncMore.pendingUploads before.
Proof.
  eexists. eexists. split; [reflexivity|]. split; [reflexivity|].
  split; [reflexivity|]. split; [reflexivity|].
  exact (proj1 (X5_performSync_never_raises_pendingUploads
                  pass_r1_fails world_two_rows env_ok env_ok env_ok env_ok _ _
                  eq_refl eq_refl)).
Defined.

Lemma uploadLoop_without_user (s : Sync.t) (e : Sync.Env) (q : list Recording.t) :
  Sync.user s = None ->
  forall st fb,
    Sync.uploadLoop s e q st fb = (st, fb, map (fun r => (r, false)) q).
Proof.
  intro U. induction q as [|r q IH]; intros st fb; [reflexivity|].
  simpl. unfold Sync.uploadRecording. rewrite U. now rewrite IH.
Qed.

(** X6.  With no user signed in, a pass uploads nothing: whatever the
    queue and the network do, the remote store and the sync table are left
    as they were, and every recording of the queue is logged as failed. *)
Theorem X6_pass_without_user_uploads_nothing :
  forall (e : Sync.Env) (w : Sync.World),
    Sync.user (Sync.sync w) = None ->
    Sync.remote (fst (fst (Sync.performSync e w))) = Sync.remote w
    /\ table_rows (Sync.store (fst (fst (Sync.performSync e w))))
       = table_rows (Sync.store w)
    /\ Forall (fun x => snd x = false) (snd (fst (Sync.performSync e w))).
Proof.
  intros e w U. unfold Sync.performSync.
  destruct (Sync.performSync_enter (Sync.sync w)) as [s1|] eqn:En;
    [|now repeat split].
  apply performSync_enter_spec in En as (_ & _ & ->).
  unfold Sync.performSync_body, Sync.uploadUnsyncedRecordings. simpl.
  destruct (Database.getUnsyncedRecordings (Sync.store w) (Sync.queryEnv e)) as [q|m];
    [|now repeat split].
  rewrite (uploadLoop_without_user (Sync.set_isSyncing true (Sync.sync w)) e q U).
  simpl. repeat split.
  - apply table_rows_same.
    exact (saveSongs_rows e (Sync.fetchNewSongsFromBackend e) _).
  - apply Forall_forall. intros x Hx. apply in_map_iff in Hx as (r & <- & _).
    reflexivity.
Qed.

Lemma X6_pass_without_user_uploads_nothing_witness :
  Sync.remote (fst (fst (Sync.performSync pass_uploads world_signed_out)))
  = Sync.remote world_signed_out
  /\ snd (fst (Sync.performSync pass_uploads world_signed_out))
     = [(rec1, false); (rec2, false)].
Proof.
  split; [|reflexivity].
  exact (proj1 (X6_pass_without_user_uploads_nothing
                  pass_uploads world_signed_out eq_refl)).
Defined.

Lemma uploadRecording_appends (s : Sync.t) (e : Sync.Env) (fb : Firebase.t) (r : Recording.t) :
  exists docs,
    Firebase.recordings (fst (Sync.uploadRecording s e fb r))
    = (Firebase.recordings fb ++ docs)%list
    /\ Forall (fun d => exists uid, Sync.user s = Some uid
                                    /\ upload_succeeds s e r = true
                                    /\ document_of uid r d) docs.
Proof.
  unfold Sync.uploadRecording, upload_succeeds.
  destruct (Sync.user s) as [uid|]; [|exists []; now rewrite app_nil_r].
  unfold Firebase.uploadRecordingFile, Firebase.addRecording.
  destruct (Sync.uploadUrl e r) as [url|]; [|exists []; now rewrite app_nil_r].
  destruct (Sync.addDoc_ok e r); [|exists []; simpl; now rewrite app_nil_r].
  simpl. eexists. split; [reflexivity|]. constructor; [|constructor].
  exists uid. repeat split.
Qed.

Lemma uploadLoop_appends (s : Sync.t) (e : Sync.Env) (q : list Recording.t) :
  forall st fb,
    exists docs,
      Firebase.recordings (snd (fst (Sync.uploadLoop s e q st fb)))
      = (Firebase.recordings fb ++ docs)%list
      /\ Forall (fun d => exists uid r, Sync.user s = Some uid /\ In r q
                                        /\ upload_succeeds s e r = true
                                        /\ document_of uid r d) docs.
Proof.
  induction q as [|r q IH]; intros st fb.
  - exists []. simpl. now rewrite app_nil_r.
  - simpl. destruct (uploadRecording_appends s e fb r) as (d1 & E1 & F1).
    destruct (Sync.uploadRecording s e fb r) as [fb1 [u|m]]; simpl in E1.
    + match goal with |- context [Sync.uploadLoop s e q ?a ?b] =>
        destruct (IH a b) as (d2 & E2 & F2);
        destruct (Sync.uploadLoop s e q a b) as [[st2 fb2] log] end.
      simpl in *. exists (d1 ++ d2)%list. rewrite E2, E1, app_assoc. split; [reflexivity|].
      apply Forall_app. split.
      * eapply Forall_impl; [|exact F1]. intros d (uid & U & S & D).
        exists uid, r. split; [exact U|]. split; [now left|]. now split.
      * eapply Forall_impl; [|exact F2]. intros d (uid & x & U & I & S & D).
        exists uid, x. split; [exact U|]. split; [now right|]. now split.
    + destruct (IH st fb1) as (d2 & E2 & F2).
      destruct (Sync.uploadLoop s e q st fb1) as [[st2 fb2] log].
      simpl in *. exists (d1 ++ d2)%list. rewrite E2, E1, app_assoc. split; [reflexivity|].
      apply Forall_app. split.
      * eapply Forall_impl; [|exact F1]. intros d (uid & U & S & D).
        exists uid, r. split; [exact U|]. split; [now left|]. now split.
      * eapply Forall_impl; [|exact F2]. intros d (uid & x & U & I & S & D).
        exists uid, x. split; [exact U|]. split; [now right|]. now split.
Qed.

(** X7.  A pass only adds to the remote collection: the records it had are
    kept, in order, and every record added carries the id of the signed-in
    user and the song reference and duration of an unsynced row whose
    upload went through, with a play count of zero. *)
Theorem X7_pass_appends_documents_of_the_queue :
  forall (e : Sync.Env) (w : Sync.World),
    exists docs,
      Firebase.recordings (Sync.remote (fst (fst (Sync.performSync e w))))
      = (Firebase.recordings (Sync.remote w) ++ docs)%list
      /\ Forall (fun d => exists uid r,
                            Sync.user (Sync.sync w) = Some uid
                            /\ In r (unsynced_rows (Sync.store w))
                            /\ upload_succeeds (Sync.sync w) e r = true
                            /\ document_of uid r d) docs.
Proof.
  intros e w. unfold Sync.performSync.
  destruct (Sync.performSync_enter (Sync.sync w)) as [s1|] eqn:En;
    [|exists []; simpl; now rewrite app_nil_r].
  apply performSync_enter_spec in En as (_ & _ & ->).
  unfold Sync.performSync_body, Sync.uploadUnsyncedRecordings. simpl.
  destruct (Database.getUnsyncedRecordings (Sync.store w) (Sync.queryEnv e))
    as [q|m] eqn:Q; [|exists []; simpl; now rewrite app_nil_r].
  apply getUnsynced_rows in Q. subst q.
  destruct (uploadLoop_appends (Sync.set_isSyncing true (Sync.sync w)) e
              (unsynced_rows (Sync.store w)) (Sync.store w) (Sync.remote w))
    as (docs & E & F).
  destruct (Sync.uploadLoop _ e _ _ _) as [[st fb] log]. simpl in *.
  exists docs. split; [exact E|exact F].
Qed.

(** X8.  The NetInfo listener starts a pass only on a change from offline to
    online, with a user signed in and no pass in flight, and on such a
    change it does start one; a loss of connectivity or a repeated online
    notification starts none.  The timer starts a pass only when the
    service is online with a user signed in and no pass in flight.  After a
    notification [isOnline] is what it reported. *)
Theorem X8_automatic_triggers :
  forall (f : Sync.Flags),
    (forall c,
        Sync.inflight (Sync.step f (Sync.NetInfoChange c)) <> Sync.inflight f ->
        Sync.isOnline (Sync.svc f) = false /\ c = Some true
        /\ Sync.isSyncing (Sync.svc f) = false /\ Sync.has_user (Sync.svc f) = true)
    /\ (Sync.isOnline (Sync.svc f) = false ->
        Sync.isSyncing (Sync.svc f) = false ->
        Sync.has_user (Sync.svc f) = true ->
        Sync.inflight (Sync.step f (Sync.NetInfoChange (Some true)))
        = S (Sync.inflight f))
    /\ (forall c,
           Sync.isOnline (Sync.svc (Sync.step f (Sync.NetInfoChange c))) = or_false c)
    /\ (Sync.inflight (Sync.step f Sync.TimerTick) <> Sync.inflight f ->
        Sync.isOnline (Sync.svc f) = true
        /\ Sync.isSyncing (Sync.svc f) = false /\ Sync.has_user (Sync.svc f) = true).
Proof.
  intro f. destruct f as [[on sy u] n]. split; [|split; [|split]].
  - intros c. simpl. unfold Sync.has_user, Sync.user. simpl.
    destruct on, c as [[|]|], sy; simpl; try (intro H; now contradiction H);
      destruct u as [u|]; simpl; try (intro H; now contradiction H).
    destruct (String.eqb u ""); simpl; [intro H; now contradiction H|].
    intros _. now repeat split.
  - simpl. intros -> ->. unfold Sync.has_user, Sync.user. simpl.
    destruct u as [u|]; simpl; [|discriminate].
    destruct (String.eqb u ""); simpl; [discriminate|]. reflexivity.
  - intro c. simpl.
    match goal with |- context [if ?b then _ else _] => destruct b end;
      [|reflexivity].
    unfold Sync.call_performSync, Sync.performSync_enter. simpl.
    now destruct (negb (or_false c) || sy).
  - simpl. unfold Sync.has_user, Sync.user. simpl.
    destruct on, sy; simpl; try (intro H; now contradiction H).
    destruct u as [u|]; simpl; [|intro H; now contradiction H].
    destruct (String.eqb u ""); simpl; [intro H; now contradiction H|].
    intros _. now repeat split.
Qed.

Lemma X8_automatic_triggers_witness :
  Sync.inflight (Sync.step flags0 (Sync.NetInfoChange (Some true)))
  = S (Sync.inflight flags0).
Proof.
  exact (proj1 (proj2 (X8_automatic_triggers flags0)) eq_refl eq_refl eq_refl).
Defined.

(** X9.  [forceSync] throws exactly when the service is offline, with 'No
    internet connection' and nothing changed.  Online it is a call of
    [performSync], so while a pass is in flight it resolves without an
    error and without having done anything. *)
Theorem X9_forceSync_fails_only_offline :
  forall (e : Sync.Env) (w : Sync.World),
    (Sync.isOnline (Sync.sync w) = false ->
     Sync.forceSync e w = (w, [], Throw "No internet connection"))
    /\ (Sync.isOnline (Sync.sync w) = true ->
        snd (Sync.forceSync e w) = Ok tt)
    /\ (Sync.isOnline (Sync.sync w) = true ->
        Sync.isSyncing (Sync.sync w) = true ->
        Sync.forceSync e w = (w, [], Ok tt)).
Proof.
  intros e w. unfold Sync.forceSync. split; [|split].
  - now intros ->.
  - intros ->. apply performSync_resolves.
  - intros -> Sy. unfold Sync.performSync.
    rewrite performSync_enter_rejects; [reflexivity|now right].
Qed.

Lemma X9_forceSync_fails_only_offline_witness :
  Sync.forceSync pass_uploads
    (Sync.mkWorld sync_offline mobile_two_rows (Firebase.mk [] []))
  = (Sync.mkWorld sync_offline mobile_two_rows (Firebase.mk [] []), [],
     Throw "No internet connection").
Proof.
  exact (proj1 (X9_forceSync_fails_only_offline pass_uploads
                  (Sync.mkWorld sync_offline mobile_two_rows (Firebase.mk [] [])))
               eq_refl).
Defined.

(** * Further properties of the recording methods *)

Lemma settled_cleared (a : Audio.t) : settled (Audio.cleared a).
Proof. left. now repeat split. Qed.

Lemma stopRecording_state (a : Audio.t) (d : Audio.Device) (e : Audio.Env) :
  (forall d' e', Audio.stopRecording a d' e' = (a, d', Throw "No active recording"))
  \/ fst (fst (Audio.stopRecording a d e)) = Audio.cleared a.
Proof.
  unfold Audio.stopRecording. destruct (Audio.recording a); [|now left].
  destruct (negb _); [now left|]. right.
  destruct (negb (Audio.stopAndUnload_ok e)); [reflexivity|].
  destruct (Audio.uri e) as [u|]; [|reflexivity].
  destruct (String.eqb u ""); [reflexivity|].
  destruct (_ && _); [reflexivity|]. destruct (_ && _); [reflexivity|].
  now destruct (Audio.add3_ok e).
Qed.

Lemma cancelRecording_state (a : Audio.t) (d : Audio.Device) (e : Audio.Env) :
  AudioMore.cancelRecording a d e = (a, d, Ok tt)
  \/ fst (fst (AudioMore.cancelRecording a d e)) = Audio.cleared a.
Proof.
  unfold AudioMore.cancelRecording. destruct (Audio.recording a); [|now left].
  destruct (Audio.RecordingState_eqb _ _); [now left|]. right.
  now destruct (Audio.stopAndUnload_ok e).
Qed.

Lemma startRecording_settled (a : Audio.t) (d : Audio.Device) (e : Audio.Env) :
  settled a -> settled (fst (fst (Audio.startRecording a d e))).
Proof.
  intros [(St & Rec & Is) | (St & (h & Rec) & Is & Ini)].
  - unfold Audio.startRecording, Audio.initialize.
    assert (forall a0, Audio.isInitialized a0 = true ->
              Audio.recording a0 = None ->
              Audio._recordingState a0 = Audio.state_idle ->
              Audio._isRecording a0 = false ->
              settled (fst (fst (Audio.beginCapture a0 d e)))) as Begin.
    { intros a0 I0 R0 S0 B0. unfold Audio.beginCapture.
      destruct (Audio.permission_granted e), (Audio.prepare_ok e), (Audio.start_ok e);
        simpl; try (left; now repeat split).
      right. repeat split; try assumption. now exists (Audio.created d). }
    destruct (Audio.isInitialized a) eqn:I.
    + rewrite St, Rec. simpl. now apply Begin.
    + destruct (Audio.initialize_ok e); simpl.
      * rewrite St, Rec. simpl. now apply Begin.
      * left. now repeat split.
  - rewrite (startRecording_again a d e Ini St). simpl. right.
    repeat split; try assumption. now exists h.
Qed.

Lemma call_settled (p : Audio.t * Audio.Device) (c : AudioMore.audio_call) :
  settled (fst p) -> settled (fst (AudioMore.call p c)).
Proof.
  intro H. destruct p as [a d], c as [e | e | e]; simpl in *.
  - now apply startRecording_settled.
  - destruct (stopRecording_state a d e) as [E | ->];
      [now rewrite E | apply settled_cleared].
  - destruct (cancelRecording_state a d e) as [-> | ->];
      [exact H | apply settled_cleared].
Qed.

Lemma calls_settled (l : list AudioMore.audio_call) :
  forall p, settled (fst p) -> settled (fst (AudioMore.calls p l)).
Proof.
  induction l as [|c l IH]; intros p H; [exact H|].
  simpl. apply IH. now apply call_settled.
Qed.

(** X10.  Between calls the recording methods leave the service in one of
    two shapes: idle, with no [Audio.Recording] held and [isRecording]
    false, or recording, with one held, [isRecording] true and the service
    initialized.  This holds from construction on, after any sequence of
    [startRecording], [stopRecording] and [cancelRecording], whether the
    calls resolve or throw; the states ['stopping'] and ['stopped'] are
    never left behind. *)
Theorem X10_recording_state_settled :
  forall (d : Audio.Device) (l : list AudioMore.audio_call),
    settled (fst (AudioMore.calls (AudioMore.create, d) l))
    /\ (Audio._isRecording (fst (AudioMore.calls (AudioMore.create, d) l)) = true
        <-> Audio._recordingState (fst (AudioMore.calls (AudioMore.create, d) l))
            = Audio.state_recording)
    /\ Audio._recordingState (fst (AudioMore.calls (AudioMore.create, d) l))
       <> Audio.state_stopping
    /\ Audio._recordingState (fst (AudioMore.calls (AudioMore.create, d) l))
       <> Audio.state_stopped.
Proof.
  intros d l.
  assert (settled (fst (AudioMore.calls (AudioMore.create, d) l))) as H.
  { apply calls_settled. left. now repeat split. }
  split; [exact H|].
  destruct H as [(St & Rec & Is) | (St & _ & Is & _)]; rewrite St, Is;
    repeat split; intros; congruence.
Qed.

(** X11.  A [stopRecording] or [cancelRecording] that got past its check
    leaves the service idle with no recording held, whether it resolved or
    threw.  So a second [stopRecording] in a row always throws 'No active
    recording' and changes nothing, as does one after a [cancelRecording],
    and a second [cancelRecording] in a row resolves without doing
    anything. *)
Theorem X11_stop_and_cancel_end_idle :
  forall (a : Audio.t) (d : Audio.Device) (e1 e2 : Audio.Env),
    (Audio.stopRecording a d e1 = (a, d, Throw "No active recording")
     \/ fst (fst (Audio.stopRecording a d e1)) = Audio.cleared a)
    /\ Audio.stopRecording
         (fst (fst (Audio.stopRecording a d e1)))
         (snd (fst (Audio.stopRecording a d e1))) e2
       = (fst (Audio.stopRecording a d e1), Throw "No active recording")
    /\ Audio.stopRecording
         (fst (fst (AudioMore.cancelRecording a d e1)))
         (snd (fst (AudioMore.cancelRecording a d e1))) e2
       = (fst (AudioMore.cancelRecording a d e1), Throw "No active recording")
    /\ AudioMore.cancelRecording
         (fst (fst (AudioMore.cancelRecording a d e1)))
         (snd (fst (AudioMore.cancelRecording a d e1))) e2
       = (fst (AudioMore.cancelRecording a d e1), Ok tt).
Proof.
  intros a d e1 e2.
  split; [destruct (stopRecording_state a d e1) as [E | E]; [left; apply E|now right]|].
  assert (forall a' d', Audio.stopRecording (Audio.cleared a') d' e2
                        = (Audio.cleared a', d', Throw "No active recording")) as S
      by reflexivity.
  assert (forall a' d', AudioMore.cancelRecording (Audio.cleared a') d' e2
                        = (Audio.cleared a', d', Ok tt)) as C by reflexivity.
  split; [|split].
  - destruct (stopRecording_state a d e1) as [E | E].
    + rewrite (E d e1). simpl. apply E.
    + destruct (Audio.stopRecording a d e1) as [[a1 d1] r]. simpl in *. subst a1.
      apply S.
  - unfold AudioMore.cancelRecording.
    destruct (Audio.recording a) eqn:R.
    + destruct (Audio.RecordingState_eqb _ _) eqn:I.
      * simpl. unfold Audio.stopRecording. rewrite R.
        apply RecordingState_eqb_eq in I. now rewrite I.
      * destruct (Audio.stopAndUnload_ok e1); apply S.
    + simpl. unfold Audio.stopRecording. now rewrite R.
  - unfold AudioMore.cancelRecording at 2 3 4.
    destruct (Audio.recording a) eqn:R.
    + destruct (Audio.RecordingState_eqb _ _) eqn:I.
      * simpl. unfold AudioMore.cancelRecording. now rewrite R, I.
      * destruct (Audio.stopAndUnload_ok e1); apply C.
    + simpl. unfold AudioMore.cancelRecording. now rewrite R.
Qed.

Lemma X10_recording_state_settled_witness :
  Audio._isRecording
    (fst (AudioMore.calls (AudioMore.create, device0)
            [AudioMore.CallStart audio_env_ok; AudioMore.CallStart audio_env_ok])) = true.
Proof.
  apply (proj2 (proj1 (proj2 (X10_recording_state_settled device0
           [AudioMore.CallStart audio_env_ok; AudioMore.CallStart audio_env_ok])))).
  reflexivity.
Defined.

(** X12.  Once the device has stopped and given a URI, failures of the move
    and of the copy do not fail [stopRecording]: as long as registering the
    original URI works it resolves.  What it resolves to is the permanent
    URI or the URI the device gave, and it is the latter when the file
    could be neither moved nor copied. *)
Theorem X12_stopRecording_falls_back_to_original_uri :
  forall (a : Audio.t) (d : Audio.Device) (e : Audio.Env) (h : nat) (u : string),
    Audio.recording a = Some h ->
    Audio._recordingState a = Audio.state_recording ->
    Audio.stopAndUnload_ok e = true ->
    Audio.uri e = Some u -> u <> "" ->
    Audio.add3_ok e = true ->
    (exists p, snd (Audio.stopRecording a d e) = Ok p
               /\ (p = Audio.permanentUri e \/ p = u))
    /\ (Audio.move_ok e = false -> Audio.copy_ok e = false ->
        snd (Audio.stopRecording a d e) = Ok u)
    /\ ~ In h (Audio.capturing (snd (fst (Audio.stopRecording a d e)))).
Proof.
  intros a d e h u R St Stop U Ne A3. unfold Audio.stopRecording.
  rewrite R, St, Stop, U, A3. simpl.
  apply String.eqb_neq in Ne. rewrite Ne.
  assert (~ In h (Audio.capturing (Audio.release h d))) as Rel.
  { unfold Audio.release. simpl. intro H. apply filter_In in H as [_ H].
    now rewrite Nat.eqb_refl in H. }
  destruct (Audio.move_ok e), (Audio.add1_ok e), (Audio.copy_ok e), (Audio.add2_ok e);
    simpl; (split; [eexists; split; [reflexivity|tauto]|]);
    (split; [intros; try discriminate; reflexivity|exact Rel]).
Qed.

Lemma X12_stopRecording_falls_back_to_original_uri_witness :
  snd (Audio.stopRecording audio_recording device_capturing audio_env_no_move)
  = Ok "file:///cache/recording-0.m4a".
Proof.
  refine (proj1 (proj2 (X12_stopRecording_falls_back_to_original_uri
            audio_recording device_capturing audio_env_no_move 0
            "file:///cache/recording-0.m4a"
            eq_refl eq_refl eq_refl eq_refl _ eq_refl)) eq_refl eq_refl).
  discriminate.
Defined.

(** * Further properties of the upload after the commit *)

(** X13.  The upload started by a commit either fails, and then changes
    neither the local store nor the remote collection, or adds exactly one
    remote record, which carries the user's id, the uploaded file's URL,
    and the same duration and song reference as the recording the commit
    saved locally. *)
Theorem X13_background_upload_one_matching_record :
  forall (st : Database.t) (fb : Firebase.t) (e : AudioMore.UploadEnv)
         (task : Audio.BackgroundUpload),
    (AudioMore.fileUrl e = None \/ AudioMore.addDoc_ok e = false ->
     fst (AudioMore.uploadToFirebaseInBackground st fb e task) = st
     /\ Firebase.recordings (snd (AudioMore.uploadToFirebaseInBackground st fb e task))
        = Firebase.recordings fb)
    /\ (forall url,
           AudioMore.fileUrl e = Some url -> AudioMore.addDoc_ok e = true ->
           exists d,
             Firebase.recordings
               (snd (AudioMore.uploadToFirebaseInBackground st fb e task))
             = (Firebase.recordings fb ++ [d])%list
             /\ Firebase.userId d = Audio.userId task
             /\ Firebase.audioUrl d = url
             /\ Firebase.duration d
                = Recording.duration
                    (Audio.localRecordingOf (Audio.recordingUri task)
                       (Audio.localRecordingId task) (Audio.metadata task))
             /\ Firebase.songId d
                = Recording.songId
                    (Audio.localRecordingOf (Audio.recordingUri task)
                       (Audio.localRecordingId task) (Audio.metadata task))).
Proof.
  intros st fb e task. unfold AudioMore.uploadToFirebaseInBackground,
    AudioMore.uploadRecordingToFirebase, Firebase.uploadRecordingFile,
    Firebase.addRecording.
  split.
  - intros [-> | H]; [now split|].
    destruct (AudioMore.fileUrl e); [|now split]. rewrite H. now split.
  - intros url -> ->. simpl. eexists. split; [reflexivity|]. now repeat split.
Qed.

Lemma X13_background_upload_one_matching_record_witness :
  exists d,
    Firebase.recordings
      (snd (AudioMore.uploadToFirebaseInBackground
              mobile0 (Firebase.mk [] []) upload_env_ok task1)) = [d]
    /\ Firebase.duration d = 5000%Z.
Proof.
  destruct (proj2 (X13_background_upload_one_matching_record
                     mobile0 (Firebase.mk [] []) upload_env_ok task1)
                  "https://storage.example/recording.m4a" eq_refl eq_refl)
    as (d & E & _ & _ & D & _).
  exists d. split; [exact E|exact D].
Defined.

Lemma find_marked (i : string) (l : list Recording.t) :
  find (Database.has_id i) (map (set_flag i true) l)
  = option_map (Recording.with_isSynced true) (find (Database.has_id i) l).
Proof.
  induction l as [|a l IH]; [reflexivity|]. cbn [map find].
  assert (Database.has_id i (set_flag i true a) = Database.has_id i a) as ->
      by (unfold set_flag; destruct (Database.has_id i a) eqn:E; exact E).
  destruct (Database.has_id i a) eqn:E; [|exact IH].
  unfold set_flag. now rewrite E.
Qed.

Lemma markSynced_mobile_list (st : Database.t) (e : Database.Env) (i : string) :
  Database.isWeb st = false ->
  Database.getRecordings (fst (markSynced st e i)) = Database.getRecordings st.
Proof.
  intro W. unfold markSynced. rewrite markSynced_mobile by exact W.
  unfold Database.getRecordings.
  destruct (Database.db st); [|reflexivity].
  destruct (sql_ok e); simpl; now rewrite W.
Qed.

Lemma markSynced_web_found (st : Database.t) (e : Database.Env) (i : string) :
  Database.isWeb st = true -> Database.setItem_ok e = true ->
  Database.getRecording (fst (markSynced st e i)) i
  = option_map (Recording.with_isSynced true) (Database.getRecording st i).
Proof.
  intros W S. unfold markSynced. rewrite markSynced_web by exact W. rewrite S.
  rewrite !getRecording_find. unfold Database.getRecordings. simpl. rewrite W.
  rewrite getWebRecordings_entries. simpl. apply find_marked.
Qed.

Lemma background_upload_store
    (st : Database.t) (fb : Firebase.t) (e : AudioMore.UploadEnv)
    (task : Audio.BackgroundUpload) :
  fst (AudioMore.uploadToFirebaseInBackground st fb e task)
  = match AudioMore.fileUrl e with
    | Some _ =>
        if AudioMore.addDoc_ok e
        then fst (markSynced st (AudioMore.markEnv e) (Audio.localRecordingId task))
        else st
    | None => st
    end.
Proof.
  unfold AudioMore.uploadToFirebaseInBackground, AudioMore.uploadRecordingToFirebase,
    Firebase.uploadRecordingFile, Firebase.addRecording.
  destruct (AudioMore.fileUrl e); [|reflexivity].
  now destruct (AudioMore.addDoc_ok e).
Qed.

(** X14.  What the upload after a commit does to the local entry depends on
    the platform.  On the phone it never changes the stored list, so after
    a commit made online the entry that [getRecording] finds still has
    [isSynced = false], whether the upload went through or not.  In the
    browser, when the upload goes through and the write succeeds, the entry
    that [getRecording] finds has [isSynced = true]. *)
Theorem X14_background_upload_local_flag :
  forall (a a1 : Audio.t) (d d1 : Audio.Device) (st st1 : Database.t)
         (e : Audio.CommitEnv) (uid : string) (m : Audio.Metadata)
         (task : Audio.BackgroundUpload) (rid : string)
         (fb : Firebase.t) (ue : AudioMore.UploadEnv),
    Audio.stopRecordingAndUpload a d st e uid m = (a1, d1, st1, Some task, Ok rid) ->
    Audio.localRecordingId task = rid
    /\ (Database.isWeb st = false ->
        Database.getRecordings
          (fst (AudioMore.uploadToFirebaseInBackground st1 fb ue task))
        = Database.getRecordings st1
        /\ option_map Recording.isSynced
             (Database.getRecording
                (fst (AudioMore.uploadToFirebaseInBackground st1 fb ue task)) rid)
           = Some false)
    /\ (Database.isWeb st = true ->
        (exists url, AudioMore.fileUrl ue = Some url) ->
        AudioMore.addDoc_ok ue = true ->
        Database.setItem_ok (AudioMore.markEnv ue) = true ->
        option_map Recording.isSynced
          (Database.getRecording
             (fst (AudioMore.uploadToFirebaseInBackground st1 fb ue task)) rid)
        = Some true).
Proof.
  intros a a1 d d1 st st1 e uid m task rid fb ue H.
  apply stopRecordingAndUpload_returned in H
    as (-> & uri & c & _ & Hsave & _ & Hbg).
  destruct (saveRecording_prepends _ _ _ _ Hsave) as [_ W1].
  destruct (saved_entry_found _ _ _ _ Hsave) as [_ Hget].
  change (Recording.id (Audio.localRecordingOf uri (Audio.newId e) m))
    with (Audio.newId e) in Hget.
  assert (task = Audio.mkUpload uri uid m (Audio.newId e)) as ->
      by (destruct (or_false c); [now injection Hbg|discriminate]).
  simpl. split; [reflexivity|]. rewrite background_upload_store. simpl. split.
  - intro W. rewrite <- W1 in W.
    assert (Database.getRecordings
              (match AudioMore.fileUrl ue with
               | Some _ =>
                   if AudioMore.addDoc_ok ue
                   then fst (markSynced st1 (AudioMore.markEnv ue) (Audio.newId e))
                   else st1
               | None => st1
               end) = Database.getRecordings st1) as L.
    { destruct (AudioMore.fileUrl ue); [|reflexivity].
      destruct (AudioMore.addDoc_ok ue); [|reflexivity].
      now apply markSynced_mobile_list. }
    split; [exact L|]. rewrite getRecording_find, L, <- getRecording_find, Hget.
    reflexivity.
  - intros W (url & ->) -> S. rewrite <- W1 in W.
    rewrite markSynced_web_found by assumption. now rewrite Hget.
Qed.

Lemma X14_background_upload_local_flag_witness :
  option_map Recording.isSynced
    (Database.getRecording
       (fst (AudioMore.uploadToFirebaseInBackground
               (snd (fst (fst (Audio.stopRecordingAndUpload
                                 audio_recording device_capturing mobile0
                                 commit_online "user1" metadata_5000))))
               (Firebase.mk [] []) upload_env_ok task1))
       "local_1700000000000_k3j9x2a1b")
  = Some false.
Proof.
  exact (proj2 (proj1 (proj2 (X14_background_upload_local_flag
           audio_recording _ device_capturing _ mobile0 _ commit_online "user1"
           metadata_5000 task1 _ (Firebase.mk [] []) upload_env_ok eq_refl))
           eq_refl)).
Defined.

(** * Further properties of the song downloads *)

Lemma dl_has_id_true (i : string) (x : Songs.DownloadedSong) :
  Songs.dl_has_id i x = true -> Songs.id x = i.
Proof. unfold Songs.dl_has_id. apply String.eqb_eq. Qed.

Lemma dl_has_id_refl (x : Songs.DownloadedSong) : Songs.dl_has_id (Songs.id x) x = true.
Proof. unfold Songs.dl_has_id. apply String.eqb_refl. Qed.

Lemma dl_has_id_other (i j : string) (x : Songs.DownloadedSong) :
  j <> i -> Songs.dl_has_id i x = true -> Songs.dl_has_id j x = false.
Proof.
  unfold Songs.dl_has_id. intros N H. apply String.eqb_eq in H.
  apply String.eqb_neq. congruence.
Qed.

Lemma find_replaced (song : Songs.DownloadedSong) (l : list Songs.DownloadedSong) :
  existsb (Songs.dl_has_id (Songs.id song)) l = true ->
  find (Songs.dl_has_id (Songs.id song)) (Songs.replaceFirst song l) = Some song.
Proof.
  induction l as [|a l IH]; [discriminate|]. simpl.
  destruct (Songs.dl_has_id (Songs.id song) a) eqn:E; simpl.
  - now rewrite dl_has_id_refl.
  - rewrite E. exact IH.
Qed.

Lemma find_other_replaced (j : string) (song : Songs.DownloadedSong)
    (l : list Songs.DownloadedSong) :
  j <> Songs.id song ->
  find (Songs.dl_has_id j) (Songs.replaceFirst song l) = find (Songs.dl_has_id j) l.
Proof.
  intro N. induction l as [|a l IH]; [reflexivity|]. simpl.
  destruct (Songs.dl_has_id (Songs.id song) a) eqn:E; simpl.
  - rewrite (dl_has_id_other (Songs.id song) j song N (dl_has_id_refl song)).
    now rewrite (dl_has_id_other (Songs.id song) j a N E).
  - now rewrite IH.
Qed.

Lemma replaceFirst_length (song : Songs.DownloadedSong) (l : list Songs.DownloadedSong) :
  length (Songs.replaceFirst song l) = length l.
Proof.
  induction l as [|a l IH]; [reflexivity|]. simpl.
  destruct (Songs.dl_has_id (Songs.id song) a); simpl; [reflexivity|now rewrite IH].
Qed.

Lemma replaceFirst_again (song : Songs.DownloadedSong) (l : list Songs.DownloadedSong) :
  Songs.replaceFirst song (Songs.replaceFirst song l) = Songs.replaceFirst song l.
Proof.
  induction l as [|a l IH]; [reflexivity|]. simpl.
  destruct (Songs.dl_has_id (Songs.id song) a) eqn:E; simpl.
  - now rewrite dl_has_id_refl.
  - now rewrite E, IH.
Qed.

Lemma replaceFirst_exists (song : Songs.DownloadedSong) (l : list Songs.DownloadedSong) :
  existsb (Songs.dl_has_id (Songs.id song)) (Songs.replaceFirst song l)
  = existsb (Songs.dl_has_id (Songs.id song)) l.
Proof.
  induction l as [|a l IH]; [reflexivity|]. simpl.
  destruct (Songs.dl_has_id (Songs.id song) a) eqn:E; simpl.
  - now rewrite dl_has_id_refl.
  - now rewrite E, IH.
Qed.

(** A save of a downloaded song that resolves: what was written. *)
Lemma saveDownloadedSong_written
    (stored stored' : slot Songs.DownloadedSong) (ok : bool) (song : Songs.DownloadedSong) :
  Songs.saveDownloadedSong stored ok song = (stored', Ok tt) ->
  stored' = Json (if existsb (Songs.dl_has_id (Songs.id song))
                       (SongsMore.getDownloadedSongs stored)
                  then Songs.replaceFirst song (SongsMore.getDownloadedSongs stored)
                  else song :: SongsMore.getDownloadedSongs stored).
Proof.
  unfold Songs.saveDownloadedSong.
  destruct stored as [| |l]; try discriminate; destruct ok; try discriminate;
    intro H; now injection H as <-.
Qed.

Lemma saveDownloadedSong_found
    (stored stored' : slot Songs.DownloadedSong) (ok : bool) (song : Songs.DownloadedSong) :
  Songs.saveDownloadedSong stored ok song = (stored', Ok tt) ->
  SongsMore.getDownloadedSong stored' (Songs.id song) = Some song.
Proof.
  intro H. apply saveDownloadedSong_written in H. subst stored'.
  unfold SongsMore.getDownloadedSong. simpl.
  destruct (existsb _ _) eqn:E.
  - now apply find_replaced.
  - simpl. now rewrite dl_has_id_refl.
Qed.

(** X15.  [saveDownloadedSong] is an upsert by id.  When it resolves,
    [getDownloadedSong] of the id returns the song just saved and of any
    other id what it returned before; the list keeps its length when an
    entry of the id was there and grows by one when not; saving the same
    song again changes nothing.  When it throws the list is untouched. *)
Theorem X15_saveDownloadedSong_upserts_by_id :
  (forall (stored stored' : slot Songs.DownloadedSong) (ok : bool)
          (song : Songs.DownloadedSong),
      Songs.saveDownloadedSong stored ok song = (stored', Ok tt) ->
      SongsMore.getDownloadedSong stored' (Songs.id song) = Some song
      /\ (forall j, j <> Songs.id song ->
            SongsMore.getDownloadedSong stored' j = SongsMore.getDownloadedSong stored j)
      /\ length (SongsMore.getDownloadedSongs stored')
         = match SongsMore.getDownloadedSong stored (Songs.id song) with
           | Some _ => length (SongsMore.getDownloadedSongs stored)
           | None => S (length (SongsMore.getDownloadedSongs stored))
           end
      /\ Songs.saveDownloadedSong stored' ok song = (stored', Ok tt))
  /\ (forall (stored stored' : slot Songs.DownloadedSong) (ok : bool)
             (song : Songs.DownloadedSong) (m : string),
         Songs.saveDownloadedSong stored ok song = (stored', Throw m) ->
         stored' = stored).
Proof.
  split.
  - intros stored stored' ok song H.
    split; [now apply saveDownloadedSong_found with (stored := stored) (ok := ok)|].
    pose proof (saveDownloadedSong_written _ _ _ _ H) as W.
    assert (ok = true) as ->.
    { unfold Songs.saveDownloadedSong in H.
      destruct stored; try discriminate; destruct ok; try discriminate; reflexivity. }
    subst stored'. unfold SongsMore.getDownloadedSong. simpl.
    destruct (existsb (Songs.dl_has_id (Songs.id song))
                (SongsMore.getDownloadedSongs stored)) eqn:E.
    + split; [|split].
      * intros j N. now apply find_other_replaced.
      * rewrite replaceFirst_length.
        destruct (find _ _) eqn:F; [reflexivity|].
        apply existsb_exists in E as (x & Hx & Ex).
        now rewrite (find_none _ _ F x Hx) in Ex.
      * unfold Songs.saveDownloadedSong.
        now rewrite replaceFirst_exists, E, replaceFirst_again.
    + split; [|split].
      * intros j N. simpl.
        now rewrite (dl_has_id_other (Songs.id song) j song N (dl_has_id_refl song)).
      * simpl. destruct (find _ _) as [x|] eqn:F; [|reflexivity].
        apply find_some in F as [Hx Ex].
        assert (existsb (Songs.dl_has_id (Songs.id song))
                  (SongsMore.getDownloadedSongs stored) = true) as E'
            by (apply existsb_exists; now exists x).
        congruence.
      * unfold Songs.saveDownloadedSong. simpl. now rewrite dl_has_id_refl.
  - intros stored stored' ok song m. unfold Songs.saveDownloadedSong.
    destruct stored; try (intro H; now injection H); destruct ok;
      try discriminate; intro H; now injection H.
Qed.

Lemma X15_saveDownloadedSong_upserts_by_id_witness :
  SongsMore.getDownloadedSong
    (fst (Songs.saveDownloadedSong (Json [downloaded_s1]) true downloaded_s1)) "s1"
  = Some downloaded_s1
  /\ length (SongsMore.getDownloadedSongs
               (fst (Songs.saveDownloadedSong (Json [downloaded_s1]) true downloaded_s1)))
     = 1.
Proof.
  split; [|reflexivity].
  exact (proj1 (proj1 X15_saveDownloadedSong_upserts_by_id
                  (Json [downloaded_s1]) _ true downloaded_s1 eq_refl)).
Defined.

Lemma dl_find_after_removal (i : string) (l : list Songs.DownloadedSong) :
  find (Songs.dl_has_id i) (filter (fun s => negb (Songs.dl_has_id i s)) l) = None.
Proof.
  induction l as [|a l IH]; [reflexivity|]. simpl.
  destruct (Songs.dl_has_id i a) eqn:E; simpl; [exact IH|]. now rewrite E.
Qed.

Lemma dl_find_other_after_removal (i j : string) (l : list Songs.DownloadedSong) :
  j <> i ->
  find (Songs.dl_has_id j) (filter (fun s => negb (Songs.dl_has_id i s)) l)
  = find (Songs.dl_has_id j) l.
Proof.
  intro N. induction l as [|a l IH]; [reflexivity|]. simpl.
  destruct (Songs.dl_has_id i a) eqn:E; simpl.
  - now rewrite (dl_has_id_other i j a N E).
  - now rewrite IH.
Qed.

(** X16.  [deleteDownloadedSong] returns [true] only when an entry of the id
    was stored; then every entry of that id is gone and the other songs
    are found as before.  When it returns [false] (nothing stored, a list
    that does not parse, no such id, or a failed write) the stored list is
    untouched. *)
Theorem X16_deleteDownloadedSong_reports_removal :
  forall (stored : slot Songs.DownloadedSong) (ok : bool) (i : string),
    (snd (SongsMore.deleteDownloadedSong stored ok i) = true ->
     (exists x, SongsMore.getDownloadedSong stored i = Some x)
     /\ SongsMore.getDownloadedSong (fst (SongsMore.deleteDownloadedSong stored ok i)) i
        = None
     /\ forall j, j <> i ->
          SongsMore.getDownloadedSong (fst (SongsMore.deleteDownloadedSong stored ok i)) j
          = SongsMore.getDownloadedSong stored j)
    /\ (snd (SongsMore.deleteDownloadedSong stored ok i) = false ->
        fst (SongsMore.deleteDownloadedSong stored ok i) = stored)
    /\ (SongsMore.getDownloadedSong stored i = None ->
        snd (SongsMore.deleteDownloadedSong stored ok i) = false).
Proof.
  intros stored ok i. unfold SongsMore.deleteDownloadedSong, SongsMore.getDownloadedSong.
  destruct stored as [| |l]; simpl; try (repeat split; intros; try discriminate;
                                             reflexivity).
  destruct (length (filter _ l) =? length l)%nat eqn:L.
  - simpl. split; [discriminate|]. split; reflexivity.
  - assert (exists x, find (Songs.dl_has_id i) l = Some x) as Found.
    { destruct (find (Songs.dl_has_id i) l) as [x|] eqn:F; [now exists x|].
      exfalso. apply Nat.eqb_neq in L. apply L. f_equal.
      clear L. induction l as [|a l IH]; [reflexivity|]. simpl in *.
      destruct (Songs.dl_has_id i a); [discriminate|]. simpl. f_equal. now apply IH. }
    destruct ok; simpl.
    + split; [|split; [discriminate|]].
      * intros _. split; [exact Found|]. split.
        -- apply dl_find_after_removal.
        -- intros j N. now apply dl_find_other_after_removal.
      * destruct Found as [x ->]. discriminate.
    + split; [discriminate|]. split; [reflexivity|].
      destruct Found as [x ->]. discriminate.
Qed.

Lemma X16_deleteDownloadedSong_reports_removal_witness :
  SongsMore.getDownloadedSong
    (fst (SongsMore.deleteDownloadedSong (Json [downloaded_s1]) true "s1")) "s1" = None.
Proof.
  exact (proj1 (proj2 (proj1 (X16_deleteDownloadedSong_reports_removal
                                (Json [downloaded_s1]) true "s1") eq_refl))).
Defined.

(** X17.  When [downloadFirebaseSong] returns [true], the local file exists
    and is not empty, and [getDownloadedSong] of the id finds an entry
    marked downloaded whose [audioUrl] is the local path.  When it returns
    [false] the downloaded-song list is untouched. *)
Theorem X17_downloadFirebaseSong_verified_or_untouched :
  forall (stored : slot Songs.DownloadedSong) (fs : Songs.FileSystem)
         (e : Songs.FirebaseEnv) (i : string),
    (snd (Songs.downloadFirebaseSong stored fs e i) = true ->
     exists size x,
       Songs.getInfo (snd (fst (Songs.downloadFirebaseSong stored fs e i)))
         ((Songs.documentDirectory (Songs.fenv e) ++ "songs/") ++ i ++ ".m4a")
       = Some size
       /\ size <> 0%Z
       /\ SongsMore.getDownloadedSong
            (fst (fst (Songs.downloadFirebaseSong stored fs e i))) i = Some x
       /\ Songs.isDownloaded x = true
       /\ Songs.audioUrl x
          = (Songs.documentDirectory (Songs.fenv e) ++ "songs/") ++ i ++ ".m4a")
    /\ (snd (Songs.downloadFirebaseSong stored fs e i) = false ->
        fst (fst (Songs.downloadFirebaseSong stored fs e i)) = stored).
Proof.
  intros stored fs e i. unfold Songs.downloadFirebaseSong.
  destruct (Songs.remoteSong e) as [[song|]|m]; try (split; [discriminate|reflexivity]).
  destruct (negb _ && negb _); [split; [discriminate|reflexivity]|].
  match goal with |- context [match ?u with Some _ => _ | None => _ end] =>
    destruct u as [url|] end; [|split; [discriminate|reflexivity]].
  destruct (Songs.download (Songs.fenv e)) as [[status written]|];
    [|split; [discriminate|reflexivity]].
  destruct (Z.eqb status 200); [|split; [discriminate|reflexivity]].
  simpl.
  destruct (Songs.getInfo _ _) as [size|] eqn:G; [|split; [discriminate|reflexivity]].
  destruct (Z.eqb size 0) eqn:Zs; [split; [discriminate|reflexivity]|].
  destruct (Songs.saveDownloadedSong _ _ _) as [stored1 [u|m]] eqn:S.
  - simpl. split; [|discriminate]. intros _. destruct u.
    apply saveDownloadedSong_found in S. simpl in S.
    eexists. eexists. split; [exact G|]. split; [now apply Z.eqb_neq|].
    split; [exact S|]. now split.
  - simpl. split; [discriminate|]. intros _.
    unfold Songs.saveDownloadedSong in S.
    destruct stored; try (now injection S);
      destruct (Songs.storageWrite_ok e); try discriminate; now injection S.
Qed.

Lemma X17_downloadFirebaseSong_verified_or_untouched_witness :
  exists size x,
    Songs.getInfo
      (snd (fst (Songs.downloadFirebaseSong Absent fs0 firebase_env_full_file "s1")))
      "file:///documents/songs/s1.m4a" = Some size
    /\ size <> 0%Z
    /\ SongsMore.getDownloadedSong
         (fst (fst (Songs.downloadFirebaseSong Absent fs0 firebase_env_full_file "s1")))
         "s1" = Some x
    /\ Songs.isDownloaded x = true
    /\ Songs.audioUrl x = "file:///documents/songs/s1.m4a".
Proof.
  exact (proj1 (X17_downloadFirebaseSong_verified_or_untouched
                  Absent fs0 firebase_env_full_file "s1") eq_refl).
Defined.



(** ** The sample songs *)

Lemma getSong_none_no_row (st : Database.t) (e : Database.Env) (i : string) (x : Song.t) :
  Database.getSong st e i = Ok None -> In x (song_rows st) ->
  Database.song_has_id i x = false.
Proof.
  unfold Database.getSong, song_rows. destruct (Database.db st) as [d|]; [|contradiction].
  destruct (Database.getAllAsync_ok e); [|discriminate].
  intros H Hx. injection H as F. exact (find_none _ _ F x Hx).
Qed.

Lemma saveSong_song_rows (st : Database.t) (e : Database.Env) (song : Song.t) :
  song_rows (fst (Database.saveSong st e song))
  = match Database.db st with
    | Some d =>
        if Database.runAsync_ok e
        then (filter (fun y => negb (Database.song_has_id (Song.id song) y))
                (Database.songs d) ++ [Song.stamped (Database.now e) song])%list
        else Database.songs d
    | None => []
    end.
Proof.
  unfold Database.saveSong, song_rows.
  destruct (Database.db st) as [d|] eqn:D; [|simpl; now rewrite D].
  destruct (Database.runAsync_ok e); simpl; [reflexivity|now rewrite D].
Qed.

Lemma saveSong_keeps_other_rows (st : Database.t) (e : Database.Env) (song x : Song.t) :
  Database.song_has_id (Song.id song) x = false ->
  In x (song_rows st) -> In x (song_rows (fst (Database.saveSong st e song))).
Proof.
  intros N Hx. rewrite saveSong_song_rows. unfold song_rows in Hx.
  destruct (Database.db st) as [d|]; [|contradiction].
  destruct (Database.runAsync_ok e); [|exact Hx].
  apply in_or_app. left. apply filter_In. split; [exact Hx|]. now rewrite N.
Qed.

Lemma loadSampleSongs_keeps_rows
    (stringify : list Songs.LyricLine -> string) (env : string -> Database.Env)
    (samples : list SongsMore.SongMetadata) :
  forall st x, In x (song_rows st) ->
               In x (song_rows (SongsMore.loadSampleSongs stringify env samples st)).
Proof.
  induction samples as [|m rest IH]; intros st x Hx; [exact Hx|]. simpl.
  destruct (Database.getSong st (env (SongsMore.id m)) (SongsMore.id m))
    as [[y|]|msg] eqn:G; [now apply IH | | exact Hx].
  pose proof (saveSong_keeps_other_rows st (env (SongsMore.id m))
                (SongsMore.sampleRow stringify m) x
                (getSong_none_no_row _ _ _ x G Hx) Hx) as K.
  destruct (Database.saveSong st (env (SongsMore.id m)) _) as [st1 [u|msg]];
    simpl in K; [now apply IH|exact K].
Qed.

Lemma loadSampleSongs_table_rows
    (stringify : list Songs.LyricLine -> string) (env : string -> Database.Env)
    (samples : list SongsMore.SongMetadata) :
  forall st, table_rows (SongsMore.loadSampleSongs stringify env samples st)
             = table_rows st.
Proof.
  induction samples as [|m rest IH]; intro st; [reflexivity|]. simpl.
  destruct (Database.getSong st (env (SongsMore.id m)) (SongsMore.id m))
    as [[y|]|msg]; [apply IH | | reflexivity].
  assert (table_rows (fst (Database.saveSong st (env (SongsMore.id m))
                             (SongsMore.sampleRow stringify m))) = table_rows st) as K.
  { unfold Database.saveSong, table_rows.
    destruct (Database.db st) as [d|] eqn:D; [|simpl; now rewrite D].
    destruct (Database.runAsync_ok _); simpl; [reflexivity|now rewrite D]. }
  destruct (Database.saveSong st (env (SongsMore.id m)) _) as [st1 [u|msg]];
    simpl in K; [now rewrite IH|exact K].
Qed.

Lemma loadSampleSongs_present
    (stringify : list Songs.LyricLine -> string) (env : string -> Database.Env)
    (samples : list SongsMore.SongMetadata) :
  forall st,
    (forall m, In m samples ->
               exists x, In x (song_rows st) /\ Song.id x = SongsMore.id m) ->
    SongsMore.loadSampleSongs stringify env samples st = st.
Proof.
  induction samples as [|m rest IH]; intros st H; [reflexivity|]. simpl.
  destruct (Database.getSong st (env (SongsMore.id m)) (SongsMore.id m))
    as [[y|]|msg] eqn:G; [|exfalso|reflexivity].
  - apply IH. intros m' Hm. apply H. now right.
  - destruct (H m (or_introl eq_refl)) as (x & Hx & Id).
    pose proof (getSong_none_no_row _ _ _ x G Hx) as N.
    unfold Database.song_has_id in N. rewrite Id in N.
    now rewrite String.eqb_refl in N.
Qed.

Lemma loadSampleSongs_loads
    (stringify : list Songs.LyricLine -> string) (env : string -> Database.Env)
    (samples : list SongsMore.SongMetadata) :
  (forall i, sql_ok (env i) = true) ->
  forall st d, Database.db st = Some d ->
    forall m, In m samples ->
      exists x, In x (song_rows (SongsMore.loadSampleSongs stringify env samples st))
                /\ Song.id x = SongsMore.id m.
Proof.
  intro Sql. induction samples as [|m0 rest IH]; intros st d D m Hm; [contradiction|].
  simpl. pose proof (Sql (SongsMore.id m0)) as S0. unfold sql_ok in S0.
  apply andb_true_iff in S0 as [Q0 R0].
  unfold Database.getSong. rewrite D, Q0.
  destruct (find (Database.song_has_id (SongsMore.id m0)) (Database.songs d))
    as [y|] eqn:F.
  - destruct Hm as [<- | Hm]; [|now apply IH with (d := d)].
    apply find_some in F as [Hy Iy]. exists y. split.
    + apply loadSampleSongs_keeps_rows. unfold song_rows. now rewrite D.
    + now apply song_has_id_true.
  - rewrite (saveSong_written st d (env (SongsMore.id m0))
               (SongsMore.sampleRow stringify m0) D R0).
    destruct Hm as [<- | Hm].
    + eexists. split.
      * apply loadSampleSongs_keeps_rows. unfold song_rows. simpl.
        apply in_or_app. right. now left.
      * reflexivity.
    + eapply IH; [reflexivity|exact Hm].
Qed.

(** X19.  [loadSampleSongs] only adds: every row the songs table held is
    still there afterwards, unchanged, so a song marked downloaded stays
    so, and the recordings table is untouched.  With the database open and
    its statements running, every sample song has a row afterwards.  Once
    every sample song has a row, loading again changes nothing. *)
Theorem X19_loadSampleSongs_adds_missing_only :
  forall (stringify : list Songs.LyricLine -> string) (env : string -> Database.Env)
         (samples : list SongsMore.SongMetadata) (st : Database.t),
    (forall x, In x (song_rows st) ->
               In x (song_rows (SongsMore.loadSampleSongs stringify env samples st)))
    /\ table_rows (SongsMore.loadSampleSongs stringify env samples st) = table_rows st
    /\ ((forall i, sql_ok (env i) = true) ->
        (exists d, Database.db st = Some d) ->
        forall m, In m samples ->
          exists x, In x (song_rows (SongsMore.loadSampleSongs stringify env samples st))
                    /\ Song.id x = SongsMore.id m)
    /\ ((forall m, In m samples ->
           exists x, In x (song_rows st) /\ Song.id x = SongsMore.id m) ->
        SongsMore.loadSampleSongs stringify env samples st = st).
Proof.
  intros stringify env samples st. split; [|split; [|split]].
  - apply loadSampleSongs_keeps_rows.
  - apply loadSampleSongs_table_rows.
  - intros Sql [d D]. now apply loadSampleSongs_loads with (d := d).
  - apply loadSampleSongs_present.
Qed.

Lemma X19_loadSampleSongs_adds_missing_only_witness :
  exists x,
    In x (song_rows (SongsMore.loadSampleSongs (fun _ => "[]") (fun _ => env_ok)
                       [sample_a; sample_b] catalog_s1))
    /\ Song.id x = "1".
Proof.
  apply (proj1 (proj2 (proj2 (X19_loadSampleSongs_adds_missing_only
           (fun _ => "[]") (fun _ => env_ok) [sample_a; sample_b] catalog_s1)))
           (fun _ => eq_refl) (ex_intro _ (Database.mkDb [song1] []) eq_refl) sample_a).
  now left.
Defined.

(** * The capture state machine over sequences of calls *)










(** * Two passes in succession *)

Lemma performSync_keeps_service (e : Sync.Env) (w : Sync.World) :
  Sync.sync (after_pass e w) = Sync.sync w.
Proof.
  unfold after_pass, Sync.performSync.
  destruct (Sync.performSync_enter (Sync.sync w)) as [s1|] eqn:En; [|reflexivity].
  apply performSync_enter_spec in En as (_ & Sy & ->).
  pose proof (performSync_body_keeps_sync e
                (Sync.mkWorld (Sync.set_isSyncing true (Sync.sync w))
                   (Sync.store w) (Sync.remote w))) as K.
  destruct (Sync.performSync_body e _) as [w2 log]. simpl in *. rewrite K.
  now apply set_isSyncing_back.
Qed.




(** The rows of the sync table after a pass that is let in and reads its
    queue. *)
Lemma performSync_ran_rows (e : Sync.Env) (w : Sync.World) :
  Sync.isOnline (Sync.sync w) = true ->
  Sync.isSyncing (Sync.sync w) = false ->
  Database.getAllAsync_ok (Sync.queryEnv e) = true ->
  option_map Database.recordings (Database.db (Sync.store (after_pass e w)))
  = option_map Database.recordings
      (Database.db (mark_uploaded (Sync.sync w) e (unsynced_rows (Sync.store w))
                      (Sync.store w))).
Proof.
  intros On Sy Q. unfold after_pass, Sync.performSync, Sync.performSync_enter.
  rewrite On, Sy. simpl.
  unfold Sync.performSync_body, Sync.uploadUnsyncedRecordings. simpl.
  rewrite (getUnsynced_when_ok _ _ Q).
  destruct (uploadLoop_spec (Sync.set_isSyncing true (Sync.sync w)) e
              (unsynced_rows (Sync.store w)) (Sync.store w) (Sync.remote w))
    as [L1 _].
  destruct (Sync.uploadLoop _ e _ _ _) as [[st fb] log]. simpl in *.
  rewrite mark_uploaded_flag in L1. subst st.
  exact (saveSongs_rows e (Sync.fetchNewSongsFromBackend e) _).
Qed.

(** What a pass leaves in the queue was in it before, and is not a
    recording the pass uploaded. *)
Lemma performSync_leftover (e : Sync.Env) (w : Sync.World) (r : Recording.t) :
  In r (unsynced_rows (Sync.store (after_pass e w))) ->
  In r (unsynced_rows (Sync.store w)).
Proof.
  destruct (performSync_store e w) as [q E]. unfold after_pass. rewrite E.
  apply mark_uploaded_shrinks.
Qed.

Lemma performSync_leftover_failed (e : Sync.Env) (w : Sync.World) (r : Recording.t) :
  web_has_no_db (Sync.store w) ->
  Sync.isOnline (Sync.sync w) = true ->
  Sync.isSyncing (Sync.sync w) = false ->
  Database.getAllAsync_ok (Sync.queryEnv e) = true ->
  In r (unsynced_rows (Sync.store (after_pass e w))) ->
  upload_succeeds (Sync.sync w) e r = false.
Proof.
  intros Wf On Sy Q H. pose proof (performSync_leftover e w r H) as Hq.
  destruct (performSync_ran e w On Sy Q) as (_ & _ & R & _).
  unfold after_pass in H. rewrite R in H.
  destruct (upload_succeeds (Sync.sync w) e r) eqn:U; [exfalso|reflexivity].
  destruct (Database.isWeb (Sync.store w)) eqn:W.
  - unfold unsynced_rows, table_rows in Hq. now rewrite (Wf W) in Hq.
  - exact (mark_uploaded_clears _ _ _ _ r r W Hq U H eq_refl).
Qed.


(** *** Marking when a statement fails *)

Lemma markSynced_db_none (st : Database.t) (e : Database.Env) (i : string) :
  Database.db st = None -> Database.db (fst (markSynced st e i)) = None.
Proof.
  intro D. destruct (Database.isWeb st) eqn:W.
  - now rewrite markSynced_web_db.
  - unfold markSynced. rewrite markSynced_mobile by exact W. now rewrite D.
Qed.

Lemma mark_uploaded_db_none (s : Sync.t) (e : Sync.Env) (q : list Recording.t) :
  forall st, Database.db st = None -> Database.db (mark_uploaded s e q st) = None.
Proof.
  induction q as [|x q IH]; intros st D; [exact D|]. simpl. apply IH.
  destruct (upload_succeeds s e x); [now apply markSynced_db_none|exact D].
Qed.

(** On the phone, one [UPDATE] of the pass that throws drops the handle
    for the rest of the pass. *)
Lemma mark_uploaded_drops (s : Sync.t) (e : Sync.Env) (q : list Recording.t) :
  forall st x,
    Database.isWeb st = false ->
    In x q -> upload_succeeds s e x = true ->
    sql_ok (Sync.markEnv e x) = false ->
    Database.db (mark_uploaded s e q st) = None.
Proof.
  induction q as [|y q IH]; intros st x W Hx U F; [contradiction|]. simpl.
  destruct Hx as [-> | Hx].
  - rewrite U. apply mark_uploaded_db_none.
    unfold markSynced. rewrite markSynced_mobile by exact W.
    destruct (Database.db st) eqn:D; [now rewrite F | exact D].
  - apply (IH _ x); [|exact Hx|exact U|exact F].
    destruct (upload_succeeds s e y); [now rewrite markSynced_isWeb|exact W].
Qed.

Lemma NoDup_map_inj {A B} (f : A -> B) (l : list A) (a b : A) :
  NoDup (map f l) -> In a l -> In b l -> f a = f b -> a = b.
Proof.
  induction l as [|x l IH]; intros N Ha Hb E; [contradiction|].
  simpl in N. inversion N as [|? ? Nx Nl]; subst.
  destruct Ha as [-> | Ha], Hb as [-> | Hb].
  - reflexivity.
  - exfalso. apply Nx. rewrite E. now apply in_map.
  - exfalso. apply Nx. rewrite <- E. now apply in_map.
  - now apply IH.
Qed.




(** * A failed upload and the rest of the queue *)

(** C8, as stated, fails: the [recordings] table of the phone holds the
    unsynced rows ["r1"] and ["r2"]; in the pass the upload of ["r1"] fails
    and the one of ["r2"] goes through, so the loop does reach ["r2"], but
    the [UPDATE] that marks ["r2"] throws and [updateRecordingSyncStatus]
    drops the database handle.  [getUnsyncedRecordings] then resolves to the
    empty list, and the next pass, in which every upload would go through,
    attempts nothing: ["r1"] is not retried. *)
Lemma C8_failed_upload_not_retried :
  attempts pass_r1_fails_mark_throws world_rows = [(row1, false); (row2, true)]
  /\ length (remote_records (after_pass pass_r1_fails_mark_throws world_rows)) = 1
  /\ Database.getUnsyncedRecordings
       (Sync.store (after_pass pass_r1_fails_mark_throws world_rows)) env_ok = Ok []
  /\ attempts pass_uploads (after_pass pass_r1_fails_mark_throws world_rows) = [].
Proof. repeat split; reflexivity. Qed.

(** C8, amended.  A pass that is let in and reads its queue attempts every
    recording of the queue, in order, whatever each upload and each marking
    does, and creates one remote record for each upload that goes through.
    When no SQL statement fails in [updateRecordingSyncStatus] for the
    recordings the pass uploads, the recordings left in the queue are
    exactly those whose upload failed, each with [isSynced] false, and the
    next pass that reads its queue attempts exactly them.  When such a
    statement fails on the phone, the database handle is dropped:
    [getUnsyncedRecordings] resolves to the empty list and the next pass
    attempts nothing.  (The rows of the table have distinct ids, and the
    browser build has no database handle.) *)
Theorem C8_failed_upload_retried_unless_marking_fails
    (e1 e2 : Sync.Env) (w : Sync.World) :
  Sync.isOnline (Sync.sync w) = true ->
  Sync.isSyncing (Sync.sync w) = false ->
  Database.getAllAsync_ok (Sync.queryEnv e1) = true ->
  web_has_no_db (Sync.store w) ->
  NoDup (map Recording.id (table_rows (Sync.store w))) ->
  attempts e1 w = loop_log (Sync.sync w) e1 (unsynced_rows (Sync.store w))
  /\ length (remote_records (after_pass e1 w))
     = length (remote_records w)
       + length (filter (upload_succeeds (Sync.sync w) e1)
                   (unsynced_rows (Sync.store w)))
  /\ ((forall x, In x (unsynced_rows (Sync.store w)) ->
                 upload_succeeds (Sync.sync w) e1 x = true ->
                 sql_ok (Sync.markEnv e1 x) = true) ->
      (forall r, In r (unsynced_rows (Sync.store (after_pass e1 w)))
                 <-> In r (unsynced_rows (Sync.store w))
                     /\ upload_succeeds (Sync.sync w) e1 r = false)
      /\ (forall r, In r (unsynced_rows (Sync.store w)) ->
                    upload_succeeds (Sync.sync w) e1 r = false ->
                    Recording.isSynced r = false
                    /\ (Database.getAllAsync_ok (Sync.queryEnv e2) = true ->
                        In (r, upload_succeeds (Sync.sync w) e2 r)
                           (attempts e2 (after_pass e1 w))))
      /\ (Database.getAllAsync_ok (Sync.queryEnv e2) = true ->
          map fst (attempts e2 (after_pass e1 w))
          = unsynced_rows (Sync.store (after_pass e1 w))))
  /\ (Database.isWeb (Sync.store w) = false ->
      (exists x, In x (unsynced_rows (Sync.store w))
                 /\ upload_succeeds (Sync.sync w) e1 x = true
                 /\ sql_ok (Sync.markEnv e1 x) = false) ->
      Database.db (Sync.store (after_pass e1 w)) = None
      /\ Database.getUnsyncedRecordings (Sync.store (after_pass e1 w)) (Sync.queryEnv e2)
         = Ok []
      /\ attempts e2 (after_pass e1 w) = []).
Proof.
  intros On Sy Q Wf Nd.
  destruct (performSync_ran e1 w On Sy Q) as (L & _ & R & C).
  assert (Sync.sync (after_pass e1 w) = Sync.sync w) as K
      by apply performSync_keeps_service.
  assert (Database.getAllAsync_ok (Sync.queryEnv e2) = true ->
          attempts e2 (after_pass e1 w)
          = loop_log (Sync.sync w) e2 (unsynced_rows (Sync.store (after_pass e1 w))))
    as Next.
  { intro Q2. destruct (performSync_ran e2 (after_pass e1 w)) as (L2 & _);
      [now rewrite K | now rewrite K | exact Q2 |].
    unfold attempts. now rewrite L2, K. }
  split; [exact L|]. split; [exact C|]. split.
  - intro Sql.
    assert (forall r, In r (unsynced_rows (Sync.store (after_pass e1 w)))
                      <-> In r (unsynced_rows (Sync.store w))
                          /\ upload_succeeds (Sync.sync w) e1 r = false) as Left.
    { intro r. split.
      - intro H. split; [now apply (performSync_leftover e1 w)|].
        exact (performSync_leftover_failed e1 w r Wf On Sy Q H).
      - intros [Hq F]. unfold after_pass. rewrite R.
        apply mark_uploaded_keeps; [|exact Hq].
        intros x Hx U. split; [|now apply Sql].
        intro E. unfold unsynced_rows in Hq, Hx.
        apply filter_In in Hq as [Hq _]. apply filter_In in Hx as [Hx' _].
        pose proof (NoDup_map_inj Recording.id _ r x Nd Hq Hx' E) as Same.
        subst x. congruence. }
    split; [exact Left|]. split.
    + intros r Hq F. split.
      * unfold unsynced_rows in Hq. apply filter_In in Hq as [_ Hq].
        unfold unsynced in Hq. now destruct (Recording.isSynced r).
      * intro Q2. rewrite (Next Q2). apply In_loop_log. split; [|reflexivity].
        apply Left. now split.
    + intro Q2. rewrite (Next Q2). apply map_fst_loop_log.
  - intros W (x & Hx & U & F).
    pose proof (performSync_ran_rows e1 w On Sy Q) as Rows.
    rewrite (mark_uploaded_drops _ _ _ _ x W Hx U F) in Rows. simpl in Rows.
    assert (Database.db (Sync.store (after_pass e1 w)) = None) as D.
    { destruct (Database.db (Sync.store (after_pass e1 w))); [discriminate|reflexivity]. }
    split; [exact D|]. split.
    + unfold Database.getUnsyncedRecordings. now rewrite D.
    + apply performSync_empty_queue. unfold unsynced_rows, table_rows. now rewrite D.
Qed.

Lemma C8_failed_upload_retried_unless_marking_fails_witness :
  attempts pass_r1_fails world_rows = [(row1, false); (row2, true)]
  /\ (In row1 (unsynced_rows (Sync.store (after_pass pass_r1_fails world_rows)))
      /\ ~ In row2 (unsynced_rows (Sync.store (after_pass pass_r1_fails world_rows))))
  /\ In (row1, true) (attempts pass_uploads (after_pass pass_r1_fails world_rows))
  /\ map fst (attempts pass_uploads (after_pass pass_r1_fails world_rows)) = [row1].
Proof.
  assert (web_has_no_db (Sync.store world_rows)) as Wf by (intro H; discriminate H).
  assert (NoDup (map Recording.id (table_rows (Sync.store world_rows)))) as Nd.
  { simpl. constructor; [intros [H|[]]; discriminate H|].
    constructor; [intros []|constructor]. }
  destruct (C8_failed_upload_retried_unless_marking_fails
              pass_r1_fails pass_uploads world_rows eq_refl eq_refl eq_refl Wf Nd)
    as (L & _ & P & _).
  split; [exact L|].
  destruct (P (fun _ _ _ => eq_refl)) as (Left & Retry & Next).
  split; [split|split].
  - apply Left. split; [left; reflexivity | reflexivity].
  - intro H. apply Left in H as [_ F]. discriminate F.
  - exact (proj2 (Retry row1 (or_introl eq_refl) eq_refl) eq_refl).
  - rewrite (Next eq_refl). reflexivity.
Defined.
